(** * Coverage metrics over simulation event logs

    A shallow embedding of the three analysis programs of the repository:

    - [Script]   : the top-level script of [RESULT.py] (lines 1-216),
    - [Report]   : the [pandas] program that follows it in [RESULT.py]
                   ([parse_eventlogreport] ... [main], lines 218-493),
    - [Sainaosi] : [output/sainaosi.py].

    Modelling conventions.
    - A Python [str] is a [string] whose characters are code points below
      256; the character classes ([isspace], [isdigit], [lower]) are the
      Unicode ones restricted to that range.
    - A Python [float] is [pyfloat]: NaN, an infinity or a finite value,
      which is a rational.  The results of [/], [*] and [+] are rounded to
      the nearest binary64 number, ties to the even significand
      ([binary64]); comparisons are exact.  The operands here are lengths
      and their quotients, far below the overflow threshold, so that
      [binary64] has no case for it.
    - The builtin [float(...)] is a parameter [float] of the parsers.
      [int(...)] refuses a literal of more than 4300 digits, the
      interpreter's default limit.
    - A Python [set] is a [gset]; its iteration order is the one of
      [elements] (Python leaves it unspecified).
    - A [DataFrame] is the list of its rows; a cell that may hold [None]
      or a missing value is an [option].  Where the behaviour of [pandas]
      depends on its release, the one of the 2.x releases is taken.
    - Writing files is left out: a function returns the rows it writes. *)

From Stdlib Require Import ZArith QArith Qpower Qabs Lqa String Ascii List Bool Lia.
From Stdlib Require Import DecimalString.
From Stdlib Require Import Sorting.Sorted.
From stdpp Require Import base gmap sets list strings.

Open Scope string_scope.
Open Scope Z_scope.

(* ===================================================================== *)
(** * Python builtins *)
(* ===================================================================== *)

Module Py.

Definition ord (c : ascii) : N := N_of_ascii c.

Definition between (lo hi : N) (c : ascii) : bool :=
  ((lo <=? ord c) && (ord c <=? hi))%N.

(** [str.isspace] on one character (also what [split()] and [strip()]
    treat as a separator). *)
Definition isspace (c : ascii) : bool :=
  between 9 13 c || between 28 32 c || (ord c =? 133)%N || (ord c =? 160)%N.

(** [str.isdigit] on one character: the decimal digits and the three
    superscript digits of Latin-1. *)
Definition isdigit (c : ascii) : bool :=
  between 48 57 c || (ord c =? 178)%N || (ord c =? 179)%N || (ord c =? 185)%N.

(** The class [\d] of [re] and the digits accepted by [int(...)]. *)
Definition isdecimal (c : ascii) : bool := between 48 57 c.

Definition lower_char (c : ascii) : ascii :=
  if between 65 90 c || between 192 214 c || between 216 222 c
  then ascii_of_N (ord c + 32) else c.

Fixpoint lower (s : string) : string :=
  match s with
  | EmptyString => EmptyString
  | String c s' => String (lower_char c) (lower s')
  end.

Definition startswith (s p : string) : bool := String.prefix p s.

Definition is_empty (s : string) : bool :=
  match s with EmptyString => true | _ => false end.

Fixpoint lstrip (s : string) : string :=
  match s with
  | EmptyString => EmptyString
  | String c s' => if isspace c then lstrip s' else s
  end.

Fixpoint rstrip (s : string) : string :=
  match s with
  | EmptyString => EmptyString
  | String c s' =>
      let r := rstrip s' in
      if is_empty r && isspace c then EmptyString else String c r
  end.

Definition strip (s : string) : string := rstrip (lstrip s).

(** [s.split()]: the maximal runs of non-space characters.  [tok] is the
    field being read, if any. *)
Fixpoint split_from (tok : option string) (s : string) : list string :=
  match s with
  | EmptyString => match tok with Some t => [t] | None => [] end
  | String c s' =>
      if isspace c
      then match tok with
           | Some t => t :: split_from None s'
           | None => split_from None s'
           end
      else split_from (Some (default "" tok ++ String c "")) s'
  end.

Definition split (s : string) : list string := split_from None s.

(** [s == t] on strings. *)
Definition str_eq (s t : string) : bool := String.eqb s t.

(** The value of a string of decimal digits. *)
Definition digits_value (s : string) : Z :=
  fold_left (fun acc c => 10 * acc + Z.of_N (ord c - 48)) (list_ascii_of_string s) 0.

Fixpoint all_chars (p : ascii -> bool) (s : string) : bool :=
  match s with
  | EmptyString => true
  | String c s' => p c && all_chars p s'
  end.

(** [sys.int_info.default_max_str_digits]. *)
Definition max_str_digits : Z := 4300.

(** [int(s)] for a string without sign, spaces or underscores; [None]
    stands for [ValueError], which is also raised for a literal of more
    than [max_str_digits] digits, leading zeros included. *)
Definition int (s : string) : option Z :=
  if negb (is_empty s) && all_chars isdecimal s
     && (Z.of_nat (String.length s) <=? max_str_digits)
  then Some (digits_value s)
  else None.

(** [str(n)] for an integer. *)
Definition str_of_int (n : Z) : string :=
  DecimalString.NilZero.string_of_int (Z.to_int n).

(** Floats. *)
Inductive pyfloat : Type :=
| FNaN
| FInf (negative : bool)
| FFin (q : Q).

(** [x > n], [x >= n], [x < n], [x <= n] for a float and an integer. *)
Definition Q_gt_int (q : Q) (n : Z) : bool := n * Zpos (Qden q) <? Qnum q.
Definition Q_ge_int (q : Q) (n : Z) : bool := n * Zpos (Qden q) <=? Qnum q.
Definition Q_lt_int (q : Q) (n : Z) : bool := Qnum q <? n * Zpos (Qden q).
Definition Q_le_int (q : Q) (n : Z) : bool := Qnum q <=? n * Zpos (Qden q).

Definition gt_int (x : pyfloat) (n : Z) : bool :=
  match x with FNaN => false | FInf neg => negb neg | FFin q => Q_gt_int q n end.
Definition ge_int (x : pyfloat) (n : Z) : bool :=
  match x with FNaN => false | FInf neg => negb neg | FFin q => Q_ge_int q n end.
Definition lt_int (x : pyfloat) (n : Z) : bool :=
  match x with FNaN => false | FInf neg => neg | FFin q => Q_lt_int q n end.
Definition le_int (x : pyfloat) (n : Z) : bool :=
  match x with FNaN => false | FInf neg => neg | FFin q => Q_le_int q n end.

(** The mathematical reading of [a < x <= b] on floats: only a finite
    [x] can satisfy it. *)
Definition in_left_open (a b : Z) (x : pyfloat) : Prop :=
  exists q, x = FFin q /\ (inject_Z a < q)%Q /\ (q <= inject_Z b)%Q.

(** [a <= x < b] on floats. *)
Definition in_right_open (a b : Z) (x : pyfloat) : Prop :=
  exists q, x = FFin q /\ (inject_Z a <= q)%Q /\ (q < inject_Z b)%Q.

(** [x < y] for two floats. *)
Definition float_lt (x y : pyfloat) : bool :=
  match x, y with
  | FNaN, _ | _, FNaN => false
  | FInf nx, FInf ny => nx && negb ny
  | FInf nx, FFin _ => nx
  | FFin _, FInf ny => negb ny
  | FFin a, FFin b => Qnum a * Zpos (Qden b) <? Qnum b * Zpos (Qden a)
  end.

(** [pandas.isna] / [math.isnan] on a float. *)
Definition isnan (x : pyfloat) : bool :=
  match x with FNaN => true | _ => false end.

(** Rounding to the nearest integer, ties to the even one. *)
Definition round_half_even (q : Q) : Z :=
  let d := Zpos (Qden q) in
  let f := Qnum q / d in
  let r := Qnum q mod d in
  match (2 * r) ?= d with
  | Lt => f
  | Gt => f + 1
  | Eq => if Z.even f then f else f + 1
  end.

(** The [k] with [2^k <= q < 2^(k+1)], for [q > 0]. *)
Definition floor_log2 (q : Q) : Z :=
  let k := Z.log2 (Qnum q) - Z.log2 (Zpos (Qden q)) in
  if Qle_bool (2 ^ k) q then k else k - 1.

(** The exponent of the last place of the binary64 numbers around [q]:
    53 significant bits, and no exponent below the one of the subnormal
    numbers. *)
Definition ulp_exp (q : Q) : Z := Z.max (floor_log2 (Qabs q) - 52) (-1074).

(** The binary64 number nearest to [q], ties to the even significand:
    the value of the float that an arithmetic operation with the exact
    result [q] returns. *)
Definition binary64 (q : Q) : Q :=
  if Qeq_bool q 0 then 0%Q
  else
    let e := ulp_exp q in
    Qred (inject_Z (round_half_even (q * 2 ^ (- e))) * 2 ^ e).

(** [n / d] for integers [n] and [d <> 0]: the quotient, rounded once. *)
Definition true_div (n d : Z) : Q := binary64 (inject_Z n / inject_Z d).

(** [n / d * 100.0] for integers [n] and [d <> 0]. *)
Definition percent (n d : Z) : Q := binary64 (true_div n d * 100).

(** [x + y] for two finite floats. *)
Definition float_add (x y : Q) : Q := binary64 (x + y).

(** Exceptions that the modelled code can raise. *)
Inductive exn : Type := KeyError | ValueError | OverflowError.

Inductive result (A : Type) : Type :=
| Ok (a : A)
| Raise (e : exn).
Arguments Ok {A} a.
Arguments Raise {A} e.

Definition bind_result {A B : Type} (k : A -> result B) (m : result A) : result B :=
  match m with Ok a => k a | Raise e => Raise e end.

(** [round(x)]: an [int], or an exception on NaN and the infinities. *)
Definition round (x : pyfloat) : result Z :=
  match x with
  | FNaN => Raise ValueError
  | FInf _ => Raise OverflowError
  | FFin q => Ok (round_half_even q)
  end.

(** [round(x, 1)]: the decimal with one digit after the point that is
    nearest to the value of [x], ties to the even digit.  The float
    returned is the binary64 number nearest to this decimal, and [str]
    writes it as this decimal. *)
Definition round1 (x : pyfloat) : pyfloat :=
  match x with
  | FFin q => FFin (Qmake (round_half_even (q * 10)%Q) 10)
  | _ => x
  end.

(** Comparison of strings and of the tuples used as sort keys. *)
Definition str_lt (s t : string) : bool := String.ltb s t.

Definition key2_lt (a b : string * Z) : bool :=
  if str_eq (fst a) (fst b) then snd a <? snd b else str_lt (fst a) (fst b).

Definition key3_lt (a b : string * Z * string) : bool :=
  let '(a1, a2, a3) := a in
  let '(b1, b2, b3) := b in
  if str_eq a1 b1
  then if a2 =? b2 then str_lt a3 b3 else a2 <? b2
  else str_lt a1 b1.

(** [list.sort(key=...)] and [sorted(..., key=...)]: a stable sort that
    compares keys with [<]. *)
Section Sort.
Context {A K : Type} (lt : K -> K -> bool) (key : A -> K).

Fixpoint insert_by (x : A) (l : list A) : list A :=
  match l with
  | [] => [x]
  | y :: l' => if lt (key y) (key x) then y :: insert_by x l' else x :: l
  end.

Definition sort_by (l : list A) : list A := foldr insert_by [] l.

(** [x] may stay before [y]: the key of [y] is not smaller. *)
Definition in_order (x y : A) : Prop := lt (key y) (key x) = false.
End Sort.

(** The longest suffix of [s] made of characters of class [digit], and
    what is before it. *)
Fixpoint split_trailing (digit : ascii -> bool) (s : string) : string * string :=
  match s with
  | EmptyString => (EmptyString, EmptyString)
  | String c s' =>
      let '(h, d) := split_trailing digit s' in
      if is_empty h && digit c then (EmptyString, String c d)
      else (String c h, d)
  end.

(** Whether the last character of [s] is of class [p]. *)
Fixpoint last_is (p : ascii -> bool) (s : string) : bool :=
  match s with
  | EmptyString => false
  | String c EmptyString => p c
  | String _ s' => last_is p s'
  end.

Definition is_newline (c : ascii) : bool := (ord c =? 10)%N.

(** What a final [$] of a regular expression looks at: the subject
    without its last character when that is a newline. *)
Fixpoint chomp (s : string) : string :=
  match s with
  | EmptyString => EmptyString
  | String c s' =>
      if is_empty s' && is_newline c then EmptyString else String c (chomp s')
  end.

(** [re.compile("^" + p + "\d+$", re.IGNORECASE).match(s)] for a
    lower-case literal [p]. *)
Definition match_prefix_digits (p s : string) : bool :=
  let body := chomp s in
  let n := String.length p in
  str_eq (lower (substring 0 n body)) p
  && (n <? String.length body)%nat
  && all_chars isdecimal (substring n (String.length body - n) body).

(** [re.compile("^" + p, re.IGNORECASE).match(s)] for a lower-case
    literal [p]. *)
Definition match_prefix (p s : string) : bool := startswith (lower s) p.

(** [Series.unique()] and [drop_duplicates()]: first occurrences, in
    order. *)
Fixpoint unique_from {A : Type} `{EqDecision A} (seen l : list A) : list A :=
  match l with
  | [] => []
  | x :: l' =>
      if bool_decide (x ∈ seen) then unique_from seen l'
      else x :: unique_from (x :: seen) l'
  end.

Definition unique {A : Type} `{EqDecision A} (l : list A) : list A :=
  unique_from [] l.

(** [parts[i]], used only below a test of [len(parts)]. *)
Definition item (parts : list string) (i : nat) : string := nth i parts "".

Definition len {A : Type} (l : list A) : Z := Z.of_nat (length l).

(** [typ == s] for [typ = parts[1] if len(parts) > 1 else None]. *)
Definition tag_is (typ : option string) (s : string) : bool :=
  match typ with
  | Some t => str_eq t s
  | None => false
  end.

(** [range(start, stop, step)] for [step <> 0]. *)
Definition range3 (start stop step : Z) : list Z :=
  let n :=
    if 0 <? step then (stop - start + step - 1) / step
    else (start - stop - step - 1) / (- step) in
  (fun i => start + i * step) <$> seqZ 0 n.

(** [enumerate(l, start=1)]. *)
Definition enumerate1 {A : Type} (l : list A) : list (Z * A) :=
  zip (seqZ 1 (len l)) l.

End Py.

#[export] Instance result_ret : MRet Py.result := @Py.Ok.
#[export] Instance result_bind : MBind Py.result := @Py.bind_result.

(* ===================================================================== *)
(** * The script of RESULT.py (lines 1-216) *)
(* ===================================================================== *)

Module Script.
Import Py.

(** An element of [events]: [{"time","type","src","dst","id"}] with
    ["type"] one of ['C'], ['R'], ['D']. *)
Inductive etype : Type := C | R | D.

Record event : Type := mkEvent {
  time : pyfloat;
  type : etype;
  src : string;
  dst : option string;
  id : string
}.

#[export] Instance etype_eq_dec : EqDecision etype.
Proof. solve_decision. Defined.

Definition is_box (name : option string) : bool :=
  match name with
  | None => false
  | Some s => startswith (lower s) "box"
  end.

Definition is_do (name : option string) : bool :=
  match name with
  | None => false
  | Some s => startswith (lower s) "do"
  end.

Definition is_high_id (mid : option string) : bool :=
  match mid with
  | None => false
  | Some s => startswith (lower s) "m_h"
  end.

Definition is_low_id (mid : option string) : bool :=
  match mid with
  | None => false
  | Some s => startswith (lower s) "m_l"
  end.

(** [sort_key] of [natural_sort_ids]: the loop collects the trailing
    [isdigit] characters into [num]. *)
Definition sort_key (s : string) : string * Z :=
  let '(head, num) := split_trailing isdigit s in
  if is_empty num then (s, -1)
  else match int num with
       | Some n => (head, n)
       | None => (s, -1)
       end.

Definition natural_sort_ids (ids_list : list string) : list string :=
  sort_by key2_lt sort_key ids_list.

Section Run.

(** The builtin [float] and the configuration constants. *)
Variable float : string -> option pyfloat.
Variables BIN_SECONDS TOTAL_HOURS : Z.
Variables EXCLUDE_BOX EXCLUDE_DO : bool.

(** One turn of the reading loop: the events appended for line [raw]. *)
Definition parse_line (raw : string) : list event :=
  let line := strip raw in
  if is_empty line then []
  else
    let parts := split line in
    match parts with
    | [] => []
    | p0 :: _ =>
        match float p0 with
        | None => []
        | Some t =>
            let typ := parts !! 1%nat in
            if tag_is typ "C" && (4 <=? len parts) then
              [mkEvent t C (item parts 2) None (item parts 3)]
            else if tag_is typ "DE" && (6 <=? len parts) then
              let st := item parts 5 in
              if str_eq st "R" then
                [mkEvent t R (item parts 2) (Some (item parts 3)) (item parts 4)]
              else if str_eq st "D" then
                [mkEvent t D (item parts 2) (Some (item parts 3)) (item parts 4)]
              else []
            else []
        end
    end.

Definition events (log : list string) : list event :=
  flat_map parse_line log.

(** The denominator: every [src] and [dst], without the excluded names. *)
Definition add_endpoints (nodes : gset string) (e : event) : gset string :=
  let nodes := nodes ∪ {[ src e ]} in
  match dst e with
  | Some d => nodes ∪ {[ d ]}
  | None => nodes
  end.

Definition nodes_unfiltered (evs : list event) : gset string :=
  foldl add_endpoints ∅ evs.

Definition excluded (name : option string) : bool :=
  (EXCLUDE_BOX && is_box name) || (EXCLUDE_DO && is_do name).

Definition nodes_all (evs : list event) : gset string :=
  filter (fun n => excluded (Some n) = false) (nodes_unfiltered evs).

Definition N (evs : list event) : Z := Z.of_nat (size (nodes_all evs)).

(** High priority: the R and D events kept as receipts. *)
Definition is_receipt (e : event) : bool :=
  match type e with
  | R | D => is_high_id (Some (id e)) && negb (excluded (dst e))
  | C => false
  end.

Definition rd_events_high (evs : list event) : list event :=
  List.filter is_receipt evs.

Definition mh_ids_set (evs : list event) : gset string :=
  list_to_set (id <$> rd_events_high evs).

Definition mh_ids (evs : list event) : list string :=
  natural_sort_ids (elements (mh_ids_set evs)).

(** A line of [MH_hourly_firsttime_81.csv]. *)
Record hrow : Type := mkHrow {
  row_id : string;
  hour_index : Z;
  row_N : Z;
  n_firsttime_receivers_hour : Z;
  rate_percent_hour : Z;
  cumulative_rate_percent : Z
}.

Definition start_time (h : Z) : Z := (h - 1) * BIN_SECONDS.
Definition end_time (h : Z) : Z := h * BIN_SECONDS.

Definition in_hour (h : Z) (t : pyfloat) : bool :=
  gt_int t (start_time h) && le_int t (end_time h).

(** The events of [mid] that fall into hour [h], and their receivers. *)
Definition hour_events (rd : list event) (mid : string) (h : Z) : list event :=
  List.filter (fun e => str_eq (id e) mid && in_hour h (time e)) rd.

Definition hour_receivers (rd : list event) (mid : string) (h : Z)
  : gset (option string) :=
  list_to_set (dst <$> hour_events rd mid h).

Definition first_time_nodes (hour_recv already_seen : gset (option string))
  : gset (option string) :=
  hour_recv ∖ already_seen.

(** Both rates are finite floats, on which [round] cannot fail. *)
Definition rate (n_nodes n : Z) : Z :=
  round_half_even (if 0 <? n_nodes then percent n n_nodes else 0%Q).

(** The body of the [while h <= TOTAL_HOURS] loop: the line written and
    the updated [already_seen_nodes]. *)
Definition hour_step (rd : list event) (n_nodes : Z) (mid : string) (h : Z)
    (already_seen : gset (option string)) : hrow * gset (option string) :=
  let first := first_time_nodes (hour_receivers rd mid h) already_seen in
  let n_hour := Z.of_nat (size first) in
  let seen' := already_seen ∪ first in
  (mkHrow mid h n_nodes n_hour (rate n_nodes n_hour)
     (rate n_nodes (Z.of_nat (size seen'))),
   seen').

(** [todo] turns of the loop, starting at hour [h]. *)
Fixpoint hour_loop (rd : list event) (n_nodes : Z) (mid : string)
    (todo : nat) (h : Z) (already_seen : gset (option string)) : list hrow :=
  match todo with
  | O => []
  | S todo' =>
      let '(row, seen') := hour_step rd n_nodes mid h already_seen in
      row :: hour_loop rd n_nodes mid todo' (h + 1) seen'
  end.

Definition rows_of_id (rd : list event) (n_nodes : Z) (mid : string) : list hrow :=
  hour_loop rd n_nodes mid (Z.to_nat TOTAL_HOURS) 1 ∅.

(** The value of [already_seen_nodes] at the end of the turn for hour [h]
    (before the first turn for [h = 0]), and the set [first_time_nodes]
    of that turn. *)
Fixpoint seen_after (rd : list event) (mid : string) (h : nat)
  : gset (option string) :=
  match h with
  | O => ∅
  | S h' =>
      let seen := seen_after rd mid h' in
      seen ∪ first_time_nodes (hour_receivers rd mid (Z.of_nat (S h'))) seen
  end.

Definition counted_in (rd : list event) (mid : string) (h : nat)
  : gset (option string) :=
  first_time_nodes (hour_receivers rd mid (Z.of_nat h)) (seen_after rd mid (pred h)).

(** The line written in the turn for hour [h], in these terms. *)
Definition row_at (rd : list event) (n_nodes : Z) (mid : string) (h : nat) : hrow :=
  let n_hour := Z.of_nat (size (counted_in rd mid h)) in
  mkHrow mid (Z.of_nat h) n_nodes n_hour (rate n_nodes n_hour)
    (rate n_nodes (Z.of_nat (size (seen_after rd mid h)))).

Definition high_rows (evs : list event) : list hrow :=
  flat_map (rows_of_id (rd_events_high evs) (N evs)) (mh_ids evs).

(** Low priority: created messages and messages with a first D. *)
Fixpoint incr (mid : string) (d : list (string * Z)) : list (string * Z) :=
  match d with
  | [] => [(mid, 1)]
  | (k, v) :: d' => if str_eq k mid then (k, v + 1) :: d' else (k, v) :: incr mid d'
  end.

Definition is_created_low (e : event) : bool :=
  match type e with
  | C => is_low_id (Some (id e))
  | _ => false
  end.

Definition is_delivered_low (e : event) : bool :=
  match type e with
  | D => is_low_id (Some (id e))
  | _ => false
  end.

Definition L_per_id (evs : list event) : list (string * Z) :=
  foldl (fun d e => if is_created_low e then incr (id e) d else d) [] evs.

Definition L_total (evs : list event) : Z :=
  foldl (fun n e => if is_created_low e then n + 1 else n) 0 evs.

Definition delivered_once_ids (evs : list event) : gset string :=
  foldl (fun s e => if is_delivered_low e then s ∪ {[ id e ]} else s) ∅ evs.

Definition P_total (evs : list event) : Z :=
  Z.of_nat (size (delivered_once_ids evs)).

Definition rate_total (evs : list event) : pyfloat :=
  if 0 <? L_total evs then FFin (percent (P_total evs) (L_total evs))
  else FFin 0.

(** The line of [ML_arrival_rate_81.csv]. *)
Definition low_summary (evs : list event) : Z * Z * pyfloat :=
  (L_total evs, P_total evs, round1 (rate_total evs)).

Definition natural_sorted_keys (d : list (string * Z)) : list string :=
  natural_sort_ids (fst <$> d).

Definition dict_get (d : list (string * Z)) (k : string) (dflt : Z) : Z :=
  match List.find (fun kv => str_eq (fst kv) k) d with
  | Some kv => snd kv
  | None => dflt
  end.

(** The lines of [ML_arrival_rate_by_id_81.csv]. *)
Definition low_by_id (evs : list event) : list (string * Z * Z * pyfloat) :=
  let d := L_per_id evs in
  (fun mid =>
     let L_i := dict_get d mid 0 in
     let P_i := if bool_decide (mid ∈ delivered_once_ids evs) then 1 else 0 in
     let rate_i := if 0 <? L_i then FFin (percent P_i L_i) else FFin 0 in
     (mid, L_i, P_i, round1 rate_i)) <$> natural_sorted_keys d.

(** Everything the script writes for a log. *)
Definition run (log : list string)
  : list hrow * (Z * Z * pyfloat) * list (string * Z * Z * pyfloat) :=
  let evs := events log in
  (high_rows evs, low_summary evs, low_by_id evs).

End Run.

(** The constants at the top of the file. *)
Definition BIN_SECONDS : Z := 3600.
Definition TOTAL_HOURS : Z := 12.
Definition EXCLUDE_BOX : bool := true.
Definition EXCLUDE_DO : bool := true.

End Script.

(* ===================================================================== *)
(** * The pandas program of RESULT.py (lines 218-493) *)
(* ===================================================================== *)

Module Report.
Import Py.

(** A row of the frame built by [parse_eventlogreport]. *)
Inductive rtype : Type := CONN | C | S | DE.

Record row : Type := mkRow {
  Time : pyfloat;
  Typ : rtype;
  Src : string;
  Dst : option string;
  Id : option string;
  Status : option string
}.

#[export] Instance rtype_eq_dec : EqDecision rtype.
Proof. solve_decision. Defined.

Definition is_type (r : row) (t : rtype) : bool := bool_decide (Typ r = t).

(** [Series.astype(str)] on a cell. *)
Definition astype_str (cell : option string) : string := default "None" cell.

Definition notna (cell : option string) : bool :=
  match cell with Some _ => true | None => false end.

Definition cell_is (cell : option string) (s : string) : bool :=
  match cell with Some c => str_eq c s | None => false end.

(** The compiled patterns. *)
Definition BOX_RE (s : string) : bool := match_prefix_digits "box" s.
Definition ID_HIGH_RE (s : string) : bool := match_prefix "m_h" s.
Definition ID_LOW_RE (s : string) : bool := match_prefix "m_l" s.
Definition CLUSTER_REGEX : list (string * (string -> bool)) :=
  [("p", match_prefix_digits "p");
   ("q", match_prefix_digits "q");
   ("r", match_prefix_digits "r")].

(** [natural_key]: [re.search(r"(\d+)$", mid)] finds the longest run of
    digits that ends where [$] matches; [int] raises on a run that is too
    long. *)
Definition natural_key (mid : string) : result (string * Z * string) :=
  let '(head, digits) := split_trailing isdecimal (chomp mid) in
  if is_empty digits then Ok (mid, -1, mid)
  else match int digits with
       | Some n => Ok (head, n, mid)
       | None => Raise ValueError
       end.

(** [sorted(ids, key=natural_key)]: the keys are computed first, one per
    element and in order, then the elements are sorted by them. *)
Fixpoint with_keys (ids : list string) : result (list (string * Z * string * string)) :=
  match ids with
  | [] => Ok []
  | mid :: ids' =>
      k ← natural_key mid;
      rest ← with_keys ids';
      mret ((k, mid) :: rest)
  end.

Definition sorted_natural (ids : list string) : result (list string) :=
  keyed ← with_keys ids;
  mret (snd <$> sort_by key3_lt fst keyed).

Definition hourly_bins (total_hours bin_sec : Z) : list (Z * Z * Z) :=
  (fun h => (h, (h - 1) * bin_sec, h * bin_sec)) <$> seqZ 1 total_hours.

(** A line of [MH_all_hourly_progression_Rbased]. *)
Record hrow : Type := mkHrow {
  row_id : string;
  hour_index : Z;
  row_N : Z;
  n_receivers_hour : Z;
  rate_percent_hour : Z;
  cumulative_rate_percent : Z
}.

(** A line of [MH_all_hourly_progression_by_cluster_Rbased]. *)
Record crow : Type := mkCrow {
  c_id : string;
  c_hour_index : Z;
  Cluster : string;
  N_cluster : Z;
  c_n_receivers_hour : Z;
  c_rate_percent_hour : pyfloat;
  c_cumulative_rate_percent : pyfloat
}.

Section Run.

Variable float : string -> option pyfloat.
Variables BIN_SECONDS TOTAL_HOURS : Z.
Variable EXCLUDE_BOX_IN_DENOM : bool.

(** The rows appended for one line of the log. *)
Definition parse_line (raw : string) : list row :=
  let line := strip raw in
  if is_empty line then []
  else
    let parts := split line in
    match parts with
    | [] => []
    | p0 :: _ =>
        match float p0 with
        | None => []
        | Some t =>
            let etype := parts !! 1%nat in
            if tag_is etype "CONN" && (5 <=? len parts) then
              [mkRow t CONN (item parts 2) (Some (item parts 3)) None
                 (Some (item parts 4))]
            else if tag_is etype "C" && (4 <=? len parts) then
              [mkRow t C (item parts 2) None (Some (item parts 3)) None]
            else if tag_is etype "S" && (5 <=? len parts) then
              [mkRow t S (item parts 2) (Some (item parts 3))
                 (Some (item parts 4)) None]
            else if tag_is etype "DE" && (6 <=? len parts) then
              [mkRow t DE (item parts 2) (Some (item parts 3))
                 (Some (item parts 4)) (Some (item parts 5))]
            else []
        end
    end.

Definition parse_eventlogreport (log : list string) : list row :=
  flat_map parse_line log.

Definition compute_denominator_nodes (df : list row) (exclude_box : bool)
  : gset string :=
  let nodes : gset string :=
    list_to_set (Src <$> df) ∪ list_to_set (omap Dst df) in
  let nodes := nodes ∖ {[ "" ]} in
  if exclude_box then filter (fun n => BOX_RE n = false) nodes else nodes.

(** The frame [high_R]: DE rows of a high-priority id with status R,
    without the receivers named like a box. *)
Definition is_high_R (r : row) : bool :=
  is_type r DE && notna (Id r) && ID_HIGH_RE (astype_str (Id r))
  && cell_is (Status r) "R".

Definition high_R (df : list row) : list row :=
  let sel := List.filter is_high_R df in
  if EXCLUDE_BOX_IN_DENOM
  then List.filter (fun r => negb (BOX_RE (astype_str (Dst r)))) sel
  else sel.

Definition mh_ids (df : list row) : result (list string) :=
  sorted_natural (unique (astype_str <$> List.filter notna (Id <$> high_R df))).

Definition in_slice (start stop : Z) (r : row) : bool :=
  gt_int (Time r) start && le_int (Time r) stop.

Definition h_slice (sub : list row) (start stop : Z) : list row :=
  List.filter (in_slice start stop) sub.

Definition slice_dsts (sub : list row) (start stop : Z) : gset string :=
  list_to_set ((fun r => astype_str (Dst r)) <$> h_slice sub start stop).

Definition rate_or_nan (n_nodes n : Z) : pyfloat :=
  if 0 <? n_nodes then FFin (percent n n_nodes) else FNaN.

(** The loop over [hourly_bins] for one id; [round] may raise. *)
Fixpoint hour_records (sub : list row) (n_nodes : Z) (mid : string)
    (bins : list (Z * Z * Z)) (seen : gset string) : result (list hrow) :=
  match bins with
  | [] => Ok []
  | (h, start, stop) :: bins' =>
      let dsts := slice_dsts sub start stop in
      let n_hour := Z.of_nat (size dsts) in
      let rate_hour := rate_or_nan n_nodes n_hour in
      let seen' := seen ∪ dsts in
      let cum_rate := rate_or_nan n_nodes (Z.of_nat (size seen')) in
      r1 ← round rate_hour;
      r2 ← round cum_rate;
      rest ← hour_records sub n_nodes mid bins' seen';
      mret (mkHrow mid h n_nodes n_hour r1 r2 :: rest)
  end.

(** The value of [seen] at the end of the turn for hour [h] (before the
    first turn for [h = 0]). *)
Fixpoint seen_after (sub : list row) (h : nat) : gset string :=
  match h with
  | O => ∅
  | Datatypes.S h' =>
      seen_after sub h'
      ∪ slice_dsts sub ((Z.of_nat h - 1) * BIN_SECONDS) (Z.of_nat h * BIN_SECONDS)
  end.

(** The line appended in the turn for hour [h] when the node set is not
    empty, in these terms. *)
Definition row_at (sub : list row) (n_nodes : Z) (mid : string) (h : nat) : hrow :=
  let start := (Z.of_nat h - 1) * BIN_SECONDS in
  let stop := Z.of_nat h * BIN_SECONDS in
  let n_hour := Z.of_nat (size (slice_dsts sub start stop)) in
  mkHrow mid (Z.of_nat h) n_nodes n_hour
    (round_half_even (percent n_hour n_nodes))
    (round_half_even (percent (Z.of_nat (size (seen_after sub h))) n_nodes)).

Definition sub_of (frame : list row) (mid : string) : list row :=
  List.filter (fun r => cell_is (Id r) mid) frame.

Fixpoint for_each {A B : Type} (f : A -> result (list B)) (l : list A)
  : result (list B) :=
  match l with
  | [] => Ok []
  | x :: l' =>
      rows ← f x;
      rest ← for_each f l';
      mret (rows ++ rest)%list
  end.

(** [calc_high_hourly_R_based]: the frame [long_df].  Indexing a frame
    without rows by a column name raises [KeyError]. *)
Definition calc_high_hourly_R_based (df : list row) (nodes_all : gset string)
  : result (list hrow) :=
  match df with
  | [] => Raise KeyError
  | _ =>
      let n_nodes := Z.of_nat (size nodes_all) in
      let hr := high_R df in
      ids ← mh_ids df;
      for_each
        (fun mid =>
           hour_records (sub_of hr mid) n_nodes mid
             (hourly_bins TOTAL_HOURS BIN_SECONDS) ∅)
        ids
  end.

(** The same loop per cluster; the rates are stored unrounded. *)
Fixpoint cluster_hour_records (sub : list row) (cname : string) (n_c : Z)
    (mid : string) (bins : list (Z * Z * Z)) (seen : gset string) : list crow :=
  match bins with
  | [] => []
  | (h, start, stop) :: bins' =>
      let dsts := slice_dsts sub start stop in
      let n_hour := Z.of_nat (size dsts) in
      let rate_hour := rate_or_nan n_c n_hour in
      let seen' := seen ∪ dsts in
      let cum_rate := rate_or_nan n_c (Z.of_nat (size seen')) in
      mkCrow mid h cname n_c n_hour rate_hour cum_rate
        :: cluster_hour_records sub cname n_c mid bins' seen'
  end.

Definition cluster_nodes (nodes_all : gset string) : list (string * gset string) :=
  (fun '(c, rgx) => (c, filter (fun n => rgx n = true) nodes_all)) <$> CLUSTER_REGEX.

Definition calc_high_hourly_R_based_by_cluster (df : list row)
    (nodes_all : gset string) : result (list crow) :=
  match df with
  | [] => Raise KeyError
  | _ =>
      let hr := high_R df in
      ids ← mh_ids df;
      mret (flat_map
              (fun '(cname, cnodes) =>
                 let n_c := Z.of_nat (size cnodes) in
                 let sub_cluster :=
                   List.filter
                     (fun r => bool_decide (astype_str (Dst r) ∈ cnodes)) hr in
                 flat_map
                   (fun mid =>
                      cluster_hour_records (sub_of sub_cluster mid) cname n_c mid
                        (hourly_bins TOTAL_HOURS BIN_SECONDS) ∅)
                   ids)
              (cluster_nodes nodes_all))
  end.

(** [calc_low_arrival_rate_first_delivery]. *)
Definition is_low (r : row) : bool :=
  notna (Id r) && ID_LOW_RE (astype_str (Id r)).

Definition low (df : list row) : list row := List.filter is_low df.

Definition created (df : list row) : list row :=
  List.filter (fun r => is_type r C) (low df).

Definition L_total (df : list row) : Z := len (created df).

Definition is_first_delivery (r : row) : bool :=
  is_type r DE && cell_is (Status r) "D".

Definition delivered_first (df : list row) : list row :=
  List.filter is_first_delivery (low df).

Definition delivered_ids (df : list row) : gset string :=
  list_to_set (astype_str <$> List.filter notna (Id <$> delivered_first df)).

Definition P_total (df : list row) : Z := Z.of_nat (size (delivered_ids df)).

(** The frame [summary]. *)
Definition low_summary (df : list row) : result (Z * Z * pyfloat) :=
  match df with
  | [] => Raise KeyError
  | _ =>
      Ok (L_total df, P_total df,
          if 0 <? L_total df then FFin (percent (P_total df) (L_total df))
          else FNaN)
  end.

(** A line of [Low_arrival_rate_by_id_FIRSTD]: [Id], [L_created],
    [P_first_delivered], [arrival_rate_percent]. *)
Definition idrow : Type := string * Z * Z * pyfloat.

(** [created.groupby("Id")["Time"].count()]: the ids of the created rows
    in increasing order, each with the number of its rows whose time is
    not NaN. *)
Definition L_per_id (df : list row) : list (string * Z) :=
  let ids := unique (astype_str <$> (Id <$> created df)) in
  (fun mid =>
     (mid, len (List.filter
                  (fun r => cell_is (Id r) mid && negb (isnan (Time r)))
                  (created df))))
    <$> sort_by str_lt (fun mid => mid) ids.

(** The frame [per_id].  [merge] refuses to join the key column of a
    table without rows (of strings) with the one made from an empty list
    (of floats). *)
Definition per_id (df : list row) : result (list idrow) :=
  match created df with
  | [] =>
      if bool_decide (delivered_ids df = ∅) then Raise ValueError else Ok []
  | _ =>
      Ok ((fun '(mid, L_created) =>
             let P := if bool_decide (mid ∈ delivered_ids df) then 1 else 0 in
             (mid, L_created, P,
              if 0 <? L_created then FFin (percent P L_created) else FNaN))
            <$> L_per_id df)
  end.

Definition calc_low_arrival_rate_first_delivery (df : list row)
  : result (Z * Z * pyfloat * list idrow) :=
  summary ← low_summary df;
  by_id ← per_id df;
  mret (summary, by_id).

(** [main]: the node set is computed once and passed to both
    aggregations. *)
Definition main (log : list string)
  : result (list hrow * list crow * (Z * Z * pyfloat * list idrow)) :=
  let df := parse_eventlogreport log in
  let nodes_all := compute_denominator_nodes df EXCLUDE_BOX_IN_DENOM in
  long ← calc_high_hourly_R_based df nodes_all;
  by_cluster ← calc_high_hourly_R_based_by_cluster df nodes_all;
  low ← calc_low_arrival_rate_first_delivery df;
  mret (long, by_cluster, low).

End Run.

Definition EXCLUDE_BOX_IN_DENOM : bool := true.
Definition BIN_SECONDS : Z := 3600.
Definition TOTAL_HOURS : Z := 12.

End Report.

(* ===================================================================== *)
(** * output/sainaosi.py *)
(* ===================================================================== *)

Module Sainaosi.
Import Py.

(** [time_range]: [(i, i + 3600)] for [i] in [range(0, 43200, 3600)]. *)
Definition time_range : list (Z * Z) :=
  (fun i => (i, i + 3600)) <$> range3 0 43200 3600.

(** The columns of a chunk file that the two calculators read, as the
    text of their fields. *)
Record csvrow : Type := mkCsv {
  Host : string;
  Tohost : string;
  Id : string;
  Status : string
}.

(** [pd.read_csv] with its default settings reads these fields as a
    missing value.  Every other field is taken to be read as the string
    it is: a column whose fields are all numerals, or all missing, gets a
    numeric type in [pandas] and is outside this model. *)
Definition na_values : list string :=
  [""; "#N/A"; "#N/A N/A"; "#NA"; "-1.#IND"; "-1.#QNAN"; "-NaN"; "-nan";
   "1.#IND"; "1.#QNAN"; "<NA>"; "N/A"; "NA"; "NULL"; "NaN"; "None"; "n/a";
   "nan"; "null"].

(** The cell of the frame for a field: [None] is the missing value. *)
Definition read_cell (field : string) : option string :=
  if bool_decide (field ∈ na_values) then None else Some field.

(** [cell == s] in a comparison of a column with a string: a missing
    value is equal to nothing. *)
Definition cell_is (cell : option string) (s : string) : bool :=
  match cell with Some c => str_eq c s | None => false end.

(** A line of [High_3cluster_<prefix>_cumulative.csv]. *)
Record hres : Type := mkHres {
  file : string;
  target_id : string;
  total_nodes : Z;
  mh_received_nodes : Z;
  High : Q;
  cumulative_high : Q
}.

(** A line of [Low_3cluster.csv]. *)
Record lres : Type := mkLres {
  l_file : string;
  ML_created : Z;
  ML_received : Z;
  Low : Q
}.

Section Run.

Variable float : string -> option pyfloat.

(** [process_and_save]: the lines with six fields or more, sorted by
    time and cut into the chunks of [time_ranges]; only the chunks that
    are not empty are written. *)
Definition read_data (lines : list string) : list (list string) :=
  List.filter (fun parts => negb (len parts <? 6))
    ((fun line => split (strip line)) <$> lines).

Fixpoint with_times (data : list (list string))
  : result (list (pyfloat * list string)) :=
  match data with
  | [] => Ok []
  | entry :: data' =>
      match float (item entry 0) with
      | None => Raise ValueError
      | Some t => rest ← with_times data'; mret ((t, entry) :: rest)
      end
  end.

Definition in_range (start_time end_time : Z) (t : pyfloat) : bool :=
  ge_int t start_time && lt_int t end_time.

Definition grouped_data (data : list (pyfloat * list string))
    (start_time end_time : Z) : list (pyfloat * list string) :=
  List.filter (fun entry => in_range start_time end_time (fst entry)) data.

Definition process_and_save (lines : list string) (time_ranges : list (Z * Z))
  : result (list (Z * list (list string))) :=
  keyed ← with_times (read_data lines);
  let data := sort_by float_lt fst keyed in
  mret (omap
          (fun '(index, (start_time, end_time)) =>
             match grouped_data data start_time end_time with
             | [] => None
             | g => Some (index, snd <$> g)
             end)
          (enumerate1 time_ranges)).

End Run.

(** [pd.concat([data['Host'], data['Tohost']]).drop_duplicates().nunique()]:
    [nunique] does not count the missing value. *)
Definition count_nodes (data : list csvrow) : Z :=
  Z.of_nat (size (list_to_set
                    (omap read_cell ((Host <$> data) ++ (Tohost <$> data))%list)
                  : gset string)).

(** The inner [for tohost in ...] loops: the receivers not seen so far
    are added to the set and counted, [weight] for each.  The missing
    value of a column of strings is one object, and a member of the set
    once it was added. *)
Definition count_new (weight : Z) (seen : gset (option string))
    (tohosts : list (option string)) : gset (option string) * Z :=
  foldl (fun '(seen, n) tohost =>
           if bool_decide (tohost ∈ seen) then (seen, n)
           else (seen ∪ {[ tohost ]}, n + weight))
        (seen, 0) tohosts.

(** The rows [data[(data['Id'] == target_id) & (data['Status'] == 'R')]]. *)
Definition hits (target : string) (data : list csvrow) : list csvrow :=
  List.filter
    (fun r => cell_is (read_cell (Id r)) target && cell_is (read_cell (Status r)) "R")
    data.

(** [calculate_high], the loop over the files for one [target_id]. *)
Fixpoint high_files (target : string) (files : list (string * list csvrow))
    (seen_tohosts : gset (option string)) (cumulative : Q) : list hres :=
  match files with
  | [] => []
  | (file_path, data) :: files' =>
      let total := count_nodes data in
      let '(seen', mh_received) :=
        count_new 1 seen_tohosts
          (unique ((fun r => read_cell (Tohost r)) <$> hits target data)) in
      let high := if 0 <? total then percent mh_received total else 0%Q in
      let cumulative' := float_add cumulative high in
      mkHres file_path target total mh_received high cumulative'
        :: high_files target files' seen' cumulative'
  end.

Definition calculate_high (files : list (string * list csvrow))
    (id_prefix : string) (step max_id : Z) : result (list hres) :=
  if step =? 0 then Raise ValueError
  else
    Ok (flat_map
          (fun id_index =>
             high_files (id_prefix ++ str_of_int id_index) files ∅ 0%Q)
          (range3 1 (max_id + 1) step)).

(** [calculate_low]: one set of seen receivers for all the files.
    [data['Id'].str.startswith('M_L')] is missing where the id is, and a
    frame cannot be indexed by a mask with a missing value. *)
Definition ml_rows (data : list csvrow) : list csvrow :=
  List.filter (fun r => startswith (Id r) "M_L") data.

Definition ml_data (data : list csvrow) : result (list csvrow) :=
  if forallb (fun r => bool_decide (is_Some (read_cell (Id r)))) data
  then Ok (ml_rows data)
  else Raise ValueError.

(** The column [ml_data[ml_data['Status'] == 'D']['Tohost']]. *)
Definition delivered_tohosts (ml : list csvrow) : list (option string) :=
  (fun r => read_cell (Tohost r))
    <$> List.filter (fun r => cell_is (read_cell (Status r)) "D") ml.

Fixpoint low_files (files : list (string * list csvrow))
    (seen_tohosts : gset (option string)) : result (list lres) :=
  match files with
  | [] => Ok []
  | (file_path, data) :: files' =>
      ml ← ml_data data;
      let ml_created := len ml in
      let '(seen', ml_received) :=
        count_new 2 seen_tohosts (delivered_tohosts ml) in
      let low := if 0 <? ml_created then percent ml_received ml_created else 0%Q in
      rest ← low_files files' seen';
      mret (mkLres file_path ml_created ml_received low :: rest)
  end.

Definition calculate_low (files : list (string * list csvrow))
  : result (list lres) :=
  low_files files ∅.

End Sainaosi.

(* ===================================================================== *)
(** * Sample inputs *)
(* ===================================================================== *)

Module Sample.
Import Py.

(** [float(...)] on the literals [d+] and [d+.d+], enough to run the
    parsers on sample logs. *)
Fixpoint split_dot (s : string) : string * option string :=
  match s with
  | EmptyString => (EmptyString, None)
  | String c s' =>
      if (ord c =? 46)%N then (EmptyString, Some s')
      else let '(a, b) := split_dot s' in (String c a, b)
  end.

Definition float (s : string) : option pyfloat :=
  let '(whole, frac) := split_dot s in
  match int whole, frac with
  | Some n, None => Some (FFin (inject_Z n))
  | Some n, Some fs =>
      match int fs with
      | Some m =>
          let scale := Pos.pow 10 (Pos.of_nat (String.length fs)) in
          Some (FFin (Qmake (n * Zpos scale + m) scale))
      | None => None
      end
  | None, _ => None
  end.

(** A run of [n] digits [7]. *)
Fixpoint digit_run (n : nat) : string :=
  match n with
  | O => EmptyString
  | Datatypes.S n' => String "7" (digit_run n')
  end.

(** The scenario log: three nodes, one high-priority message relayed to
    [A] in hour 1 and to [B] and again to [A] in hour 2. *)
Definition scenario_log : list string :=
  ["50 C C M_H1";
   "100 DE C A M_H1 R";
   "3700 DE C B M_H1 R";
   "5000 DE B A M_H1 R"].

End Sample.

(* ===================================================================== *)
(** * Notions used to relate the programs *)
(* ===================================================================== *)

Module Link.
Import Py.

(** [sum(l)] for a list of integers. *)
Definition total (l : list Z) : Z := foldr Z.add 0 l.

(** The event that the script keeps for a row of the frame of the pandas
    program: a [C] row, and a [DE] row with status R or D. *)
Definition event_of_row (r : Report.row) : list Script.event :=
  match Report.Typ r, Report.Dst r, Report.Id r, Report.Status r with
  | Report.C, None, Some mid, None =>
      [Script.mkEvent (Report.Time r) Script.C (Report.Src r) None mid]
  | Report.DE, Some dst, Some mid, Some st =>
      if str_eq st "R" then
        [Script.mkEvent (Report.Time r) Script.R (Report.Src r) (Some dst) mid]
      else if str_eq st "D" then
        [Script.mkEvent (Report.Time r) Script.D (Report.Src r) (Some dst) mid]
      else []
  | _, _, _, _ => []
  end.

(** What the low-priority counts of the script read of an event, and
    what those of the pandas program read of a row: no node name. *)
Definition kind_and_id (e : Script.event) : Script.etype * string :=
  (Script.type e, Script.id e).

Definition row_key (r : Report.row)
  : Report.rtype * option string * option string :=
  (Report.Typ r, Report.Id r, Report.Status r).

(** Whether [e] is a creation of the low-priority message [m]. *)
Definition created_of (m : string) (e : Script.event) : bool :=
  Script.is_created_low e && str_eq (Script.id e) m.

(** The shape of the rows that [parse_eventlogreport] builds. *)
Definition well_shaped (r : Report.row) : Prop :=
  match Report.Typ r with
  | Report.C =>
      Report.Dst r = None /\ Report.Status r = None /\ is_Some (Report.Id r)
  | Report.DE =>
      is_Some (Report.Dst r) /\ is_Some (Report.Status r) /\ is_Some (Report.Id r)
  | Report.S =>
      is_Some (Report.Dst r) /\ Report.Status r = None /\ is_Some (Report.Id r)
  | Report.CONN =>
      is_Some (Report.Dst r) /\ is_Some (Report.Status r) /\ Report.Id r = None
  end.

(** The receivers of the R rows of [target] in a chunk file, and in a
    list of chunk files; the missing value counts as one receiver. *)
Definition received_by (target : string) (data : list Sainaosi.csvrow)
  : gset (option string) :=
  list_to_set
    ((fun r => Sainaosi.read_cell (Sainaosi.Tohost r))
       <$> Sainaosi.hits target data).

Definition received_in (target : string)
    (files : list (string * list Sainaosi.csvrow)) : gset (option string) :=
  ⋃ ((fun f => received_by target (snd f)) <$> files).

(** The receivers of the D rows of the low-priority messages in a list
    of chunk files. *)
Definition delivered_in (files : list (string * list Sainaosi.csvrow))
  : gset (option string) :=
  ⋃ ((fun f => list_to_set
                 (Sainaosi.delivered_tohosts (Sainaosi.ml_rows (snd f))))
       <$> files).

(** No field of the column [Tohost], respectively [Id], of [data] is
    read as missing. *)
Definition named_receivers (data : list Sainaosi.csvrow) : Prop :=
  forall r, r ∈ data -> is_Some (Sainaosi.read_cell (Sainaosi.Tohost r)).

Definition named_ids (data : list Sainaosi.csvrow) : Prop :=
  forall r, r ∈ data -> is_Some (Sainaosi.read_cell (Sainaosi.Id r)).

(** The identifiers of [ids] whose script key is [k], in order. *)
Definition with_key (k : string * Z) (ids : list string) : list string :=
  List.filter (fun s => bool_decide (Script.sort_key s = k)) ids.

(** The run of decimal digits that ends [mid] is one that [int] accepts:
    it has no more than [max_str_digits] digits. *)
Definition short_number (mid : string) : Prop :=
  Z.of_nat (String.length (snd (split_trailing isdecimal (chomp mid))))
  <= max_str_digits.

(** A rate of the per-cluster table is NaN or a percentage. *)
Definition nan_or_percentage (x : pyfloat) : Prop :=
  x = FNaN \/ exists q, x = FFin q /\ (0 <= q)%Q /\ (q <= 100)%Q.

End Link.

(* ===================================================================== *)
(** * Facts about the builtins *)
(* ===================================================================== *)

Module PyFacts.
Import Py.

Lemma is_empty_true (s : string) : is_empty s = true <-> s = "".
Proof. destruct s; simpl; split; congruence. Qed.

Lemma str_eq_true (s t : string) : str_eq s t = true <-> s = t.
Proof. apply String.eqb_eq. Qed.

Lemma str_eq_refl (s : string) : str_eq s s = true.
Proof. apply String.eqb_refl. Qed.

(** Comparisons of a finite float with an integer are the rational ones. *)
Lemma Q_gt_int_spec (q : Q) (n : Z) : Q_gt_int q n = true <-> (inject_Z n < q)%Q.
Proof. unfold Q_gt_int, Qlt; simpl. rewrite Z.ltb_lt. lia. Qed.

Lemma Q_le_int_spec (q : Q) (n : Z) : Q_le_int q n = true <-> (q <= inject_Z n)%Q.
Proof. unfold Q_le_int, Qle; simpl. rewrite Z.leb_le. lia. Qed.

Lemma Q_ge_int_spec (q : Q) (n : Z) : Q_ge_int q n = true <-> (inject_Z n <= q)%Q.
Proof. unfold Q_ge_int, Qle; simpl. rewrite Z.leb_le. lia. Qed.

Lemma Q_lt_int_spec (q : Q) (n : Z) : Q_lt_int q n = true <-> (q < inject_Z n)%Q.
Proof. unfold Q_lt_int, Qlt; simpl. rewrite Z.ltb_lt. lia. Qed.

Lemma gt_le_spec (a b : Z) (x : pyfloat) :
  gt_int x a && le_int x b = true <-> in_left_open a b x.
Proof.
  unfold in_left_open. destruct x as [|neg|q]; simpl.
  - split; [discriminate | intros (q & Hq & _); discriminate].
  - split; [destruct neg; discriminate | intros (q & Hq & _); discriminate].
  - rewrite andb_true_iff, Q_gt_int_spec, Q_le_int_spec. split.
    + intros [H1 H2]. exists q. auto.
    + intros (q' & Hq & H1 & H2). injection Hq as <-. auto.
Qed.

Lemma ge_lt_spec (a b : Z) (x : pyfloat) :
  ge_int x a && lt_int x b = true <-> in_right_open a b x.
Proof.
  unfold in_right_open. destruct x as [|neg|q]; simpl.
  - split; [discriminate | intros (q & Hq & _); discriminate].
  - split; [destruct neg; discriminate | intros (q & Hq & _); discriminate].
  - rewrite andb_true_iff, Q_ge_int_spec, Q_lt_int_spec. split.
    + intros [H1 H2]. exists q. auto.
    + intros (q' & Hq & H1 & H2). injection Hq as <-. auto.
Qed.

(** Two windows [((h-1)W, hW]] that share a point are the same one. *)
Lemma left_open_unique (w h1 h2 : Z) (x : pyfloat) :
  in_left_open ((h1 - 1) * w) (h1 * w) x ->
  in_left_open ((h2 - 1) * w) (h2 * w) x -> h1 = h2.
Proof.
  intros (q & -> & A1 & B1) (q' & Hq & A2 & B2). injection Hq as <-.
  unfold Qlt, Qle in *; simpl in *.
  set (d := Zpos (Qden q)) in *. assert (0 < d) by (subst d; lia).
  destruct (Z.lt_trichotomy h1 h2) as [Hlt | [Heq | Hgt]]; [exfalso | assumption | exfalso]; nia.
Qed.

Lemma right_open_unique (w h1 h2 : Z) (x : pyfloat) :
  in_right_open ((h1 - 1) * w) (h1 * w) x ->
  in_right_open ((h2 - 1) * w) (h2 * w) x -> h1 = h2.
Proof.
  intros (q & -> & A1 & B1) (q' & Hq & A2 & B2). injection Hq as <-.
  unfold Qlt, Qle in *; simpl in *.
  set (d := Zpos (Qden q)) in *. assert (0 < d) by (subst d; lia).
  destruct (Z.lt_trichotomy h1 h2) as [Hlt | [Heq | Hgt]]; [exfalso | assumption | exfalso]; nia.
Qed.

(** The fields of a line are never empty. *)
Lemma split_from_nonempty (s : string) :
  forall tok, (forall t, tok = Some t -> t <> "") ->
  forall p, In p (split_from tok s) -> p <> "".
Proof.
  induction s as [|c s IH]; intros tok Htok p Hp; simpl in Hp.
  - destruct tok as [t|]; simpl in Hp; [|contradiction].
    destruct Hp as [<-|[]]. auto.
  - destruct (isspace c).
    + destruct tok as [t|].
      * destruct Hp as [<-|Hp]; [auto|].
        apply (IH None); [discriminate | assumption].
      * apply (IH None); [discriminate | assumption].
    + apply (IH _ ) in Hp; [assumption|].
      intros t [= <-]. destruct (default "" tok); discriminate.
Qed.

Lemma split_nonempty (s p : string) : In p (split s) -> p <> "".
Proof. apply split_from_nonempty. discriminate. Qed.

Lemma split_empty : split "" = [].
Proof. reflexivity. Qed.

Lemma item_in (parts : list string) (i : nat) :
  (i < length parts)%nat -> In (item parts i) parts.
Proof. intros H. apply nth_In. assumption. Qed.

(** [unique] keeps every element, once. *)
Lemma unique_from_elem {A : Type} `{EqDecision A} (l : list A) :
  forall (seen : list A) (x : A),
  x ∈ unique_from seen l <-> x ∈ l /\ x ∉ seen.
Proof.
  induction l as [|y l IH]; intros seen x; simpl.
  - split; [inversion 1 | intros [H _]; inversion H].
  - case_bool_decide as Hy.
    + rewrite IH, elem_of_cons. split; [tauto|].
      intros [[-> | H] Hn]; [contradiction | auto].
    + rewrite !elem_of_cons, IH, elem_of_cons. split.
      * intros [-> | [H Hn]]; [auto|]. split; [auto|]. tauto.
      * intros [[-> | H] Hn]; [auto|].
        destruct (decide (x = y)) as [-> | Hne]; [auto|]. right. tauto.
Qed.

Lemma unique_set {A : Type} `{Countable A} (l : list A) :
  (list_to_set (unique l) : gset A) = list_to_set l.
Proof.
  apply set_eq. intros x. rewrite !elem_of_list_to_set.
  unfold unique. rewrite unique_from_elem. split; [tauto|].
  intros Hx. split; [assumption | inversion 1].
Qed.

End PyFacts.

(* ===================================================================== *)
(** * The two log parsers *)
(* ===================================================================== *)

Module ParserFacts.
Import Py PyFacts.

Lemma strip_not_empty (raw p : string) (parts : list string) :
  split (strip raw) = p :: parts -> is_empty (strip raw) = false.
Proof.
  intros H. destruct (is_empty (strip raw)) eqn:E; [|reflexivity].
  apply is_empty_true in E. rewrite E in H. discriminate.
Qed.

Lemma len_ge {A : Type} (l : list A) (n : nat) :
  (n <= length l)%nat -> (Z.of_nat n <=? len l) = true.
Proof. intros H. apply Z.leb_le. unfold len. lia. Qed.

(** An [S] line with five fields or more. *)
Lemma report_S (float : string -> option pyfloat) (raw p0 src dst mid : string)
    (rest : list string) (t : pyfloat) :
  split (strip raw) = p0 :: "S" :: src :: dst :: mid :: rest ->
  float p0 = Some t ->
  Report.parse_line float raw
  = [Report.mkRow t Report.S src (Some dst) (Some mid) None].
Proof.
  intros Hs Hf. unfold Report.parse_line.
  rewrite (strip_not_empty _ _ _ Hs), Hs, Hf.
  rewrite (len_ge _ 5), (len_ge _ 4) by (simpl; lia). reflexivity.
Qed.

Lemma report_CONN (float : string -> option pyfloat) (raw p0 src dst st : string)
    (rest : list string) (t : pyfloat) :
  split (strip raw) = p0 :: "CONN" :: src :: dst :: st :: rest ->
  float p0 = Some t ->
  Report.parse_line float raw
  = [Report.mkRow t Report.CONN src (Some dst) None (Some st)].
Proof.
  intros Hs Hf. unfold Report.parse_line.
  rewrite (strip_not_empty _ _ _ Hs), Hs, Hf.
  rewrite (len_ge _ 5), (len_ge _ 4) by (simpl; lia). reflexivity.
Qed.

(** The reading loop of the script has no case for [S] and [CONN]. *)
Lemma script_skips (float : string -> option pyfloat) (raw p0 tag : string)
    (rest : list string) :
  split (strip raw) = p0 :: tag :: rest ->
  tag <> "C" -> tag <> "DE" ->
  Script.parse_line float raw = [].
Proof.
  intros Hs HC HDE. unfold Script.parse_line.
  rewrite (strip_not_empty _ _ _ Hs), Hs.
  destruct (float p0); [|reflexivity].
  cbn [lookup list_lookup tag_is].
  assert (str_eq tag "C" = false) as ->.
  { destruct (str_eq tag "C") eqn:E; [apply str_eq_true in E; contradiction | reflexivity]. }
  assert (str_eq tag "DE" = false) as ->.
  { destruct (str_eq tag "DE") eqn:E; [apply str_eq_true in E; contradiction | reflexivity]. }
  reflexivity.
Qed.

End ParserFacts.

(** C7 (as the code has it).  A line whose first field is a number and
    whose second field is [S], respectively [CONN], with five fields or
    more, gives one Send row, respectively one Connection row, in
    [parse_eventlogreport]; the reading loop of the script, which knows
    only [C] and [DE], appends nothing for such a line. *)
Theorem C7_S_and_CONN_lines (float : string -> option Py.pyfloat)
    (raw p0 f2 f3 f4 : string) (rest : list string) (t : Py.pyfloat) :
  float p0 = Some t ->
  (Py.split (Py.strip raw) = p0 :: "S" :: f2 :: f3 :: f4 :: rest ->
   Report.parse_line float raw
   = [Report.mkRow t Report.S f2 (Some f3) (Some f4) None]
   /\ Script.parse_line float raw = [])
  /\ (Py.split (Py.strip raw) = p0 :: "CONN" :: f2 :: f3 :: f4 :: rest ->
      Report.parse_line float raw
      = [Report.mkRow t Report.CONN f2 (Some f3) None (Some f4)]
      /\ Script.parse_line float raw = []).
Proof.
  intros Hf. split; intros Hs; split.
  - eapply ParserFacts.report_S; eassumption.
  - eapply ParserFacts.script_skips; [eassumption | discriminate | discriminate].
  - eapply ParserFacts.report_CONN; eassumption.
  - eapply ParserFacts.script_skips; [eassumption | discriminate | discriminate].
Qed.

Lemma C7_S_and_CONN_lines_witness :
  Sample.float "12.5" = Some (Py.FFin (125 # 10))
  /\ Py.split (Py.strip "  12.5 S n1 n2 M_H1 extra ")
     = ["12.5"; "S"; "n1"; "n2"; "M_H1"; "extra"]
  /\ Report.parse_line Sample.float "  12.5 S n1 n2 M_H1 extra "
     = [Report.mkRow (Py.FFin (125 # 10)) Report.S "n1" (Some "n2") (Some "M_H1") None]
  /\ Script.parse_line Sample.float "  12.5 S n1 n2 M_H1 extra " = [].
Proof.
  split; [reflexivity|]. split; [reflexivity|].
  apply (C7_S_and_CONN_lines Sample.float "  12.5 S n1 n2 M_H1 extra "
           "12.5" "n1" "n2" "M_H1" ["extra"] (Py.FFin (125 # 10)));
    reflexivity.
Defined.

(** C7, as stated, fails on the script: its loop reads an [S] line and a
    [CONN] line of five fields with a numeric first field and appends no
    event for either. *)
Lemma C7_counterexample :
  Py.split (Py.strip "10 S n1 n2 M_H1") = ["10"; "S"; "n1"; "n2"; "M_H1"]
  /\ Py.split (Py.strip "10 CONN n1 n2 up") = ["10"; "CONN"; "n1"; "n2"; "up"]
  /\ Sample.float "10" = Some (Py.FFin 10)
  /\ Script.events Sample.float ["10 S n1 n2 M_H1"; "10 CONN n1 n2 up"] = [].
Proof. repeat split. Qed.

(* ===================================================================== *)
(** * Hour bins *)
(* ===================================================================== *)

Module BinFacts.
Import Py PyFacts.

Lemma elem_of_List_filter {A : Type} (f : A -> bool) (l : list A) (x : A) :
  x ∈ List.filter f l <-> x ∈ l /\ f x = true.
Proof. rewrite !list_elem_of_In. apply filter_In. Qed.

Lemma script_in_hour (W h : Z) (t : pyfloat) :
  Script.in_hour W h t = true <-> in_left_open ((h - 1) * W) (h * W) t.
Proof. apply gt_le_spec. Qed.

Lemma script_hour_events (W : Z) (rd : list Script.event) (mid : string) (h : Z)
    (e : Script.event) :
  e ∈ Script.hour_events W rd mid h
  <-> e ∈ rd /\ Script.id e = mid
      /\ in_left_open ((h - 1) * W) (h * W) (Script.time e).
Proof.
  unfold Script.hour_events.
  rewrite elem_of_List_filter, andb_true_iff, str_eq_true, script_in_hour.
  tauto.
Qed.

Lemma report_bins (T W h start stop : Z) :
  (h, start, stop) ∈ Report.hourly_bins T W
  <-> 1 <= h <= T /\ start = (h - 1) * W /\ stop = h * W.
Proof.
  unfold Report.hourly_bins. rewrite list_elem_of_fmap. split.
  - intros (h' & [= -> -> ->] & Hin). apply elem_of_seqZ in Hin. lia.
  - intros (Hh & -> & ->). exists h. split; [reflexivity|].
    apply elem_of_seqZ. lia.
Qed.

Lemma report_h_slice (sub : list Report.row) (start stop : Z) (r : Report.row) :
  r ∈ Report.h_slice sub start stop
  <-> r ∈ sub /\ in_left_open start stop (Report.Time r).
Proof.
  unfold Report.h_slice, Report.in_slice.
  rewrite elem_of_List_filter, gt_le_spec. tauto.
Qed.

Lemma sainaosi_ranges (index start stop : Z) :
  (index, (start, stop)) ∈ enumerate1 Sainaosi.time_range
  <-> 1 <= index <= 12 /\ start = (index - 1) * 3600 /\ stop = index * 3600.
Proof.
  let l := eval vm_compute in (enumerate1 Sainaosi.time_range) in
  change (enumerate1 Sainaosi.time_range) with l.
  rewrite list_elem_of_In. simpl. split.
  - intros H. repeat (destruct H as [[= <- <- <-] | H]; [lia|]). destruct H.
  - intros (Hh & -> & ->).
    assert (index = 1 \/ index = 2 \/ index = 3 \/ index = 4 \/ index = 5
            \/ index = 6 \/ index = 7 \/ index = 8 \/ index = 9
            \/ index = 10 \/ index = 11 \/ index = 12) as Hc by lia.
    repeat (destruct Hc as [-> | Hc]; [simpl; tauto|]). subst. simpl. tauto.
Qed.

Lemma sainaosi_grouped (data : list (pyfloat * list string)) (start stop : Z)
    (entry : pyfloat * list string) :
  entry ∈ Sainaosi.grouped_data data start stop
  <-> entry ∈ data /\ in_right_open start stop (fst entry).
Proof.
  unfold Sainaosi.grouped_data, Sainaosi.in_range.
  rewrite elem_of_List_filter, ge_lt_spec. tauto.
Qed.

End BinFacts.

(** C8 (as the code has it).  In both programs of RESULT.py the events
    selected into bin [h] of width [W] are exactly those with
    [(h-1)*W < time <= h*W]; in [process_and_save] of sainaosi.py the
    entries selected into chunk [h] are exactly those with
    [(h-1)*3600 <= time < h*3600].  In each program consecutive bins
    share their boundary and a time belongs to at most one bin. *)
Theorem C8_hour_bins :
  (forall (W : Z) (rd : list Script.event) (mid : string) (h : Z) (e : Script.event),
      e ∈ Script.hour_events W rd mid h
      <-> e ∈ rd /\ Script.id e = mid
          /\ Py.in_left_open ((h - 1) * W) (h * W) (Script.time e))
  /\ (forall (T W h start stop : Z) (sub : list Report.row) (r : Report.row),
        (h, start, stop) ∈ Report.hourly_bins T W ->
        1 <= h <= T
        /\ (r ∈ Report.h_slice sub start stop
            <-> r ∈ sub /\ Py.in_left_open ((h - 1) * W) (h * W) (Report.Time r)))
  /\ (forall (index start stop : Z) (data : list (Py.pyfloat * list string))
             (entry : Py.pyfloat * list string),
        (index, (start, stop)) ∈ Py.enumerate1 Sainaosi.time_range ->
        1 <= index <= 12
        /\ (entry ∈ Sainaosi.grouped_data data start stop
            <-> entry ∈ data
                /\ Py.in_right_open ((index - 1) * 3600) (index * 3600) (fst entry)))
  /\ (forall W h : Z, Script.end_time W h = Script.start_time W (h + 1))
  /\ (forall (W h1 h2 : Z) (t : Py.pyfloat),
        Py.in_left_open ((h1 - 1) * W) (h1 * W) t ->
        Py.in_left_open ((h2 - 1) * W) (h2 * W) t -> h1 = h2)
  /\ (forall (h1 h2 : Z) (t : Py.pyfloat),
        Py.in_right_open ((h1 - 1) * 3600) (h1 * 3600) t ->
        Py.in_right_open ((h2 - 1) * 3600) (h2 * 3600) t -> h1 = h2).
Proof.
  split; [apply BinFacts.script_hour_events|].
  split.
  { intros T W h start stop sub r (Hh & -> & ->)%BinFacts.report_bins.
    split; [assumption | apply BinFacts.report_h_slice]. }
  split.
  { intros index start stop data entry (Hh & -> & ->)%BinFacts.sainaosi_ranges.
    split; [assumption | apply BinFacts.sainaosi_grouped]. }
  split.
  { intros W h. unfold Script.end_time, Script.start_time. f_equal. lia. }
  split.
  - intros W h1 h2 t. apply PyFacts.left_open_unique.
  - intros h1 h2 t. apply PyFacts.right_open_unique.
Qed.

Lemma C8_hour_bins_witness :
  (2, 3600, 7200) ∈ Report.hourly_bins 12 3600
  /\ 1 <= 2 <= 12
  /\ (Report.mkRow (Py.FFin 7200) Report.DE "a" (Some "b") (Some "M_H1") (Some "R")
        ∈ Report.h_slice
            [Report.mkRow (Py.FFin 7200) Report.DE "a" (Some "b") (Some "M_H1") (Some "R")]
            3600 7200
      <-> Report.mkRow (Py.FFin 7200) Report.DE "a" (Some "b") (Some "M_H1") (Some "R")
            ∈ [Report.mkRow (Py.FFin 7200) Report.DE "a" (Some "b") (Some "M_H1") (Some "R")]
          /\ Py.in_left_open ((2 - 1) * 3600) (2 * 3600) (Py.FFin 7200)).
Proof.
  assert ((2, 3600, 7200) ∈ Report.hourly_bins 12 3600) as Hin.
  { vm_compute. apply list_elem_of_In. simpl. tauto. }
  split; [exact Hin|].
  destruct C8_hour_bins as (_ & HR & _).
  apply (HR 12 3600 2 3600 7200). exact Hin.
Defined.

(** C8, as stated, fails on sainaosi.py: an entry at time 3600 satisfies
    [(1-1)*3600 < 3600 <= 1*3600] and is written to chunk 2, not chunk 1,
    and an entry at time 0 is written to chunk 1. *)
Lemma C8_counterexample :
  Py.in_left_open ((1 - 1) * 3600) (1 * 3600) (Py.FFin 3600)
  /\ ~ Py.in_left_open ((1 - 1) * 3600) (1 * 3600) (Py.FFin 0)
  /\ Sainaosi.process_and_save Sample.float
       ["3600 DE a b M_H1 R"; "0 DE a b M_H1 R"] Sainaosi.time_range
     = Py.Ok [(1, [["0"; "DE"; "a"; "b"; "M_H1"; "R"]]);
              (2, [["3600"; "DE"; "a"; "b"; "M_H1"; "R"]])].
Proof.
  split; [|split].
  - exists 3600%Q. split; [reflexivity|]. split; [reflexivity | discriminate].
  - intros (q & [= <-] & H & _). discriminate.
  - vm_compute. reflexivity.
Qed.

(* ===================================================================== *)
(** * The hourly loop of the script *)
(* ===================================================================== *)

Module ScriptFacts.
Import Py PyFacts.

Section Loop.
Variables W : Z.
Variable rd : list Script.event.
Variable n_nodes : Z.
Variable mid : string.

#[local] Abbreviation seen_after := (Script.seen_after W rd mid).
#[local] Abbreviation counted_in := (Script.counted_in W rd mid).
#[local] Abbreviation row_at := (Script.row_at W rd n_nodes mid).

Lemma seen_after_S (h : nat) :
  seen_after (S h) = seen_after h ∪ counted_in (S h).
Proof. reflexivity. Qed.

Lemma hour_loop_rows (todo k : nat) :
  Script.hour_loop W rd n_nodes mid todo (Z.of_nat k + 1) (seen_after k)
  = row_at <$> seq (S k) todo.
Proof.
  revert k. induction todo as [|todo IH]; intros k; [reflexivity|].
  replace (Z.of_nat k + 1) with (Z.of_nat (S k)) by lia.
  simpl Script.hour_loop. unfold Script.hour_step.
  change (seq (S k) (S todo)) with (S k :: seq (S (S k)) todo).
  rewrite fmap_cons. f_equal.
  rewrite <- IH. reflexivity.
Qed.

Lemma rows_of_id_rows (T : Z) :
  Script.rows_of_id W T rd n_nodes mid = row_at <$> seq 1 (Z.to_nat T).
Proof. apply (hour_loop_rows (Z.to_nat T) 0). Qed.

Lemma rows_of_id_lookup (T : Z) (h : nat) :
  (1 <= h)%nat -> Z.of_nat h <= T ->
  Script.rows_of_id W T rd n_nodes mid !! (h - 1)%nat = Some (row_at h).
Proof.
  intros H1 H2. rewrite rows_of_id_rows, list_lookup_fmap.
  rewrite lookup_seq_lt by lia. simpl. f_equal. f_equal. lia.
Qed.

Lemma counted_in_spec (h : nat) (d : option string) :
  d ∈ counted_in h
  <-> d ∈ Script.hour_receivers W rd mid (Z.of_nat h) /\ d ∉ seen_after (pred h).
Proof. unfold Script.counted_in, Script.first_time_nodes. set_solver. Qed.

Lemma script_seen_mono (h1 h2 : nat) :
  (h1 <= h2)%nat -> seen_after h1 ⊆ seen_after h2.
Proof.
  induction 1 as [|h2 Hle IH]; [reflexivity|].
  rewrite seen_after_S. set_solver.
Qed.

Lemma counted_in_seen (h : nat) : (1 <= h)%nat -> counted_in h ⊆ seen_after h.
Proof.
  destruct h as [|h]; [lia|]. intros _. rewrite seen_after_S. set_solver.
Qed.

Lemma counted_in_disjoint (h1 h2 : nat) :
  (1 <= h1)%nat -> (1 <= h2)%nat -> h1 <> h2 -> counted_in h1 ## counted_in h2.
Proof.
  assert (forall a b, (1 <= a)%nat -> (a < b)%nat -> counted_in a ## counted_in b)
    as Hlt.
  { intros a b Ha Hab d Hda Hdb.
    apply counted_in_spec in Hdb as [_ Hdb]. apply Hdb.
    apply (script_seen_mono a (pred b)); [lia|].
    apply counted_in_seen; assumption. }
  intros G1 G2 Hne. destruct (Nat.lt_total h1 h2) as [H | [H | H]];
    [apply Hlt; assumption | contradiction | symmetry; apply Hlt; assumption].
Qed.

Lemma hour_loop_rows_N (todo : nat) :
  forall (h : Z) (seen : gset (option string)) (row : Script.hrow),
  row ∈ Script.hour_loop W rd n_nodes mid todo h seen ->
  Script.row_N row = n_nodes /\ Script.row_id row = mid
  /\ Script.rate_percent_hour row
     = Script.rate n_nodes (Script.n_firsttime_receivers_hour row).
Proof.
  induction todo as [|todo IH]; intros h seen row Hin; simpl in Hin.
  - inversion Hin.
  - apply elem_of_cons in Hin as [-> | Hin]; [simpl; auto|].
    eapply IH. eassumption.
Qed.

Lemma hour_loop_zero_rates (todo : nat) :
  n_nodes <= 0 ->
  forall (h : Z) (seen : gset (option string)) (row : Script.hrow),
  row ∈ Script.hour_loop W rd n_nodes mid todo h seen ->
  Script.rate_percent_hour row = 0 /\ Script.cumulative_rate_percent row = 0.
Proof.
  intros HN. induction todo as [|todo IH]; intros h seen row Hin; simpl in Hin.
  - inversion Hin.
  - apply elem_of_cons in Hin as [-> | Hin]; [|eapply IH; eassumption].
    simpl. unfold Script.rate.
    destruct (0 <? n_nodes) eqn:E; [apply Z.ltb_lt in E; lia|]. split; reflexivity.
Qed.

End Loop.

Lemma elem_of_flat_map {A B : Type} (f : A -> list B) (l : list A) (y : B) :
  y ∈ flat_map f l <-> exists x, x ∈ l /\ y ∈ f x.
Proof.
  rewrite list_elem_of_In, in_flat_map.
  split; intros (x & H1 & H2); exists x; rewrite ?list_elem_of_In in *; auto.
Qed.

End ScriptFacts.

(* ===================================================================== *)
(** * The hourly loops of the pandas program *)
(* ===================================================================== *)

Module ReportFacts.
Import Py PyFacts.

Lemma Ok_inj {A : Type} (a b : A) : @Ok A a = Ok b -> a = b.
Proof. congruence. Qed.

Lemma bind_Ok {A B : Type} (m : result A) (k : A -> result B) (b : B) :
  (m ≫= k) = Ok b -> exists a, m = Ok a /\ k a = Ok b.
Proof. destruct m as [a|e]; simpl; [eauto | discriminate]. Qed.

Lemma for_each_Ok {A B : Type} (f : A -> result (list B)) (l : list A) :
  forall rows, Report.for_each f l = Ok rows ->
  forall y, y ∈ rows -> exists x rows', x ∈ l /\ f x = Ok rows' /\ y ∈ rows'.
Proof.
  induction l as [|x l IH]; intros rows H y Hy; simpl in H.
  - injection H as <-. inversion Hy.
  - apply bind_Ok in H as (r1 & H1 & H).
    apply bind_Ok in H as (r2 & H2 & H). injection H as <-.
    apply elem_of_app in Hy as [Hy | Hy].
    + exists x, r1. split; [left | auto].
    + destruct (IH _ H2 _ Hy) as (x' & rows' & Hx & Hf & Hin).
      exists x', rows'. split; [right; assumption | auto].
Qed.

Lemma hourly_bins_nat (T W : Z) :
  Report.hourly_bins T W
  = (fun h : nat => (Z.of_nat h, (Z.of_nat h - 1) * W, Z.of_nat h * W))
      <$> seq 1 (Z.to_nat T).
Proof.
  unfold Report.hourly_bins, seqZ.
  rewrite <- list_fmap_compose, <- fmap_S_seq, <- list_fmap_compose.
  apply list_fmap_ext. intros i x _. simpl.
  replace (Z.of_nat x + 1) with (Z.of_nat (S x)) by lia. reflexivity.
Qed.

Section Loop.
Variable W : Z.
Variable sub : list Report.row.
Variable n_nodes : Z.
Variable mid : string.

#[local] Abbreviation seen_after := (Report.seen_after W sub).
#[local] Abbreviation row_at := (Report.row_at W sub n_nodes mid).
#[local] Abbreviation bin :=
  (fun h : nat => (Z.of_nat h, (Z.of_nat h - 1) * W, Z.of_nat h * W)).

Lemma hour_records_rows (todo : nat) :
  0 < n_nodes ->
  forall k : nat,
  Report.hour_records sub n_nodes mid (bin <$> seq (S k) todo) (seen_after k)
  = Ok (row_at <$> seq (S k) todo).
Proof.
  intros HN. apply Z.ltb_lt in HN.
  induction todo as [|todo IH]; intros k; [reflexivity|].
  change (seq (S k) (S todo)) with (S k :: seq (S (S k)) todo).
  rewrite !fmap_cons. cbn [Report.hour_records].
  unfold Report.rate_or_nan. rewrite HN. cbn [round mbind result_bind bind_result].
  change (Report.seen_after W sub k
          ∪ Report.slice_dsts sub ((Z.of_nat (S k) - 1) * W) (Z.of_nat (S k) * W))
    with (seen_after (S k)).
  rewrite IH. reflexivity.
Qed.

Lemma hour_records_nan (bins : list (Z * Z * Z)) (seen : gset string) :
  n_nodes <= 0 -> bins <> [] ->
  Report.hour_records sub n_nodes mid bins seen = Raise ValueError.
Proof.
  intros HN Hb. destruct bins as [|[[h start] stop] bins]; [contradiction|].
  cbn [Report.hour_records]. unfold Report.rate_or_nan.
  destruct (0 <? n_nodes) eqn:E; [apply Z.ltb_lt in E; lia|]. reflexivity.
Qed.

Lemma hour_records_inv (bins : list (Z * Z * Z)) :
  forall (seen : gset string) (rows : list Report.hrow),
  Report.hour_records sub n_nodes mid bins seen = Ok rows ->
  forall row, row ∈ rows ->
  Report.row_N row = n_nodes /\ Report.row_id row = mid.
Proof.
  induction bins as [|[[h start] stop] bins IH]; intros seen rows H row Hin.
  - injection H as <-. inversion Hin.
  - cbn [Report.hour_records] in H.
    apply bind_Ok in H as (r1 & _ & H). apply bind_Ok in H as (r2 & _ & H).
    apply bind_Ok in H as (rest & Hrest & H). injection H as <-.
    apply elem_of_cons in Hin as [-> | Hin]; [simpl; auto|].
    eapply IH; eassumption.
Qed.

Lemma report_seen_mono (h1 h2 : nat) :
  (h1 <= h2)%nat -> seen_after h1 ⊆ seen_after h2.
Proof.
  induction 1 as [|h2 Hle IH]; [reflexivity|].
  simpl. set_solver.
Qed.

Lemma cluster_records_inv (cname : string) (bins : list (Z * Z * Z)) :
  forall (seen : gset string) (row : Report.crow),
  row ∈ Report.cluster_hour_records sub cname n_nodes mid bins seen ->
  Report.Cluster row = cname /\ Report.N_cluster row = n_nodes
  /\ Report.c_rate_percent_hour row
     = Report.rate_or_nan n_nodes (Report.c_n_receivers_hour row)
  /\ (n_nodes <= 0 -> Report.c_cumulative_rate_percent row = FNaN).
Proof.
  induction bins as [|[[h start] stop] bins IH]; intros seen row Hin;
    cbn [Report.cluster_hour_records] in Hin.
  - inversion Hin.
  - apply elem_of_cons in Hin as [-> | Hin]; [|eapply IH; eassumption].
    simpl. repeat split; try reflexivity.
    intros HN. unfold Report.rate_or_nan.
    destruct (0 <? n_nodes) eqn:E; [apply Z.ltb_lt in E; lia | reflexivity].
Qed.

End Loop.

Lemma calc_high_rows_N (W T : Z) (flag : bool) (df : list Report.row)
    (nodes_all : gset string) (rows : list Report.hrow) :
  Report.calc_high_hourly_R_based W T flag df nodes_all = Ok rows ->
  forall row, row ∈ rows -> Report.row_N row = Z.of_nat (size nodes_all).
Proof.
  unfold Report.calc_high_hourly_R_based. destruct df as [|r df]; [discriminate|].
  intros H row Hin. apply bind_Ok in H as (ids & _ & H).
  destruct (for_each_Ok _ _ _ H _ Hin) as (mid & rows' & _ & Hrec & Hin').
  eapply hour_records_inv; eassumption.
Qed.

Lemma cluster_nodes_functional (nodes_all : gset string) (c : string)
    (n1 n2 : gset string) :
  (c, n1) ∈ Report.cluster_nodes nodes_all ->
  (c, n2) ∈ Report.cluster_nodes nodes_all -> n1 = n2.
Proof.
  unfold Report.cluster_nodes, Report.CLUSTER_REGEX. simpl.
  rewrite !list_elem_of_In. simpl.
  intros [H1 | [H1 | [H1 | []]]] [H2 | [H2 | [H2 | []]]];
    simplify_eq; reflexivity.
Qed.

Lemma calc_by_cluster_rows (W T : Z) (flag : bool) (df : list Report.row)
    (nodes_all : gset string) (rows : list Report.crow) :
  Report.calc_high_hourly_R_based_by_cluster W T flag df nodes_all = Ok rows ->
  forall row, row ∈ rows ->
  exists cnodes, (Report.Cluster row, cnodes) ∈ Report.cluster_nodes nodes_all
    /\ Report.N_cluster row = Z.of_nat (size cnodes)
    /\ (Report.N_cluster row <= 0 ->
        Report.c_rate_percent_hour row = FNaN
        /\ Report.c_cumulative_rate_percent row = FNaN).
Proof.
  unfold Report.calc_high_hourly_R_based_by_cluster.
  destruct df as [|r df]; [discriminate|]. intros H row Hin.
  apply bind_Ok in H as (ids & _ & H). apply Ok_inj in H. subst rows.
  apply ScriptFacts.elem_of_flat_map in Hin as ([cname cnodes] & Hc & Hin).
  apply ScriptFacts.elem_of_flat_map in Hin as (mid & _ & Hin).
  apply cluster_records_inv in Hin as (E1 & E2 & E3 & E4).
  exists cnodes. rewrite E1, E2. split; [assumption|]. split; [reflexivity|].
  intros HN. split; [|auto].
  rewrite E3. unfold Report.rate_or_nan.
  destruct (0 <? Z.of_nat (size cnodes)) eqn:E; [apply Z.ltb_lt in E; lia | reflexivity].
Qed.

End ReportFacts.

(* ===================================================================== *)
(** * output/sainaosi.py: the denominator of each line *)
(* ===================================================================== *)

Module SainaosiFacts.
Import Py PyFacts.

Lemma high_files_total (target : string) (files : list (string * list Sainaosi.csvrow)) :
  forall (seen : gset (option string)) (cumulative : Q) (row : Sainaosi.hres),
  row ∈ Sainaosi.high_files target files seen cumulative ->
  exists data, (Sainaosi.file row, data) ∈ files
    /\ Sainaosi.total_nodes row = Sainaosi.count_nodes data.
Proof.
  induction files as [|[path data] files IH]; intros seen cumulative row Hin;
    cbn [Sainaosi.high_files] in Hin.
  - inversion Hin.
  - destruct (Sainaosi.count_new 1 seen _) as [seen' received].
    apply elem_of_cons in Hin as [-> | Hin].
    + exists data. split; [left | reflexivity].
    + destruct (IH _ _ _ Hin) as (data' & H1 & H2).
      exists data'. split; [right; assumption | assumption].
Qed.

End SainaosiFacts.

(* ===================================================================== *)
(** * Hourly coverage *)
(* ===================================================================== *)

(** C1 (as the code has it).  In the script, the count written for hour
    [h] of a message id is the number of receivers of that hour that are
    not in [already_seen_nodes] when the hour starts; the sets counted in
    two different hours are disjoint and [already_seen_nodes] only grows.
    In [calc_high_hourly_R_based] the set [seen] only grows too, but the
    count written for hour [h] is the number of all distinct receivers of
    that hour. *)
Theorem C1_first_time_counting :
  (forall (W T : Z) (rd : list Script.event) (n_nodes : Z) (mid : string) (h : nat),
      (1 <= h)%nat -> Z.of_nat h <= T ->
      exists row,
        Script.rows_of_id W T rd n_nodes mid !! (h - 1)%nat = Some row
        /\ Script.hour_index row = Z.of_nat h
        /\ Script.n_firsttime_receivers_hour row
           = Z.of_nat (size (Script.counted_in W rd mid h)))
  /\ (forall (W : Z) (rd : list Script.event) (mid : string) (h : nat)
             (d : option string),
        d ∈ Script.counted_in W rd mid h
        <-> d ∈ Script.hour_receivers W rd mid (Z.of_nat h)
            /\ d ∉ Script.seen_after W rd mid (pred h))
  /\ (forall (W : Z) (rd : list Script.event) (mid : string) (h1 h2 : nat),
        (1 <= h1)%nat -> (1 <= h2)%nat -> h1 <> h2 ->
        Script.counted_in W rd mid h1 ## Script.counted_in W rd mid h2)
  /\ (forall (W : Z) (rd : list Script.event) (mid : string) (h1 h2 : nat),
        (h1 <= h2)%nat ->
        Script.seen_after W rd mid h1 ⊆ Script.seen_after W rd mid h2)
  /\ (forall (W T : Z) (sub : list Report.row) (n_nodes : Z) (mid : string) (h : nat),
        0 < n_nodes -> (1 <= h)%nat -> Z.of_nat h <= T ->
        exists rows row,
          Report.hour_records sub n_nodes mid (Report.hourly_bins T W) ∅ = Py.Ok rows
          /\ rows !! (h - 1)%nat = Some row
          /\ Report.hour_index row = Z.of_nat h
          /\ Report.n_receivers_hour row
             = Z.of_nat (size (Report.slice_dsts sub ((Z.of_nat h - 1) * W)
                                 (Z.of_nat h * W))))
  /\ (forall (W : Z) (sub : list Report.row) (h1 h2 : nat),
        (h1 <= h2)%nat ->
        Report.seen_after W sub h1 ⊆ Report.seen_after W sub h2).
Proof.
  split.
  { intros W T rd n_nodes mid h H1 H2. eexists. split.
    - apply ScriptFacts.rows_of_id_lookup; assumption.
    - split; reflexivity. }
  split; [apply ScriptFacts.counted_in_spec|].
  split; [apply ScriptFacts.counted_in_disjoint|].
  split; [apply ScriptFacts.script_seen_mono|].
  split; [|apply ReportFacts.report_seen_mono].
  intros W T sub n_nodes mid h HN H1 H2.
  exists (Report.row_at W sub n_nodes mid <$> seq 1 (Z.to_nat T)).
  exists (Report.row_at W sub n_nodes mid h).
  split.
  - rewrite ReportFacts.hourly_bins_nat.
    apply (ReportFacts.hour_records_rows W sub n_nodes mid (Z.to_nat T) HN 0%nat).
  - split; [|split; reflexivity].
    rewrite list_lookup_fmap, lookup_seq_lt by lia. simpl. do 2 f_equal. lia.
Qed.

Lemma C1_first_time_counting_witness :
  (1 <= 2)%nat /\ Z.of_nat 2 <= 2
  /\ exists row,
       Script.rows_of_id 3600 2
         (Script.rd_events_high true true (Script.events Sample.float Sample.scenario_log))
         3 "M_H1" !! (2 - 1)%nat = Some row
       /\ Script.hour_index row = Z.of_nat 2
       /\ Script.n_firsttime_receivers_hour row
          = Z.of_nat (size (Script.counted_in 3600
               (Script.rd_events_high true true
                  (Script.events Sample.float Sample.scenario_log)) "M_H1" 2)).
Proof.
  split; [lia|]. split; [lia|].
  destruct C1_first_time_counting as (H & _).
  apply (H 3600 2 _ 3 "M_H1" 2%nat); lia.
Defined.

(** C1, as stated, fails on [calc_high_hourly_R_based]: on the scenario
    log, node [A] is reached in hour 1 and again in hour 2; the line of
    hour 2 counts two receivers although only [B] is new, so [A] is
    counted in two hours. *)
Lemma C1_counterexample :
  let df := Report.parse_eventlogreport Sample.float Sample.scenario_log in
  let sub := Report.sub_of (Report.high_R true df) "M_H1" in
  Report.calc_high_hourly_R_based 3600 2 true df
    (Report.compute_denominator_nodes df true)
  = Py.Ok [Report.mkHrow "M_H1" 1 3 1 33 33; Report.mkHrow "M_H1" 2 3 2 67 67]
  /\ "A" ∈ Report.slice_dsts sub 0 3600
  /\ "A" ∈ Report.slice_dsts sub 3600 7200
  /\ size (Report.slice_dsts sub 3600 7200 ∖ Report.seen_after 3600 sub 1) = 1%nat.
Proof.
  cbv zeta. split; [vm_compute; reflexivity|].
  split; [compute_done|]. split; [compute_done|].
  vm_compute. reflexivity.
Qed.

(** C3 (as the code has it).  In RESULT.py the denominator is fixed
    before the loops: every line of the script carries [N], every line of
    [calc_high_hourly_R_based] carries the size of the node set it was
    given, and the lines of one cluster carry the size of that cluster.
    In [calculate_high] of sainaosi.py, [total_nodes] is computed again
    for every chunk file, from the [Host] and [Tohost] columns of that
    file. *)
Theorem C3_denominator_per_line :
  (forall (W T : Z) (b d : bool) (evs : list Script.event) (row : Script.hrow),
      row ∈ Script.high_rows W T b d evs -> Script.row_N row = Script.N b d evs)
  /\ (forall (W T : Z) (flag : bool) (df : list Report.row)
             (nodes_all : gset string) (rows : list Report.hrow) (row : Report.hrow),
        Report.calc_high_hourly_R_based W T flag df nodes_all = Py.Ok rows ->
        row ∈ rows -> Report.row_N row = Z.of_nat (size nodes_all))
  /\ (forall (float : string -> option Py.pyfloat) (W T : Z) (flag : bool)
             (log : list string) (long : list Report.hrow)
             (by_cluster : list Report.crow)
             (low : Z * Z * Py.pyfloat * list Report.idrow)
             (row : Report.hrow),
        Report.main float W T flag log = Py.Ok (long, by_cluster, low) ->
        row ∈ long ->
        Report.row_N row
        = Z.of_nat (size (Report.compute_denominator_nodes
                            (Report.parse_eventlogreport float log) flag)))
  /\ (forall (W T : Z) (flag : bool) (df : list Report.row)
             (nodes_all : gset string) (rows : list Report.crow)
             (r1 r2 : Report.crow),
        Report.calc_high_hourly_R_based_by_cluster W T flag df nodes_all = Py.Ok rows ->
        r1 ∈ rows -> r2 ∈ rows -> Report.Cluster r1 = Report.Cluster r2 ->
        Report.N_cluster r1 = Report.N_cluster r2
        /\ exists cnodes,
             (Report.Cluster r1, cnodes) ∈ Report.cluster_nodes nodes_all
             /\ Report.N_cluster r1 = Z.of_nat (size cnodes))
  /\ (forall (target : string) (files : list (string * list Sainaosi.csvrow))
             (seen : gset (option string)) (cumulative : Q) (row : Sainaosi.hres),
        row ∈ Sainaosi.high_files target files seen cumulative ->
        exists data, (Sainaosi.file row, data) ∈ files
          /\ Sainaosi.total_nodes row = Sainaosi.count_nodes data).
Proof.
  split.
  { intros W T b d evs row Hin. unfold Script.high_rows in Hin.
    apply ScriptFacts.elem_of_flat_map in Hin as (mid & _ & Hin).
    unfold Script.rows_of_id in Hin.
    apply ScriptFacts.hour_loop_rows_N in Hin. tauto. }
  split.
  { intros W T flag df nodes_all rows row H Hin.
    eapply ReportFacts.calc_high_rows_N; eassumption. }
  split.
  { intros float W T flag log long by_cluster low row H Hin.
    unfold Report.main in H.
    apply ReportFacts.bind_Ok in H as (l & Hl & H).
    apply ReportFacts.bind_Ok in H as (c & _ & H).
    apply ReportFacts.bind_Ok in H as (s & _ & H).
    apply ReportFacts.Ok_inj in H. injection H as -> -> ->.
    eapply ReportFacts.calc_high_rows_N; eassumption. }
  split; [|apply SainaosiFacts.high_files_total].
  intros W T flag df nodes_all rows r1 r2 H H1 H2 E.
  destruct (ReportFacts.calc_by_cluster_rows _ _ _ _ _ _ H _ H1) as (c1 & A1 & B1 & _).
  destruct (ReportFacts.calc_by_cluster_rows _ _ _ _ _ _ H _ H2) as (c2 & A2 & B2 & _).
  split; [|exists c1; auto].
  rewrite <- E in A2.
  rewrite B1, B2, (ReportFacts.cluster_nodes_functional _ _ _ _ A1 A2). reflexivity.
Qed.

Lemma C3_denominator_per_line_witness :
  let evs := Script.events Sample.float Sample.scenario_log in
  Script.mkHrow "M_H1" 2 3 1 33 67 ∈ Script.high_rows 3600 2 true true evs
  /\ Script.row_N (Script.mkHrow "M_H1" 2 3 1 33 67) = Script.N true true evs.
Proof.
  cbv zeta.
  assert (Script.mkHrow "M_H1" 2 3 1 33 67
            ∈ Script.high_rows 3600 2 true true
                (Script.events Sample.float Sample.scenario_log)) as Hin.
  { vm_compute. repeat constructor. }
  split; [exact Hin|].
  destruct C3_denominator_per_line as (H & _).
  apply (H 3600 2 true true _ _ Hin).
Defined.

(** C3, as stated, fails on [calculate_high] of sainaosi.py: with two
    chunk files that name two and three nodes, the two lines of one id
    carry the denominators 2 and 3. *)
Lemma C3_counterexample :
  match
    Sainaosi.calculate_high
      [("3cluster_1.csv", [Sainaosi.mkCsv "n1" "n2" "M_Hp1" "R"]);
       ("3cluster_2.csv", [Sainaosi.mkCsv "n1" "n2" "M_Hp1" "R";
                           Sainaosi.mkCsv "n2" "n3" "M_Hp1" "R"])]
      "M_Hp" 1 1
  with
  | Py.Ok rows =>
      (fun r => (Sainaosi.target_id r, Sainaosi.file r, Sainaosi.total_nodes r))
        <$> rows
  | Py.Raise _ => []
  end
  = [("M_Hp1", "3cluster_1.csv", 2); ("M_Hp1", "3cluster_2.csv", 3)].
Proof. vm_compute. reflexivity. Qed.

(* ===================================================================== *)
(** * Receipts and the node set *)
(* ===================================================================== *)

Module ReceiptFacts.
Import Py PyFacts BinFacts.

(** Events and rows that come out of the parsers. *)
Lemma script_parse_line_dst (float : string -> option pyfloat) (raw : string)
    (e : Script.event) :
  e ∈ Script.parse_line float raw ->
  Script.type e <> Script.C -> exists n, Script.dst e = Some n.
Proof.
  unfold Script.parse_line. intros Hin Hty.
  repeat match type of Hin with
         | _ ∈ (if ?b then _ else _) => destruct b
         | _ ∈ (match ?x with _ => _ end) => destruct x
         end;
    repeat match type of Hin with
           | _ ∈ [] => inversion Hin
           | _ ∈ [_] => apply list_elem_of_singleton in Hin; subst e
           end;
    simpl in *; try contradiction; eauto.
Qed.

Lemma script_events_dst (float : string -> option pyfloat) (log : list string)
    (e : Script.event) :
  e ∈ Script.events float log ->
  Script.type e <> Script.C -> exists n, Script.dst e = Some n.
Proof.
  unfold Script.events. intros (raw & _ & Hin)%ScriptFacts.elem_of_flat_map.
  eapply script_parse_line_dst; eassumption.
Qed.

Lemma add_endpoints_fold (evs : list Script.event) :
  forall (acc : gset string) (n : string),
  n ∈ foldl Script.add_endpoints acc evs
  <-> n ∈ acc
      \/ exists e, e ∈ evs /\ (Script.src e = n \/ Script.dst e = Some n).
Proof.
  induction evs as [|e evs IH]; intros acc n; simpl.
  - split; [auto|]. intros [H | (e & He & _)]; [assumption | inversion He].
  - rewrite IH. unfold Script.add_endpoints. split.
    + intros [H | (e' & He' & H)].
      * destruct (Script.dst e) as [d|] eqn:E.
        -- apply elem_of_union in H as [H | H].
           ++ apply elem_of_union in H as [H | H]; [auto|].
              apply elem_of_singleton in H. right. exists e. split; [left | auto].
           ++ apply elem_of_singleton in H. right. exists e.
              split; [left | right; congruence].
        -- apply elem_of_union in H as [H | H]; [auto|].
           apply elem_of_singleton in H. right. exists e. split; [left | auto].
      * right. exists e'. split; [right; assumption | assumption].
    + intros [H | (e' & He' & H)].
      * left. destruct (Script.dst e); set_solver.
      * apply elem_of_cons in He' as [-> | He'].
        -- left. destruct H as [H | H]; [|rewrite H]; destruct (Script.dst e); set_solver.
        -- right. exists e'. auto.
Qed.

Lemma script_nodes_all (b d : bool) (evs : list Script.event) (n : string) :
  n ∈ Script.nodes_all b d evs
  <-> Script.excluded b d (Some n) = false
      /\ exists e, e ∈ evs /\ (Script.src e = n \/ Script.dst e = Some n).
Proof.
  unfold Script.nodes_all, Script.nodes_unfiltered.
  rewrite elem_of_filter, add_endpoints_fold. set_solver.
Qed.

Lemma script_receipt (float : string -> option pyfloat) (b d : bool)
    (log : list string) (e : Script.event) :
  e ∈ Script.rd_events_high b d (Script.events float log)
  <-> e ∈ Script.events float log
      /\ (Script.type e = Script.R \/ Script.type e = Script.D)
      /\ Script.is_high_id (Some (Script.id e)) = true
      /\ exists n, Script.dst e = Some n
           /\ n ∈ Script.nodes_all b d (Script.events float log).
Proof.
  unfold Script.rd_events_high. rewrite elem_of_List_filter.
  unfold Script.is_receipt. split.
  - intros (Hin & Hr).
    assert (Script.type e <> Script.C) as Hty
      by (destruct (Script.type e); [discriminate Hr | discriminate | discriminate]).
    destruct (script_events_dst _ _ _ Hin Hty) as (n & Hn).
    assert (Script.is_high_id (Some (Script.id e)) = true
            /\ Script.excluded b d (Script.dst e) = false) as [Hh Hx].
    { destruct (Script.type e); [contradiction| |];
        apply andb_true_iff in Hr as [? ?%negb_true_iff]; auto. }
    split; [assumption|].
    split; [destruct (Script.type e); [contradiction|auto|auto]|].
    split; [assumption|]. exists n. split; [assumption|].
    apply script_nodes_all. rewrite <- Hn. split; [assumption|].
    exists e. auto.
  - intros (Hin & Hty & Hh & n & Hn & Hnode). split; [assumption|].
    apply script_nodes_all in Hnode as [Hx _]. rewrite Hn, Hh, Hx.
    destruct Hty as [-> | ->]; reflexivity.
Qed.

Lemma report_parse_line_dst (float : string -> option pyfloat) (raw : string)
    (r : Report.row) :
  r ∈ Report.parse_line float raw -> Report.Typ r = Report.DE ->
  exists n, Report.Dst r = Some n /\ n <> "".
Proof.
  unfold Report.parse_line. intros Hin Hty.
  destruct (is_empty (strip raw)); [inversion Hin|].
  destruct (split (strip raw)) as [|p0 parts] eqn:Hs; [inversion Hin|].
  destruct (float p0) as [t|]; [|inversion Hin].
  repeat match type of Hin with
         | _ ∈ (if ?b then _ else _) => destruct b eqn:?
         end;
    repeat match type of Hin with
           | _ ∈ [] => inversion Hin
           | _ ∈ [_] => apply list_elem_of_singleton in Hin; subst r
           end;
    simpl in Hty; try discriminate.
  simpl. eexists. split; [reflexivity|].
  apply (split_nonempty (strip raw)). rewrite Hs. apply item_in.
  match goal with H : _ && (6 <=? _) = true |- _ =>
    apply andb_true_iff in H as [_ H%Z.leb_le]; unfold len in H; lia end.
Qed.

Lemma report_rows_dst (float : string -> option pyfloat) (log : list string)
    (r : Report.row) :
  r ∈ Report.parse_eventlogreport float log -> Report.Typ r = Report.DE ->
  exists n, Report.Dst r = Some n /\ n <> "".
Proof.
  unfold Report.parse_eventlogreport.
  intros (raw & _ & Hin)%ScriptFacts.elem_of_flat_map.
  eapply report_parse_line_dst; eassumption.
Qed.

Lemma report_nodes (df : list Report.row) (flag : bool) (n : string) :
  n ∈ Report.compute_denominator_nodes df flag
  <-> (exists r, r ∈ df /\ (Report.Src r = n \/ Report.Dst r = Some n))
      /\ n <> "" /\ (flag = true -> Report.BOX_RE n = false).
Proof.
  unfold Report.compute_denominator_nodes.
  assert (n ∈ (list_to_set (Report.Src <$> df) ∪ list_to_set (omap Report.Dst df)
               : gset string)
          <-> exists r, r ∈ df /\ (Report.Src r = n \/ Report.Dst r = Some n)) as Hraw.
  { rewrite elem_of_union, !elem_of_list_to_set, list_elem_of_fmap, list_elem_of_omap.
    split.
    - intros [(r & -> & Hr) | (r & Hr & Hd)]; exists r; auto.
    - intros (r & Hr & [<- | Hd]); [left | right]; exists r; auto. }
  destruct flag.
  - rewrite elem_of_filter, elem_of_difference, Hraw, elem_of_singleton. tauto.
  - rewrite elem_of_difference, Hraw, elem_of_singleton.
    split; [intros [? ?]; repeat split; auto; discriminate | tauto].
Qed.

Lemma report_receipt (float : string -> option pyfloat) (flag : bool)
    (log : list string) (r : Report.row) :
  r ∈ Report.high_R flag (Report.parse_eventlogreport float log)
  <-> r ∈ Report.parse_eventlogreport float log
      /\ Report.Typ r = Report.DE
      /\ Report.Status r = Some "R"
      /\ (exists i, Report.Id r = Some i /\ Report.ID_HIGH_RE i = true)
      /\ exists n, Report.Dst r = Some n
           /\ n ∈ Report.compute_denominator_nodes
                  (Report.parse_eventlogreport float log) flag.
Proof.
  set (df := Report.parse_eventlogreport float log).
  assert (Report.is_high_R r = true
          <-> Report.Typ r = Report.DE /\ Report.Status r = Some "R"
              /\ exists i, Report.Id r = Some i /\ Report.ID_HIGH_RE i = true) as Hsel.
  { unfold Report.is_high_R, Report.is_type, Report.cell_is, Report.notna.
    rewrite !andb_true_iff, bool_decide_eq_true. split.
    - intros [[[Ht Hn] Hh] Hs].
      destruct (Report.Id r) as [i|]; [|discriminate].
      destruct (Report.Status r) as [s|]; [|discriminate].
      apply str_eq_true in Hs as ->. eauto.
    - intros (Ht & -> & i & -> & Hh). simpl. auto. }
  assert (r ∈ List.filter Report.is_high_R df ->
          exists n, Report.Dst r = Some n /\ n <> "") as Hdst.
  { intros [Hin Hr%Hsel]%elem_of_List_filter.
    eapply report_rows_dst; [exact Hin | tauto]. }
  unfold Report.high_R. fold df. destruct flag.
  - rewrite elem_of_List_filter. split.
    + intros [Hin Hbox%negb_true_iff].
      destruct (Hdst Hin) as (n & Hn & Hne).
      apply elem_of_List_filter in Hin as [Hin Hr%Hsel].
      split; [assumption|]. destruct Hr as (Ht & Hs & Hi).
      repeat (split; [assumption|]). exists n. split; [assumption|].
      apply report_nodes. split; [exists r; auto|]. split; [assumption|].
      intros _. rewrite Hn in Hbox. exact Hbox.
    + intros (Hin & Ht & Hs & Hi & n & Hn & Hnode). split.
      * apply elem_of_List_filter. split; [assumption|]. apply Hsel. auto.
      * apply report_nodes in Hnode as (_ & _ & Hbox).
        rewrite Hn. simpl. rewrite Hbox; reflexivity.
  - split.
    + intros Hin. destruct (Hdst Hin) as (n & Hn & Hne).
      apply elem_of_List_filter in Hin as [Hin Hr%Hsel].
      split; [assumption|]. destruct Hr as (Ht & Hs & Hi).
      repeat (split; [assumption|]). exists n. split; [assumption|].
      apply report_nodes. split; [exists r; auto|]. split; [assumption|].
      discriminate.
    + intros (Hin & Ht & Hs & Hi & _).
      apply elem_of_List_filter. split; [assumption|]. apply Hsel. auto.
Qed.

End ReceiptFacts.

(** C2 (as the code has it).  The script counts an event of the log as a
    receipt exactly when it is an R or a D event of a high-priority id
    whose receiver is in the node set.  [calc_high_hourly_R_based] counts
    a row of the log exactly when it is a DE row with status R of a
    high-priority id whose receiver is in the node set: status D does not
    count there. *)
Theorem C2_receipts :
  (forall (float : string -> option Py.pyfloat) (b d : bool) (log : list string)
          (e : Script.event),
      e ∈ Script.rd_events_high b d (Script.events float log)
      <-> e ∈ Script.events float log
          /\ (Script.type e = Script.R \/ Script.type e = Script.D)
          /\ Script.is_high_id (Some (Script.id e)) = true
          /\ exists n, Script.dst e = Some n
               /\ n ∈ Script.nodes_all b d (Script.events float log))
  /\ (forall (float : string -> option Py.pyfloat) (flag : bool)
             (log : list string) (r : Report.row),
        r ∈ Report.high_R flag (Report.parse_eventlogreport float log)
        <-> r ∈ Report.parse_eventlogreport float log
            /\ Report.Typ r = Report.DE
            /\ Report.Status r = Some "R"
            /\ (exists i, Report.Id r = Some i /\ Report.ID_HIGH_RE i = true)
            /\ exists n, Report.Dst r = Some n
                 /\ n ∈ Report.compute_denominator_nodes
                        (Report.parse_eventlogreport float log) flag).
Proof.
  split; [apply ReceiptFacts.script_receipt | apply ReceiptFacts.report_receipt].
Qed.

Lemma C2_receipts_witness :
  let e := Script.mkEvent (Py.FFin 100) Script.D "C" (Some "A") "M_H1" in
  e ∈ Script.rd_events_high true true
        (Script.events Sample.float ["100 DE C A M_H1 D"; "200 DE C box1 M_H1 R"])
  /\ Script.dst e = Some "A"
  /\ "A" ∈ Script.nodes_all true true
        (Script.events Sample.float ["100 DE C A M_H1 D"; "200 DE C box1 M_H1 R"]).
Proof.
  cbv zeta.
  destruct C2_receipts as (H & _).
  specialize (H Sample.float true true
                ["100 DE C A M_H1 D"; "200 DE C box1 M_H1 R"]
                (Script.mkEvent (Py.FFin 100) Script.D "C" (Some "A") "M_H1")).
  split.
  - apply H. split; [vm_compute; repeat constructor|].
    split; [right; reflexivity|]. split; [reflexivity|].
    exists "A". split; [reflexivity | compute_done].
  - split; [reflexivity | compute_done].
Defined.

(** C2, as stated, fails on [calc_high_hourly_R_based]: a DE line with
    status D of a high-priority id, sent to a node of the node set, is
    not among the rows it counts (the script counts the same line). *)
Lemma C2_counterexample :
  let df := Report.parse_eventlogreport Sample.float ["100 DE C A M_H1 D"] in
  df = [Report.mkRow (Py.FFin 100) Report.DE "C" (Some "A") (Some "M_H1") (Some "D")]
  /\ Report.ID_HIGH_RE "M_H1" = true
  /\ "A" ∈ Report.compute_denominator_nodes df true
  /\ Report.high_R true df = []
  /\ Script.rd_events_high true true (Script.events Sample.float ["100 DE C A M_H1 D"])
     = [Script.mkEvent (Py.FFin 100) Script.D "C" (Some "A") "M_H1"].
Proof.
  cbv zeta. split; [reflexivity|]. split; [reflexivity|].
  split; [compute_done|]. split; reflexivity.
Qed.

(* ===================================================================== *)
(** * Low priority: created and first-delivered messages *)
(* ===================================================================== *)

Module LowFacts.
Import Py PyFacts BinFacts.

Lemma size_add_new `{Countable A} (X : gset A) (x : A) :
  x ∉ X -> size (X ∪ {[ x ]}) = S (size X).
Proof.
  intros Hx. rewrite size_union by set_solver. rewrite size_singleton. lia.
Qed.

Lemma size_add_old `{Countable A} (X : gset A) (x : A) :
  x ∈ X -> size (X ∪ {[ x ]}) = size X.
Proof. intros Hx. f_equal. set_solver. Qed.

(** The script. *)
Lemma script_delivered_fold (evs : list Script.event) :
  forall acc : gset string,
  foldl (fun s e => if Script.is_delivered_low e then s ∪ {[ Script.id e ]} else s)
    acc evs
  = acc ∪ list_to_set (Script.id <$> List.filter Script.is_delivered_low evs).
Proof.
  induction evs as [|e evs IH]; intros acc; simpl.
  - set_solver.
  - rewrite IH. destruct (Script.is_delivered_low e); simpl; set_solver.
Qed.

Lemma script_delivered_set (evs : list Script.event) :
  Script.delivered_once_ids evs
  = list_to_set (Script.id <$> List.filter Script.is_delivered_low evs).
Proof. unfold Script.delivered_once_ids. rewrite script_delivered_fold. set_solver. Qed.

Lemma script_delivered_elem (evs : list Script.event) (m : string) :
  m ∈ Script.delivered_once_ids evs
  <-> exists e, e ∈ evs /\ Script.is_delivered_low e = true /\ Script.id e = m.
Proof.
  rewrite script_delivered_set, elem_of_list_to_set, list_elem_of_fmap.
  split.
  - intros (e & -> & [? ?]%elem_of_List_filter). eauto.
  - intros (e & ? & ? & <-). exists e. split; [reflexivity|].
    apply elem_of_List_filter. auto.
Qed.

Lemma script_delivered_snoc (evs : list Script.event) (e : Script.event) :
  Script.delivered_once_ids (evs ++ [e])
  = if Script.is_delivered_low e
    then Script.delivered_once_ids evs ∪ {[ Script.id e ]}
    else Script.delivered_once_ids evs.
Proof. unfold Script.delivered_once_ids. rewrite foldl_snoc. reflexivity. Qed.

Lemma script_P_snoc (evs : list Script.event) (e : Script.event) :
  Script.P_total (evs ++ [e])
  = Script.P_total evs
    + (if Script.is_delivered_low e
          && bool_decide (Script.id e ∉ Script.delivered_once_ids evs)
       then 1 else 0).
Proof.
  unfold Script.P_total. rewrite script_delivered_snoc.
  destruct (Script.is_delivered_low e); simpl; [|lia].
  case_bool_decide as Hin.
  - rewrite size_add_new by assumption. lia.
  - rewrite size_add_old; [lia|]. destruct (decide (Script.id e ∈ Script.delivered_once_ids evs)); tauto.
Qed.

(** The deliveries of message [m], whatever their number, count once. *)
Lemma script_P_once (evs : list Script.event) (m : string) :
  (exists e, e ∈ evs /\ Script.is_delivered_low e = true /\ Script.id e = m) ->
  Script.P_total evs
  = Script.P_total
      (List.filter
         (fun e => negb (Script.is_delivered_low e && str_eq (Script.id e) m)) evs)
    + 1.
Proof.
  intros Hex. unfold Script.P_total.
  set (rest := List.filter _ evs).
  assert (m ∉ Script.delivered_once_ids rest) as Hnot.
  { intros (e & [He Hf]%elem_of_List_filter & Hd & Hid)%script_delivered_elem.
    rewrite Hd, <- Hid, str_eq_refl in Hf. discriminate. }
  assert (Script.delivered_once_ids evs = Script.delivered_once_ids rest ∪ {[ m ]})
    as ->.
  { apply set_eq. intros x.
    rewrite elem_of_union, elem_of_singleton, !script_delivered_elem. split.
    - intros (e & He & Hd & Hid).
      destruct (str_eq (Script.id e) m) eqn:E.
      + right. apply str_eq_true in E. congruence.
      + left. exists e. split; [|auto].
        apply elem_of_List_filter. split; [assumption|].
        rewrite Hd, E. reflexivity.
    - intros [(e & [He _]%elem_of_List_filter & Hd & Hid) | ->]; [eauto | exact Hex]. }
  rewrite size_add_new by assumption. lia.
Qed.

Lemma script_L_fold (evs : list Script.event) :
  forall n : Z,
  foldl (fun n e => if Script.is_created_low e then n + 1 else n) n evs
  = n + len (List.filter Script.is_created_low evs).
Proof.
  unfold len. induction evs as [|e evs IH]; intros n; simpl; [lia|].
  rewrite IH. destruct (Script.is_created_low e); simpl; lia.
Qed.

Lemma script_L_count (evs : list Script.event) :
  Script.L_total evs = len (List.filter Script.is_created_low evs).
Proof. unfold Script.L_total. rewrite script_L_fold. lia. Qed.

(** The pandas program. *)
Lemma report_delivered_elem (df : list Report.row) (m : string) :
  m ∈ Report.delivered_ids df
  <-> exists r, r ∈ df /\ Report.is_low r = true
        /\ Report.is_first_delivery r = true /\ Report.Id r = Some m.
Proof.
  unfold Report.delivered_ids, Report.delivered_first, Report.low.
  rewrite elem_of_list_to_set, list_elem_of_fmap. split.
  - intros (c & -> & [(r & -> & Hr)%list_elem_of_fmap Hc]%elem_of_List_filter).
    apply elem_of_List_filter in Hr as [[Hr Hl]%elem_of_List_filter Hd].
    destruct (Report.Id r) as [i|] eqn:E; [|discriminate].
    exists r. rewrite E. auto.
  - intros (r & Hr & Hl & Hd & Hid). exists (Some m). split; [reflexivity|].
    apply elem_of_List_filter. split; [|reflexivity].
    apply list_elem_of_fmap. exists r. split; [auto|].
    apply elem_of_List_filter. split; [|assumption].
    apply elem_of_List_filter. auto.
Qed.

Lemma report_delivered_snoc (df : list Report.row) (r : Report.row) :
  Report.delivered_ids (df ++ [r])
  = if Report.is_low r && Report.is_first_delivery r
    then Report.delivered_ids df ∪ {[ Report.astype_str (Report.Id r) ]}
    else Report.delivered_ids df.
Proof.
  unfold Report.delivered_ids, Report.delivered_first, Report.low.
  rewrite !List.filter_app, fmap_app, List.filter_app, fmap_app, list_to_set_app_L.
  simpl. destruct (Report.is_low r) eqn:Hl; simpl; [|set_solver].
  destruct (Report.is_first_delivery r); simpl; [|set_solver].
  unfold Report.is_low in Hl. apply andb_true_iff in Hl as [-> _]. simpl. set_solver.
Qed.

Lemma report_P_snoc (df : list Report.row) (r : Report.row) :
  Report.P_total (df ++ [r])
  = Report.P_total df
    + (if Report.is_low r && Report.is_first_delivery r
          && bool_decide (Report.astype_str (Report.Id r) ∉ Report.delivered_ids df)
       then 1 else 0).
Proof.
  unfold Report.P_total. rewrite report_delivered_snoc.
  destruct (Report.is_low r && Report.is_first_delivery r); simpl; [|lia].
  case_bool_decide as Hin.
  - rewrite size_add_new by assumption. lia.
  - rewrite size_add_old; [lia|].
    destruct (decide (Report.astype_str (Report.Id r) ∈ Report.delivered_ids df)); tauto.
Qed.

(** sainaosi.py: the receivers, not the message ids, are what is counted
    once. *)
Lemma count_new_fold (weight : Z) (tohosts : list (option string)) :
  forall (seen : gset (option string)) (n : Z),
  foldl (fun '(seen, n) tohost =>
           if bool_decide (tohost ∈ seen) then (seen, n)
           else (seen ∪ {[ tohost ]}, n + weight))
        (seen, n) tohosts
  = (seen ∪ list_to_set tohosts,
     n + weight * Z.of_nat (size (list_to_set tohosts ∖ seen : gset (option string)))).
Proof.
  induction tohosts as [|t l IH]; intros seen n; simpl.
  - f_equal; [set_solver|].
    replace (∅ ∖ seen) with (∅ : gset (option string)) by set_solver.
    rewrite size_empty. lia.
  - case_bool_decide as Hin; rewrite IH.
    + replace (({[t]} ∪ list_to_set l) ∖ seen)
        with (list_to_set l ∖ seen : gset (option string)) by set_solver.
      f_equal. set_solver.
    + replace (({[t]} ∪ list_to_set l) ∖ seen)
        with ((list_to_set l ∖ (seen ∪ {[t]})) ∪ {[t]} : gset (option string)).
      * rewrite size_add_new by set_solver. f_equal; [set_solver | lia].
      * apply set_eq. intros x. destruct (decide (x = t)); set_solver.
Qed.

Lemma count_new_spec (weight : Z) (seen : gset (option string))
    (tohosts : list (option string)) :
  Sainaosi.count_new weight seen tohosts
  = (seen ∪ list_to_set tohosts,
     weight * Z.of_nat (size (list_to_set tohosts ∖ seen : gset (option string)))).
Proof. unfold Sainaosi.count_new. rewrite count_new_fold. f_equal. Qed.

Lemma low_files_head (files : list (string * list Sainaosi.csvrow))
    (path : string) (data : list Sainaosi.csvrow) (seen : gset (option string))
    (row : Sainaosi.lres) (rest : list Sainaosi.lres) :
  Sainaosi.low_files ((path, data) :: files) seen = Ok (row :: rest) ->
  exists ml,
    Sainaosi.ml_data data = Ok ml
    /\ Sainaosi.ML_received row
       = 2 * Z.of_nat (size (list_to_set (Sainaosi.delivered_tohosts ml) ∖ seen
                             : gset (option string)))
    /\ Sainaosi.low_files files
         (seen ∪ list_to_set (Sainaosi.delivered_tohosts ml))
       = Ok rest.
Proof.
  cbn [Sainaosi.low_files]. intros H.
  destruct (Sainaosi.ml_data data) as [ml|e] eqn:Eml; [|discriminate H].
  cbn [mbind result_bind bind_result] in H. rewrite count_new_spec in H.
  destruct (Sainaosi.low_files files _) as [rest'|e] eqn:Erest; [|discriminate H].
  cbn [mbind result_bind bind_result mret result_ret] in H.
  injection H as <- <-. exists ml. split; [reflexivity|]. split; [reflexivity | exact Erest].
Qed.

(** Filtering by a test that reads only [g x] commutes with [g]. *)
Lemma filter_fmap_agree {A B : Type} (g : A -> B) (q : B -> bool) (l1 : list A) :
  forall l2 : list A,
  g <$> l1 = g <$> l2 ->
  g <$> List.filter (fun x => q (g x)) l1 = g <$> List.filter (fun x => q (g x)) l2.
Proof.
  induction l1 as [|x l1 IH]; intros [|y l2] H; try discriminate H; [reflexivity|].
  rewrite !fmap_cons in H. injection H as Hxy Hl. cbn [List.filter].
  rewrite Hxy. destruct (q (g y)); rewrite ?fmap_cons, ?Hxy, (IH _ Hl); reflexivity.
Qed.

Lemma fmap_length_agree {A B : Type} (g : A -> B) (l1 l2 : list A) :
  g <$> l1 = g <$> l2 -> length l1 = length l2.
Proof. intros H. rewrite <- (length_fmap g l1), H. apply length_fmap. Qed.

Lemma script_P_pos (evs : list Script.event) (e : Script.event) :
  e ∈ evs -> Script.is_delivered_low e = true ->
  Script.id e ∈ Script.delivered_once_ids evs /\ 1 <= Script.P_total evs.
Proof.
  intros Hin Hd.
  assert (Script.id e ∈ Script.delivered_once_ids evs) as Hm
    by (apply script_delivered_elem; eauto).
  split; [exact Hm|]. unfold Script.P_total.
  assert (size (Script.delivered_once_ids evs) <> 0%nat); [|lia].
  intros H0%size_empty_iff. set_solver.
Qed.

Lemma script_L_snoc (evs : list Script.event) (e : Script.event) :
  Script.L_total (evs ++ [e])
  = Script.L_total evs + (if Script.is_created_low e then 1 else 0).
Proof.
  unfold Script.L_total. rewrite foldl_snoc.
  destruct (Script.is_created_low e); lia.
Qed.

(** The low-priority figures of the script are the same for two lists of
    events with the same types and ids. *)
Lemma script_low_agree (evs1 evs2 : list Script.event) :
  Link.kind_and_id <$> evs1 = Link.kind_and_id <$> evs2 ->
  Script.L_total evs1 = Script.L_total evs2
  /\ Script.delivered_once_ids evs1 = Script.delivered_once_ids evs2
  /\ Script.L_per_id evs1 = Script.L_per_id evs2.
Proof.
  intros H.
  assert (forall (A : Type) (f : A -> Script.etype * string -> A) (a : A),
             foldl (fun a e => f a (Link.kind_and_id e)) a evs1
             = foldl (fun a e => f a (Link.kind_and_id e)) a evs2) as Hfold.
  { intros A f. revert evs2 H.
    induction evs1 as [|e1 evs1 IH]; intros [|e2 evs2] H a; try discriminate H;
      [reflexivity|].
    rewrite !fmap_cons in H.
    assert (Link.kind_and_id e1 = Link.kind_and_id e2
            /\ Link.kind_and_id <$> evs1 = Link.kind_and_id <$> evs2) as [Hk Hl]
      by (split; congruence).
    simpl. rewrite Hk. apply (IH _ Hl). }
  split; [|split].
  - apply (Hfold Z (fun n k =>
             if match fst k with
                | Script.C => Script.is_low_id (Some (snd k))
                | _ => false
                end then n + 1 else n) 0).
  - apply (Hfold (gset string) (fun s k =>
             if match fst k with
                | Script.D => Script.is_low_id (Some (snd k))
                | _ => false
                end then s ∪ {[ snd k ]} else s) ∅).
  - apply (Hfold (list (string * Z)) (fun d k =>
             if match fst k with
                | Script.C => Script.is_low_id (Some (snd k))
                | _ => false
                end then Script.incr (snd k) d else d) []).
Qed.

Lemma report_P_pos (df : list Report.row) (r : Report.row) (m : string) :
  r ∈ df -> Report.Typ r = Report.DE -> Report.Status r = Some "D" ->
  Report.Id r = Some m -> Report.ID_LOW_RE m = true ->
  m ∈ Report.delivered_ids df /\ 1 <= Report.P_total df.
Proof.
  intros Hin Hty Hst Hid Hlow.
  assert (m ∈ Report.delivered_ids df) as Hm.
  { apply report_delivered_elem. exists r. split; [assumption|].
    unfold Report.is_low, Report.is_first_delivery, Report.is_type.
    rewrite Hid, Hst, Hty. simpl. rewrite Hlow. auto. }
  split; [exact Hm|]. unfold Report.P_total.
  assert (size (Report.delivered_ids df) <> 0%nat); [|lia].
  intros H0%size_empty_iff. set_solver.
Qed.

(** The low-priority figures of the pandas program are the same for two
    frames whose rows have the same types, ids and statuses. *)
Lemma report_low_agree (df1 df2 : list Report.row) :
  Link.row_key <$> df1 = Link.row_key <$> df2 ->
  Report.L_total df1 = Report.L_total df2
  /\ Report.delivered_ids df1 = Report.delivered_ids df2.
Proof.
  intros H.
  set (low := fun k : Report.rtype * option string * option string =>
                Report.notna (snd (fst k))
                && Report.ID_LOW_RE (Report.astype_str (snd (fst k)))).
  pose proof (filter_fmap_agree Link.row_key low df1 df2 H) as Hlow.
  change (Link.row_key <$> Report.low df1 = Link.row_key <$> Report.low df2) in Hlow.
  split.
  - pose proof (filter_fmap_agree Link.row_key
                  (fun k : Report.rtype * option string * option string =>
                     @bool_decide _ (Report.rtype_eq_dec (fst (fst k)) Report.C))
                  _ _ Hlow) as Hc.
    change (Link.row_key <$> Report.created df1
            = Link.row_key <$> Report.created df2) in Hc.
    unfold Report.L_total, len. f_equal.
    apply (fmap_length_agree _ _ _ Hc).
  - unfold Report.delivered_ids, Report.delivered_first.
    pose proof (filter_fmap_agree Link.row_key
                  (fun k : Report.rtype * option string * option string =>
                     @bool_decide _ (Report.rtype_eq_dec (fst (fst k)) Report.DE)
                     && Report.cell_is (snd k) "D") _ _ Hlow) as Hd.
    change (Link.row_key <$> List.filter Report.is_first_delivery (Report.low df1)
            = Link.row_key <$> List.filter Report.is_first_delivery (Report.low df2))
      in Hd.
    apply (f_equal (fmap (fun k : Report.rtype * option string * option string =>
                            snd (fst k)))) in Hd.
    rewrite <- !list_fmap_compose in Hd.
    change ((fun k : Report.rtype * option string * option string => snd (fst k))
            ∘ Link.row_key) with Report.Id in Hd.
    rewrite Hd. reflexivity.
Qed.

End LowFacts.

(** C5 (as the code has it).  When no low-priority message was created,
    [calc_low_arrival_rate_first_delivery] puts NaN in the summary, for
    any frame with a row, while the script writes the number 0.0; neither
    divides by zero. *)
Theorem C5_no_created_message :
  (forall df : list Report.row,
      df <> [] -> Report.L_total df = 0 ->
      Report.low_summary df = Py.Ok (0, Report.P_total df, Py.FNaN))
  /\ (forall evs : list Script.event,
        Script.L_total evs = 0 ->
        Script.low_summary evs = (0, Script.P_total evs, Py.FFin (0 # 10))).
Proof.
  split.
  - intros df Hne HL. unfold Report.low_summary.
    destruct df as [|r df]; [contradiction|]. rewrite HL. reflexivity.
  - intros evs HL. unfold Script.low_summary, Script.rate_total.
    rewrite HL. reflexivity.
Qed.

Lemma C5_no_created_message_witness :
  let df := Report.parse_eventlogreport Sample.float ["100 DE C A M_L1 D"] in
  df <> [] /\ Report.L_total df = 0
  /\ Report.low_summary df = Py.Ok (0, Report.P_total df, Py.FNaN).
Proof.
  cbv zeta.
  assert (Report.parse_eventlogreport Sample.float ["100 DE C A M_L1 D"] <> [])
    as Hne by (vm_compute; discriminate).
  assert (Report.L_total
            (Report.parse_eventlogreport Sample.float ["100 DE C A M_L1 D"]) = 0)
    as HL by reflexivity.
  split; [exact Hne|]. split; [exact HL|].
  destruct C5_no_created_message as (H & _). apply (H _ Hne HL).
Defined.

(** C5, as stated, fails on the script: for a log with a delivery and no
    created low-priority message, the summary line is [0, 1, 0.0]: the
    rate is a number, not NaN. *)
Lemma C5_counterexample :
  let evs := Script.events Sample.float ["100 DE C A M_L1 D"] in
  Script.L_total evs = 0
  /\ Script.low_summary evs = (0, 1, Py.FFin (0 # 10))
  /\ Py.isnan (snd (Script.low_summary evs)) = false.
Proof. cbv zeta. repeat split. Qed.

(** C6 (as the code has it).  In both programs of RESULT.py, [P] is the
    number of distinct low-priority ids with a D event: one more event
    adds 1 when it is a D event of a low-priority id not delivered so
    far and 0 otherwise, and all the D events of one id together
    contribute exactly 1.  [calculate_low] of sainaosi.py does not count
    message ids: what it adds for a file is determined by the number of
    receivers of the file's D rows that were not seen before. *)
Theorem C6_first_delivery_counts_once :
  (forall (evs : list Script.event) (e : Script.event),
      Script.P_total (evs ++ [e])
      = Script.P_total evs
        + (if Script.is_delivered_low e
              && bool_decide (Script.id e ∉ Script.delivered_once_ids evs)
           then 1 else 0))
  /\ (forall (evs : list Script.event) (m : string),
        (exists e, e ∈ evs /\ Script.is_delivered_low e = true /\ Script.id e = m) ->
        Script.P_total evs
        = Script.P_total
            (List.filter
               (fun e => negb (Script.is_delivered_low e && Py.str_eq (Script.id e) m))
               evs)
          + 1)
  /\ (forall (df : list Report.row) (r : Report.row),
        Report.P_total (df ++ [r])
        = Report.P_total df
          + (if Report.is_low r && Report.is_first_delivery r
                && bool_decide (Report.astype_str (Report.Id r)
                                  ∉ Report.delivered_ids df)
             then 1 else 0))
  /\ (forall (df : list Report.row) (m : string),
        m ∈ Report.delivered_ids df
        <-> exists r, r ∈ df /\ Report.is_low r = true
              /\ Report.is_first_delivery r = true /\ Report.Id r = Some m)
  /\ (forall (files : list (string * list Sainaosi.csvrow)) (path : string)
             (data : list Sainaosi.csvrow) (seen : gset (option string))
             (row : Sainaosi.lres) (rest : list Sainaosi.lres),
        Sainaosi.low_files ((path, data) :: files) seen = Py.Ok (row :: rest) ->
        exists ml,
          Sainaosi.ml_data data = Py.Ok ml
          /\ Sainaosi.ML_received row
             = 2 * Z.of_nat (size (list_to_set (Sainaosi.delivered_tohosts ml) ∖ seen
                                   : gset (option string)))
          /\ Sainaosi.low_files files
               (seen ∪ list_to_set (Sainaosi.delivered_tohosts ml))
             = Py.Ok rest).
Proof.
  split; [apply LowFacts.script_P_snoc|].
  split; [apply LowFacts.script_P_once|].
  split; [apply LowFacts.report_P_snoc|].
  split; [apply LowFacts.report_delivered_elem | apply LowFacts.low_files_head].
Qed.

Lemma C6_first_delivery_counts_once_witness :
  let d := fun t => Script.mkEvent (Py.FFin t) Script.D "a" (Some "b") "M_L1" in
  let evs := [d 1%Q; Script.mkEvent (Py.FFin 2) Script.D "a" (Some "c") "M_L2";
              d 3%Q; d 4%Q; d 5%Q; d 6%Q] in
  (exists e, e ∈ evs /\ Script.is_delivered_low e = true /\ Script.id e = "M_L1")
  /\ Script.P_total evs
     = Script.P_total [Script.mkEvent (Py.FFin 2) Script.D "a" (Some "c") "M_L2"] + 1.
Proof.
  cbv zeta.
  match goal with |- ?P /\ _ => assert P as Hex end.
  { eexists. split; [left|]. split; reflexivity. }
  split; [exact Hex|].
  destruct C6_first_delivery_counts_once as (_ & H & _).
  apply (H _ "M_L1" Hex).
Defined.

(** C6, as stated, fails on [calculate_low] of sainaosi.py: one message
    delivered to two receivers adds 4, and three messages delivered to
    the same receiver add 2 together. *)
Lemma C6_counterexample :
  match
    Sainaosi.calculate_low
      [("3cluster_1.csv", [Sainaosi.mkCsv "n0" "n1" "M_L1" "D";
                           Sainaosi.mkCsv "n0" "n2" "M_L1" "D"])]
  with
  | Py.Ok rows => Sainaosi.ML_received <$> rows
  | Py.Raise _ => []
  end
  = [4]
  /\ match
       Sainaosi.calculate_low
         [("3cluster_1.csv", [Sainaosi.mkCsv "n0" "n1" "M_L1" "D";
                              Sainaosi.mkCsv "n0" "n1" "M_L2" "D";
                              Sainaosi.mkCsv "n0" "n1" "M_L3" "D"])]
     with
     | Py.Ok rows => Sainaosi.ML_received <$> rows
     | Py.Raise _ => []
     end
     = [2].
Proof. split; vm_compute; reflexivity. Qed.

(** C10.  The low-priority figures do not look at node names.  A D
    event of a low-priority id puts the id into the delivered set and
    counts 1 toward [P] when the id was not delivered before, whatever
    its receiver, and leaves [L] as it is; a C event of a low-priority
    id counts 1 toward [L], whatever its node, and leaves [P] as it is.
    [L], [P] and the lines written for the low-priority messages are
    determined by the types, ids and statuses of the events alone, and
    are the same for every setting of the exclusion flags. *)
Theorem C10_low_ignores_exclusion :
  (forall (evs : list Script.event) (e : Script.event),
      e ∈ evs -> Script.type e = Script.D ->
      Script.is_low_id (Some (Script.id e)) = true ->
      Script.id e ∈ Script.delivered_once_ids evs /\ 1 <= Script.P_total evs)
  /\ (forall (evs : list Script.event) (e : Script.event),
        Script.type e = Script.D ->
        Script.is_low_id (Some (Script.id e)) = true ->
        Script.id e ∉ Script.delivered_once_ids evs ->
        Script.P_total (evs ++ [e])%list = Script.P_total evs + 1
        /\ Script.L_total (evs ++ [e])%list = Script.L_total evs)
  /\ (forall (evs : list Script.event) (e : Script.event),
        Script.type e = Script.C ->
        Script.is_low_id (Some (Script.id e)) = true ->
        Script.L_total (evs ++ [e])%list = Script.L_total evs + 1
        /\ Script.P_total (evs ++ [e])%list = Script.P_total evs)
  /\ (forall evs1 evs2 : list Script.event,
        Link.kind_and_id <$> evs1 = Link.kind_and_id <$> evs2 ->
        Script.L_total evs1 = Script.L_total evs2
        /\ Script.P_total evs1 = Script.P_total evs2
        /\ Script.low_summary evs1 = Script.low_summary evs2
        /\ Script.low_by_id evs1 = Script.low_by_id evs2)
  /\ (forall (float : string -> option Py.pyfloat) (W T : Z) (b1 d1 b2 d2 : bool)
             (log : list string),
        snd (fst (Script.run float W T b1 d1 log))
        = snd (fst (Script.run float W T b2 d2 log))
        /\ snd (Script.run float W T b1 d1 log)
           = snd (Script.run float W T b2 d2 log))
  /\ (forall (df : list Report.row) (r : Report.row) (m : string),
        r ∈ df -> Report.Typ r = Report.DE -> Report.Status r = Some "D" ->
        Report.Id r = Some m -> Report.ID_LOW_RE m = true ->
        m ∈ Report.delivered_ids df /\ 1 <= Report.P_total df)
  /\ (forall (df : list Report.row) (r : Report.row) (m : string),
        Report.Typ r = Report.DE -> Report.Status r = Some "D" ->
        Report.Id r = Some m -> Report.ID_LOW_RE m = true ->
        m ∉ Report.delivered_ids df ->
        Report.P_total (df ++ [r])%list = Report.P_total df + 1
        /\ Report.L_total (df ++ [r])%list = Report.L_total df)
  /\ (forall (df : list Report.row) (r : Report.row) (m : string),
        Report.Typ r = Report.C ->
        Report.Id r = Some m -> Report.ID_LOW_RE m = true ->
        Report.L_total (df ++ [r])%list = Report.L_total df + 1
        /\ Report.P_total (df ++ [r])%list = Report.P_total df)
  /\ (forall df1 df2 : list Report.row,
        Link.row_key <$> df1 = Link.row_key <$> df2 ->
        Report.L_total df1 = Report.L_total df2
        /\ Report.P_total df1 = Report.P_total df2
        /\ Report.low_summary df1 = Report.low_summary df2)
  /\ (forall (float : string -> option Py.pyfloat) (W T : Z) (f1 f2 : bool)
             (log : list string)
             (o1 o2 : list Report.hrow * list Report.crow
                      * (Z * Z * Py.pyfloat * list Report.idrow)),
        Report.main float W T f1 log = Py.Ok o1 ->
        Report.main float W T f2 log = Py.Ok o2 ->
        snd o1 = snd o2).
Proof.
  split.
  { intros evs e Hin Hty Hlow. apply LowFacts.script_P_pos; [assumption|].
    unfold Script.is_delivered_low. rewrite Hty. exact Hlow. }
  split.
  { intros evs e Hty Hlow Hnew.
    rewrite LowFacts.script_P_snoc, LowFacts.script_L_snoc.
    unfold Script.is_delivered_low, Script.is_created_low. rewrite Hty, Hlow.
    rewrite bool_decide_eq_true_2 by assumption. simpl. split; lia. }
  split.
  { intros evs e Hty Hlow.
    rewrite LowFacts.script_P_snoc, LowFacts.script_L_snoc.
    unfold Script.is_delivered_low, Script.is_created_low. rewrite Hty, Hlow.
    simpl. split; lia. }
  split.
  { intros evs1 evs2 H.
    destruct (LowFacts.script_low_agree evs1 evs2 H) as (HL & HD & HI).
    assert (Script.P_total evs1 = Script.P_total evs2) as HP
      by (unfold Script.P_total; rewrite HD; reflexivity).
    split; [exact HL|]. split; [exact HP|]. split.
    - unfold Script.low_summary, Script.rate_total. rewrite HL, HP. reflexivity.
    - unfold Script.low_by_id. rewrite HI, HD. reflexivity. }
  split; [intros; split; reflexivity|].
  split; [apply LowFacts.report_P_pos|].
  split.
  { intros df r m Hty Hst Hid Hlow Hnew.
    assert (Report.is_low r = true) as Hl
      by (unfold Report.is_low; rewrite Hid; simpl; exact Hlow).
    assert (Report.is_first_delivery r = true) as Hd
      by (unfold Report.is_first_delivery, Report.is_type; rewrite Hty, Hst;
          reflexivity).
    split.
    - rewrite LowFacts.report_P_snoc, Hl, Hd, Hid. simpl.
      rewrite bool_decide_eq_true_2 by assumption. lia.
    - unfold Report.L_total, Report.created, Report.low, Py.len.
      rewrite !List.filter_app, length_app. simpl. rewrite Hl. simpl.
      unfold Report.is_type at 2. rewrite Hty. simpl. lia. }
  split.
  { intros df r m Hty Hid Hlow.
    assert (Report.is_low r = true) as Hl
      by (unfold Report.is_low; rewrite Hid; simpl; exact Hlow).
    assert (Report.is_first_delivery r = false) as Hd
      by (unfold Report.is_first_delivery, Report.is_type; rewrite Hty;
          reflexivity).
    split.
    - unfold Report.L_total, Report.created, Report.low, Py.len.
      rewrite !List.filter_app, length_app. simpl. rewrite Hl. simpl.
      unfold Report.is_type at 2. rewrite Hty. simpl. lia.
    - rewrite LowFacts.report_P_snoc, Hl, Hd. simpl. lia. }
  split.
  { intros df1 df2 H.
    destruct (LowFacts.report_low_agree df1 df2 H) as (HL & HD).
    assert (Report.P_total df1 = Report.P_total df2) as HP
      by (unfold Report.P_total; rewrite HD; reflexivity).
    split; [exact HL|]. split; [exact HP|].
    unfold Report.low_summary. rewrite HL, HP.
    destruct df1, df2; try discriminate H; reflexivity. }
  intros float W T f1 f2 log o1 o2 H1 H2. unfold Report.main in H1, H2.
  apply ReportFacts.bind_Ok in H1 as (l1 & _ & H1).
  apply ReportFacts.bind_Ok in H1 as (c1 & _ & H1).
  apply ReportFacts.bind_Ok in H1 as (s1 & Hs1 & H1).
  apply ReportFacts.bind_Ok in H2 as (l2 & _ & H2).
  apply ReportFacts.bind_Ok in H2 as (c2 & _ & H2).
  apply ReportFacts.bind_Ok in H2 as (s2 & Hs2 & H2).
  apply ReportFacts.Ok_inj in H1, H2. subst o1 o2. simpl. congruence.
Qed.

Lemma C10_low_ignores_exclusion_witness :
  let evs := Script.events Sample.float ["5 C a M_L1"; "7 DE a b M_L2 D"] in
  let e := Script.mkEvent (Py.FFin 100) Script.D "a" (Some "box7") "M_L1" in
  Script.type e = Script.D
  /\ Script.is_low_id (Some (Script.id e)) = true
  /\ (Script.id e ∉ Script.delivered_once_ids evs)
  /\ Script.excluded true true (Script.dst e) = true
  /\ Script.events Sample.float
       ["5 C a M_L1"; "7 DE a b M_L2 D"; "100 DE a box7 M_L1 D"] = (evs ++ [e])%list
  /\ Script.P_total (evs ++ [e])%list = Script.P_total evs + 1
  /\ Script.L_total (evs ++ [e])%list = Script.L_total evs.
Proof.
  cbv zeta.
  match goal with |- ?A /\ ?B /\ ?C /\ _ =>
    assert A as H1 by reflexivity; assert B as H2 by reflexivity;
    assert C as H3 by (vm_compute; set_solver) end.
  split; [exact H1|]. split; [exact H2|]. split; [exact H3|].
  split; [reflexivity|]. split; [reflexivity|].
  destruct C10_low_ignores_exclusion as (_ & H & _).
  apply (H _ _ H1 H2 H3).
Defined.

(* ===================================================================== *)
(** * The stable sort *)
(* ===================================================================== *)

Module SortFacts.
Import Py PyFacts.

Section Sort.
Context {A K : Type} (lt : K -> K -> bool) (key : A -> K).
Hypothesis lt_asym : forall a b, lt a b = true -> lt b a = false.

#[local] Abbreviation in_order := (in_order lt key).

Lemma insert_by_perm (x : A) (l : list A) : insert_by lt key x l ≡ₚ x :: l.
Proof.
  induction l as [|y l IH]; simpl; [reflexivity|].
  destruct (lt (key y) (key x)); [|reflexivity].
  rewrite IH. apply Permutation_swap.
Qed.

Lemma sort_by_perm (l : list A) : sort_by lt key l ≡ₚ l.
Proof.
  induction l as [|x l IH]; simpl; [reflexivity|].
  rewrite insert_by_perm, IH. reflexivity.
Qed.

Lemma insert_by_hd (x z : A) (l : list A) :
  in_order z x -> HdRel in_order z l -> HdRel in_order z (insert_by lt key x l).
Proof.
  intros Hzx Hzl. destruct l as [|y l]; simpl; [constructor; assumption|].
  destruct (lt (key y) (key x)); constructor; [inversion Hzl; assumption | assumption].
Qed.

Lemma insert_by_sorted (x : A) (l : list A) :
  Sorted in_order l -> Sorted in_order (insert_by lt key x l).
Proof.
  induction 1 as [|y l Hs IH Hhd]; simpl; [repeat constructor|].
  destruct (lt (key y) (key x)) eqn:E.
  - constructor; [assumption|]. apply insert_by_hd; [|assumption].
    unfold in_order. apply lt_asym. assumption.
  - constructor; [constructor; assumption|]. constructor. exact E.
Qed.

Lemma sort_by_sorted (l : list A) : Sorted in_order (sort_by lt key l).
Proof.
  induction l as [|x l IH]; simpl; [constructor|].
  apply insert_by_sorted. assumption.
Qed.

End Sort.

Lemma str_lt_asym (s t : string) : str_lt s t = true -> str_lt t s = false.
Proof.
  unfold str_lt, String.ltb. rewrite (String.compare_antisym s t).
  destruct (String.compare t s); simpl; congruence.
Qed.

Lemma str_eq_sym (s t : string) : str_eq s t = str_eq t s.
Proof. apply String.eqb_sym. Qed.

Lemma key2_lt_asym (a b : string * Z) : key2_lt a b = true -> key2_lt b a = false.
Proof.
  unfold key2_lt. rewrite (str_eq_sym (fst b)).
  destruct (str_eq (fst a) (fst b)); [|apply str_lt_asym].
  intros H%Z.ltb_lt. apply Z.ltb_ge. lia.
Qed.

Lemma key3_lt_asym (a b : string * Z * string) :
  key3_lt a b = true -> key3_lt b a = false.
Proof.
  destruct a as [[a1 a2] a3], b as [[b1 b2] b3]. unfold key3_lt.
  rewrite (str_eq_sym b1), (Z.eqb_sym b2).
  destruct (str_eq a1 b1); [|apply str_lt_asym].
  destruct (a2 =? b2); [apply str_lt_asym|].
  intros H%Z.ltb_lt. apply Z.ltb_ge. lia.
Qed.

(** What the two sorts return is a rearrangement of the input in which no
    identifier is followed by one with a smaller key. *)
Lemma natural_sort_ids_sorted (ids : list string) :
  Script.natural_sort_ids ids ≡ₚ ids
  /\ Sorted (fun x y => key2_lt (Script.sort_key y) (Script.sort_key x) = false)
       (Script.natural_sort_ids ids).
Proof.
  split; [apply sort_by_perm|].
  apply (sort_by_sorted key2_lt Script.sort_key key2_lt_asym).
Qed.

(** The keys that [sorted] computes are those of the elements. *)
Lemma with_keys_Ok (ids : list string) :
  forall keyed, Report.with_keys ids = Ok keyed ->
  snd <$> keyed = ids
  /\ Forall (fun p => Report.natural_key (snd p) = Ok (fst p)) keyed.
Proof.
  induction ids as [|mid ids IH]; intros keyed H; cbn [Report.with_keys] in H.
  - injection H as <-. split; [reflexivity | constructor].
  - destruct (Report.natural_key mid) as [k|e] eqn:Ek; [|discriminate H].
    destruct (Report.with_keys ids) as [rest|e] eqn:Er; [|discriminate H].
    cbn [mbind result_bind bind_result mret result_ret] in H. injection H as <-.
    destruct (IH _ eq_refl) as [E F].
    split; [rewrite fmap_cons, E; reflexivity | constructor; assumption].
Qed.

Lemma with_keys_raises (ids : list string) (mid : string) (e : exn) :
  mid ∈ ids -> Report.natural_key mid = Raise e ->
  exists e', Report.with_keys ids = Raise e'.
Proof.
  induction ids as [|x ids IH]; intros Hin Hk; [inversion Hin|].
  cbn [Report.with_keys].
  destruct (Report.natural_key x) as [k|e0] eqn:Ek; [|simpl; eauto].
  apply elem_of_cons in Hin as [-> | Hin]; [congruence|].
  destruct (IH Hin Hk) as (e' & ->). simpl. eauto.
Qed.

Lemma with_keys_total (ids : list string) :
  (forall mid, mid ∈ ids -> exists k, Report.natural_key mid = Ok k) ->
  exists keyed, Report.with_keys ids = Ok keyed.
Proof.
  induction ids as [|x ids IH]; intros H; cbn [Report.with_keys]; [eauto|].
  destruct (H x ltac:(left)) as (k & ->).
  destruct IH as (rest & ->); [intros y Hy; apply H; right; assumption|].
  simpl. eauto.
Qed.

Lemma sorted_natural_Ok (ids l : list string) :
  Report.sorted_natural ids = Ok l ->
  exists keyed,
    Report.with_keys ids = Ok keyed /\ l = snd <$> sort_by key3_lt fst keyed.
Proof.
  unfold Report.sorted_natural. intros H.
  destruct (Report.with_keys ids) as [keyed|e]; [|discriminate H].
  injection H as <-. eauto.
Qed.

Lemma sorted_natural_sorted (ids l : list string) :
  Report.sorted_natural ids = Ok l ->
  l ≡ₚ ids
  /\ Sorted (fun x y =>
               forall kx ky, Report.natural_key x = Ok kx ->
                             Report.natural_key y = Ok ky -> key3_lt ky kx = false)
       l.
Proof.
  intros (keyed & Hk & ->)%sorted_natural_Ok.
  destruct (with_keys_Ok _ _ Hk) as [E F].
  pose proof (sort_by_perm key3_lt fst keyed) as Hp.
  split; [rewrite Hp; rewrite E; reflexivity|].
  rewrite <- Hp in F.
  pose proof (sort_by_sorted key3_lt (@fst (string * Z * string) string)
                key3_lt_asym keyed) as Hs.
  clear Hp. revert F. generalize (sort_by key3_lt fst keyed) Hs. clear.
  intros L Hs. induction Hs as [|p ps Hs IH Hhd]; intros F; [constructor|].
  apply Forall_cons in F as [Fp Fps]. rewrite fmap_cons.
  constructor; [apply IH; assumption|].
  destruct Hhd as [|q qs Hq]; [constructor|]. rewrite fmap_cons. constructor.
  apply Forall_cons in Fps as [Fq _].
  intros kx ky Hx Hy. unfold in_order in Hq. congruence.
Qed.

End SortFacts.

(* ===================================================================== *)
(** * Natural order of identifiers *)
(* ===================================================================== *)

Module KeyFacts.
Import Py PyFacts.

Lemma split_trailing_all (digit : ascii -> bool) (ds : string) :
  all_chars digit ds = true -> split_trailing digit ds = ("", ds).
Proof.
  induction ds as [|c ds IH]; simpl; [reflexivity|].
  intros [Hc Hds]%andb_true_iff. rewrite (IH Hds), Hc. reflexivity.
Qed.


(** The longest run of trailing digits is found whatever is before it. *)
Lemma split_trailing_app (digit : ascii -> bool) (head ds : string) :
  all_chars digit ds = true -> last_is digit head = false ->
  split_trailing digit (head ++ ds) = (head, ds).
Proof.
  intros Hds. induction head as [|c head IH]; intros Hlast.
  - apply split_trailing_all. assumption.
  - change (String c head ++ ds) with (String c (head ++ ds)).
    cbn [split_trailing]. destruct head as [|c' head].
    + rewrite IH by reflexivity. simpl in Hlast. rewrite Hlast. reflexivity.
    + rewrite (IH Hlast). reflexivity.
Qed.

Lemma last_is_app (p : ascii -> bool) (head ds : string) :
  ds <> "" -> last_is p (head ++ ds) = last_is p ds.
Proof.
  intros Hne. induction head as [|c head IH]; [reflexivity|].
  change (String c head ++ ds) with (String c (head ++ ds)).
  cbn [last_is]. destruct (head ++ ds) eqn:E; [|assumption].
  destruct head; simpl in E; [contradiction | discriminate].
Qed.

Lemma last_is_all (p q : ascii -> bool) (ds : string) :
  (forall c, p c = true -> q c = false) ->
  all_chars p ds = true -> last_is q ds = false.
Proof.
  intros Hpq. induction ds as [|c ds IH]; [reflexivity|]. simpl.
  intros [Hc Hds]%andb_true_iff. destruct ds; [apply Hpq; assumption | apply IH; assumption].
Qed.

Lemma chomp_id (s : string) : last_is is_newline s = false -> chomp s = s.
Proof.
  induction s as [|c s IH]; [reflexivity|]. simpl. destruct s as [|c' s].
  - simpl. intros ->. reflexivity.
  - intros H. simpl is_empty. cbn [andb]. rewrite (IH H). reflexivity.
Qed.

Lemma decimal_not_newline (c : ascii) : isdecimal c = true -> is_newline c = false.
Proof.
  unfold isdecimal, between, is_newline.
  intros [H1 H2]%andb_true_iff. apply N.leb_le in H1. apply N.eqb_neq. lia.
Qed.

Lemma decimal_isdigit (c : ascii) : isdecimal c = true -> isdigit c = true.
Proof. unfold isdigit, isdecimal. intros ->. reflexivity. Qed.

Lemma all_chars_impl (p q : ascii -> bool) (s : string) :
  (forall c, p c = true -> q c = true) ->
  all_chars p s = true -> all_chars q s = true.
Proof.
  intros Hpq. induction s as [|c s IH]; [reflexivity|]. simpl.
  intros [Hc Hs]%andb_true_iff. rewrite (Hpq _ Hc), (IH Hs). reflexivity.
Qed.

Lemma is_empty_false (s : string) : s <> "" -> is_empty s = false.
Proof. destruct s; [contradiction | reflexivity]. Qed.

(** [int] on a run of decimal digits, within the limit and beyond it. *)
Lemma int_digits (ds : string) :
  ds <> "" -> all_chars isdecimal ds = true ->
  Z.of_nat (String.length ds) <= max_str_digits ->
  int ds = Some (digits_value ds).
Proof.
  intros Hne Hds Hlen. unfold int.
  rewrite (is_empty_false _ Hne), Hds. apply Z.leb_le in Hlen. rewrite Hlen.
  reflexivity.
Qed.

Lemma int_too_long (ds : string) :
  max_str_digits < Z.of_nat (String.length ds) -> int ds = None.
Proof.
  intros Hlen. unfold int. apply Z.leb_gt in Hlen. rewrite Hlen.
  rewrite andb_false_r. reflexivity.
Qed.





Lemma split_trailing_digits (digit : ascii -> bool) (s : string) :
  all_chars digit (snd (split_trailing digit s)) = true.
Proof.
  induction s as [|c s IH]; [reflexivity|]. cbn [split_trailing].
  destruct (split_trailing digit s) as [h d]. cbn [snd] in IH.
  destruct (is_empty h && digit c) eqn:E; cbn [snd]; [|exact IH].
  apply andb_true_iff in E as [_ Hc]. cbn [all_chars]. rewrite Hc, IH. reflexivity.
Qed.

(** [natural_key] fails exactly on a run of digits that is too long. *)
Lemma natural_key_short (mid : string) :
  Link.short_number mid -> exists k, Report.natural_key mid = Ok k.
Proof.
  unfold Link.short_number, Report.natural_key.
  pose proof (split_trailing_digits isdecimal (chomp mid)) as Hall.
  destruct (split_trailing isdecimal (chomp mid)) as [head digits].
  cbn [snd] in *. intros Hlen.
  destruct (is_empty digits) eqn:E; [eauto|].
  rewrite int_digits; [eauto | | assumption | assumption].
  intros ->. discriminate E.
Qed.

Lemma natural_key_long (mid : string) :
  ~ Link.short_number mid -> Report.natural_key mid = Raise ValueError.
Proof.
  unfold Link.short_number, Report.natural_key.
  destruct (split_trailing isdecimal (chomp mid)) as [head digits].
  cbn [snd]. intros Hlen.
  destruct (is_empty digits) eqn:E.
  - apply is_empty_true in E. subst digits. exfalso. apply Hlen.
    vm_compute. discriminate.
  - rewrite int_too_long by lia. reflexivity.
Qed.

(** [ValueError] is the only exception of [natural_key], and so of the
    sort. *)
Lemma natural_key_exn (mid : string) (e : exn) :
  Report.natural_key mid = Raise e -> e = ValueError.
Proof.
  unfold Report.natural_key.
  destruct (split_trailing isdecimal (chomp mid)) as [head digits].
  destruct (is_empty digits); [discriminate|].
  destruct (int digits); [discriminate|]. congruence.
Qed.

Lemma with_keys_exn (ids : list string) (e : exn) :
  Report.with_keys ids = Raise e -> e = ValueError.
Proof.
  induction ids as [|x ids IH]; cbn [Report.with_keys]; [discriminate|].
  destruct (Report.natural_key x) as [k|e0] eqn:Ek.
  - destruct (Report.with_keys ids) as [rest|e1]; [discriminate|].
    simpl. intros [= <-]. apply IH. reflexivity.
  - simpl. intros [= <-]. apply (natural_key_exn x). assumption.
Qed.

Lemma sorted_natural_raises (ids : list string) (mid : string) (e : exn) :
  mid ∈ ids -> Report.natural_key mid = Raise e ->
  Report.sorted_natural ids = Raise ValueError.
Proof.
  intros Hin Hk. unfold Report.sorted_natural.
  destruct (SortFacts.with_keys_raises _ _ _ Hin Hk) as (e' & He).
  rewrite He, (with_keys_exn _ _ He). reflexivity.
Qed.

Lemma natural_key_too_long (head ds : string) :
  all_chars isdecimal ds = true ->
  max_str_digits < Z.of_nat (String.length ds) ->
  last_is isdecimal head = false ->
  Report.natural_key (head ++ ds) = Raise ValueError.
Proof.
  intros Hds Hlen Hhead.
  assert (ds <> "") as Hne by (intros ->; vm_compute in Hlen; discriminate).
  unfold Report.natural_key. rewrite chomp_id.
  - rewrite (split_trailing_app _ _ _ Hds Hhead), (is_empty_false _ Hne).
    rewrite (int_too_long _ Hlen). reflexivity.
  - rewrite (last_is_app _ _ _ Hne).
    apply (last_is_all isdecimal); [apply decimal_not_newline | assumption].
Qed.

Lemma sort_key_too_long (head ds : string) :
  all_chars isdecimal ds = true ->
  max_str_digits < Z.of_nat (String.length ds) ->
  last_is isdigit head = false ->
  Script.sort_key (head ++ ds) = (head ++ ds, -1).
Proof.
  intros Hds Hlen Hhead.
  assert (ds <> "") as Hne by (intros ->; vm_compute in Hlen; discriminate).
  unfold Script.sort_key.
  rewrite (split_trailing_app isdigit head ds), (is_empty_false _ Hne);
    [|apply (all_chars_impl isdecimal); [apply decimal_isdigit | assumption]
     |assumption].
  rewrite (int_too_long _ Hlen). reflexivity.
Qed.

End KeyFacts.




(* ===================================================================== *)
(** * Worked examples *)
(* ===================================================================== *)

Module Examples.
Import Py.

(** Three nodes; [M_H1] reaches [A] in hour 1, then [B] and [A] again in
    hour 2: the script counts one new receiver in each hour. *)
Example scenario_script :
  Script.high_rows 3600 2 true true (Script.events Sample.float Sample.scenario_log)
  = [Script.mkHrow "M_H1" 1 3 1 33 33; Script.mkHrow "M_H1" 2 3 1 33 67].
Proof. vm_compute. reflexivity. Qed.

(** Four created low-priority messages, two of them delivered, one of
    these twice. *)
Example scenario_low :
  Script.low_summary
    (Script.events Sample.float
       ["1 C a M_L1"; "2 C a M_L2"; "3 C a M_L3"; "4 C a M_L4";
        "10 DE a b M_L1 D"; "11 DE a c M_L1 D"; "12 DE a b M_L3 D";
        "13 DE a b M_L4 R"])
  = (4, 2, FFin (500 # 10)).
Proof. vm_compute. reflexivity. Qed.

(** A final [$] also matches before a last newline: an identifier that
    ends in one still gets a numeric second component. *)
Example natural_key_final_newline :
  Report.natural_key (String "m" (String "1" (String (ascii_of_N 10) "")))
  = Ok ("m", 1, String "m" (String "1" (String (ascii_of_N 10) ""))).
Proof. vm_compute. reflexivity. Qed.

(** A superscript digit passes [isdigit] and fails [int]: the script
    falls back to the whole identifier. *)
Example sort_key_superscript :
  Script.sort_key (String "m" (String (ascii_of_N 178) (String "1" "")))
  = (String "m" (String (ascii_of_N 178) (String "1" "")), -1).
Proof. vm_compute. reflexivity. Qed.

(** With an empty node set, [round] fails on the NaN rate of the first
    line of [calc_high_hourly_R_based]. *)
Example calc_high_empty_node_set :
  Report.calc_high_hourly_R_based 3600 1 true
    [Report.mkRow (FFin 100) Report.DE "C" (Some "A") (Some "M_H1") (Some "R")] ∅
  = Raise ValueError.
Proof. vm_compute. reflexivity. Qed.

End Examples.

(* ===================================================================== *)
(** * Rounding *)
(* ===================================================================== *)

Module RoundFacts.
Import Py PyFacts.

(** The rounded value is within one half of the argument. *)
Lemma round_half_even_near (q : Q) :
  2 * Qnum q - Zpos (Qden q) <= 2 * Zpos (Qden q) * round_half_even q
  /\ 2 * Zpos (Qden q) * round_half_even q <= 2 * Qnum q + Zpos (Qden q).
Proof.
  unfold round_half_even.
  set (d := Zpos (Qden q)). set (n := Qnum q).
  assert (0 < d) as Hd by (subst d; lia).
  pose proof (Z.div_mod n d ltac:(lia)) as Hdm.
  pose proof (Z.mod_pos_bound n d Hd) as Hm.
  destruct (2 * (n mod d) ?= d) eqn:E.
  - apply Z.compare_eq in E. destruct (Z.even (n / d)); nia.
  - rewrite Z.compare_lt_iff in E. nia.
  - rewrite Z.compare_gt_iff in E. nia.
Qed.

Lemma round_half_even_mono (x y : Q) : (x <= y)%Q -> round_half_even x <= round_half_even y.
Proof.
  destruct x as [a b], y as [c d]. unfold Qle, round_half_even. cbn [Qnum Qden].
  intros H.
  pose proof (Z.div_mod a (Zpos b) ltac:(lia)) as Ea.
  pose proof (Z.div_mod c (Zpos d) ltac:(lia)) as Ec.
  pose proof (Z.mod_pos_bound a (Zpos b) ltac:(lia)) as Ba.
  pose proof (Z.mod_pos_bound c (Zpos d) ltac:(lia)) as Bc.
  set (fa := a / Zpos b) in *. set (ra := a mod Zpos b) in *.
  set (fc := c / Zpos d) in *. set (rc := c mod Zpos d) in *.
  assert (fa <= fc) as Hf.
  { destruct (Z_le_gt_dec fa fc) as [Hle|Hgt]; [exact Hle|]. exfalso.
    assert (Zpos b * Zpos d * (fc + 1) <= Zpos b * Zpos d * fa)
      by (apply Z.mul_le_mono_nonneg_l; lia).
    nia. }
  destruct (Z.eq_dec fa fc) as [E|NE].
  - rewrite <- E in *.
    assert (ra * Zpos d <= rc * Zpos b) as Hr by nia.
    destruct (Z.compare_spec (2 * ra) (Zpos b)) as [C1|C1|C1];
      destruct (Z.compare_spec (2 * rc) (Zpos d)) as [C2|C2|C2];
      try destruct (Z.even fa); try lia; nia.
  - destruct (Z.compare_spec (2 * ra) (Zpos b)) as [C1|C1|C1];
      destruct (Z.compare_spec (2 * rc) (Zpos d)) as [C2|C2|C2];
      try destruct (Z.even fa); try destruct (Z.even fc); lia.
Qed.

Lemma round_half_even_inject_Z (z : Z) : round_half_even (inject_Z z) = z.
Proof.
  unfold round_half_even, inject_Z. cbn [Qnum Qden].
  rewrite Z.div_1_r, Z.mod_1_r. reflexivity.
Qed.

Lemma round_half_even_ge (z : Z) (x : Q) : (inject_Z z <= x)%Q -> z <= round_half_even x.
Proof. intros H. apply round_half_even_mono in H. rewrite round_half_even_inject_Z in H. exact H. Qed.

Lemma round_half_even_le (z : Z) (x : Q) : (x <= inject_Z z)%Q -> round_half_even x <= z.
Proof. intros H. apply round_half_even_mono in H. rewrite round_half_even_inject_Z in H. exact H. Qed.

Lemma pow2_pos (e : Z) : (0 < 2 ^ e)%Q.
Proof. apply Qpower_0_lt. reflexivity. Qed.

Lemma pow2_add (a b : Z) : (2 ^ (a + b) == 2 ^ a * 2 ^ b)%Q.
Proof. apply Qpower_plus. discriminate. Qed.

Lemma pow2_le (a b : Z) : a <= b -> (2 ^ a <= 2 ^ b)%Q.
Proof. intros H. apply Qpower_le_compat_l; [exact H|]. discriminate. Qed.

Lemma pow2_inv (e : Z) : (2 ^ e * 2 ^ (- e) == 1)%Q.
Proof. rewrite <- pow2_add. replace (e + - e) with 0 by lia. reflexivity. Qed.

Lemma pow2_Z (n : Z) : 0 <= n -> (inject_Z (2 ^ n) == 2 ^ n)%Q.
Proof. intros H. apply (Zpower_Qpower 2 n H). Qed.

Lemma floor_log2_spec (q : Q) :
  (0 < q)%Q -> (2 ^ floor_log2 q <= q)%Q /\ (q < 2 ^ (floor_log2 q + 1))%Q.
Proof.
  intros Hq. destruct q as [n d]. unfold floor_log2. cbn [Qnum Qden].
  assert (0 < n) as Hn by (unfold Qlt in Hq; cbn in Hq; lia).
  pose proof (Z.log2_spec n Hn) as [La Ua].
  pose proof (Z.log2_spec (Zpos d) ltac:(lia)) as [Lb Ub].
  pose proof (Z.log2_nonneg n) as Na.
  pose proof (Z.log2_nonneg (Zpos d)) as Nb.
  set (a := Z.log2 n) in *. set (b := Z.log2 (Zpos d)) in *.
  assert (n # d == inject_Z n / inject_Z (Zpos d))%Q as Eq by apply Qmake_Qdiv.
  assert (0 < inject_Z (Zpos d))%Q as Dpos by (unfold Qlt; cbn; lia).
  (* bounds on numerator and denominator as powers of two in Q *)
  assert (2 ^ a <= inject_Z n)%Q as QLa.
  { rewrite <- pow2_Z by lia. rewrite <- Zle_Qle. exact La. }
  assert (inject_Z n < 2 ^ (a + 1))%Q as QUa.
  { rewrite <- pow2_Z by lia. rewrite <- Zlt_Qlt. replace (a + 1) with (Z.succ a) by lia. exact Ua. }
  assert (2 ^ b <= inject_Z (Zpos d))%Q as QLb.
  { rewrite <- pow2_Z by lia. rewrite <- Zle_Qle. exact Lb. }
  assert (inject_Z (Zpos d) < 2 ^ (b + 1))%Q as QUb.
  { rewrite <- pow2_Z by lia. rewrite <- Zlt_Qlt. replace (b + 1) with (Z.succ b) by lia. exact Ub. }
  assert (forall k, (2 ^ k * inject_Z (Zpos d) <= inject_Z n -> 2 ^ k <= n # d)%Q) as Hlow.
  { intros k H. rewrite Eq. apply Qle_shift_div_l; assumption. }
  assert (forall k, (inject_Z n < 2 ^ k * inject_Z (Zpos d) -> n # d < 2 ^ k)%Q) as Hup.
  { intros k H. rewrite Eq. apply Qlt_shift_div_r; assumption. }
  assert (n # d < 2 ^ (a - b + 1))%Q as Hhi.
  { apply Hup. eapply Qlt_le_trans; [exact QUa|].
    replace (a + 1) with ((a - b + 1) + b) by lia. rewrite pow2_add.
    apply Qmult_le_l; [apply pow2_pos | exact QLb]. }
  assert (2 ^ (a - b - 1) <= n # d)%Q as Hlo.
  { apply Hlow. eapply Qle_trans; [|exact QLa].
    replace a with ((a - b - 1) + (b + 1)) at 2 by lia. rewrite pow2_add.
    apply Qmult_le_l; [apply pow2_pos | apply Qlt_le_weak; exact QUb]. }
  destruct (Qle_bool (2 ^ (a - b)) (n # d)) eqn:E.
  - apply Qle_bool_iff in E. split; assumption.
  - split; [exact Hlo|].
    replace (a - b - 1 + 1) with (a - b) by lia.
    apply Qnot_le_lt. intros C. apply Qle_bool_iff in C. congruence.
Qed.

Lemma floor_log2_mono (x y : Q) :
  (0 < x)%Q -> (x <= y)%Q -> floor_log2 x <= floor_log2 y.
Proof.
  intros Hx Hxy.
  destruct (floor_log2_spec x Hx) as [Lx Ux].
  destruct (floor_log2_spec y ltac:(lra)) as [Ly Uy].
  destruct (Z_le_gt_dec (floor_log2 x) (floor_log2 y)) as [H|H]; [exact H|].
  exfalso. pose proof (pow2_le (floor_log2 y + 1) (floor_log2 x) ltac:(lia)). lra.
Qed.

(** The value of [binary64] before [Qred], for the exponent [e]. *)
#[local] Abbreviation rounded q e :=
  (inject_Z (round_half_even (q * 2 ^ (- e))) * 2 ^ e)%Q.

Lemma rounded_mono (x y : Q) (e : Z) : (x <= y)%Q -> (rounded x e <= rounded y e)%Q.
Proof.
  intros H. apply Qmult_le_compat_r; [|apply Qlt_le_weak, pow2_pos].
  rewrite <- Zle_Qle. apply round_half_even_mono.
  apply Qmult_le_compat_r; [exact H | apply Qlt_le_weak, pow2_pos].
Qed.

Lemma rounded_upper (x : Q) (e k : Z) :
  0 <= k -> (x <= 2 ^ (k + e))%Q -> (rounded x e <= 2 ^ (k + e))%Q.
Proof.
  intros Hk H. rewrite (pow2_add k e).
  apply Qmult_le_compat_r; [|apply Qlt_le_weak, pow2_pos].
  rewrite <- (pow2_Z k Hk). rewrite <- Zle_Qle. apply round_half_even_le.
  rewrite (pow2_Z k Hk).
  apply Qle_trans with (2 ^ (k + e) * 2 ^ (- e))%Q.
  - apply Qmult_le_compat_r; [exact H | apply Qlt_le_weak, pow2_pos].
  - rewrite <- pow2_add. replace (k + e + - e) with k by lia. apply Qle_refl.
Qed.

Lemma rounded_lower (x : Q) (e k : Z) :
  0 <= k -> (2 ^ (k + e) <= x)%Q -> (2 ^ (k + e) <= rounded x e)%Q.
Proof.
  intros Hk H. rewrite (pow2_add k e).
  apply Qmult_le_compat_r; [|apply Qlt_le_weak, pow2_pos].
  rewrite <- (pow2_Z k Hk). rewrite <- Zle_Qle. apply round_half_even_ge.
  rewrite (pow2_Z k Hk).
  apply Qle_trans with (2 ^ (k + e) * 2 ^ (- e))%Q.
  - rewrite <- pow2_add. replace (k + e + - e) with k by lia. apply Qle_refl.
  - apply Qmult_le_compat_r; [exact H | apply Qlt_le_weak, pow2_pos].
Qed.

Lemma binary64_pos (q : Q) :
  (0 < q)%Q -> (binary64 q == rounded q (ulp_exp q))%Q.
Proof.
  intros H. unfold binary64.
  destruct (Qeq_bool q 0) eqn:E.
  - apply Qeq_bool_iff in E. lra.
  - cbv zeta. rewrite Qred_correct. reflexivity.
Qed.

Lemma binary64_0 (q : Q) : (q == 0)%Q -> binary64 q = 0%Q.
Proof. intros H. unfold binary64. apply Qeq_bool_iff in H. rewrite H. reflexivity. Qed.

Lemma rounded_nonneg (q : Q) (e : Z) : (0 <= q)%Q -> (0 <= rounded q e)%Q.
Proof.
  intros H. apply Qmult_le_0_compat; [|apply Qlt_le_weak, pow2_pos].
  change 0%Q with (inject_Z 0). rewrite <- Zle_Qle. apply round_half_even_ge.
  change (inject_Z 0) with 0%Q. apply Qmult_le_0_compat; [exact H | apply Qlt_le_weak, pow2_pos].
Qed.

Lemma binary64_mono (x y : Q) :
  (0 <= x)%Q -> (x <= y)%Q -> (binary64 x <= binary64 y)%Q.
Proof.
  intros Hx Hxy.
  destruct (Qlt_le_dec 0 x) as [Px|Zx].
  2:{ rewrite (binary64_0 x) by lra.
      destruct (Qlt_le_dec 0 y) as [Py|Zy].
      - rewrite (binary64_pos y Py). apply rounded_nonneg. lra.
      - rewrite (binary64_0 y) by lra. apply Qle_refl. }
  assert (0 < y)%Q as Py by lra.
  rewrite (binary64_pos x Px), (binary64_pos y Py).
  assert (Qabs x == x)%Q as Ax by (apply Qabs_pos; lra).
  assert (Qabs y == y)%Q as Ay by (apply Qabs_pos; lra).
  assert (0 < Qabs x)%Q as Pax by lra.
  assert (0 < Qabs y)%Q as Pay by lra.
  destruct (floor_log2_spec _ Pax) as [Lx Ux].
  destruct (floor_log2_spec _ Pay) as [Ly Uy].
  pose proof (floor_log2_mono (Qabs x) (Qabs y) Pax ltac:(lra)) as Hk.
  unfold ulp_exp.
  set (kx := floor_log2 (Qabs x)) in *. set (ky := floor_log2 (Qabs y)) in *.
  destruct (Z.eq_dec (Z.max (kx - 52) (-1074)) (Z.max (ky - 52) (-1074))) as [E|NE].
  - rewrite E. apply rounded_mono. exact Hxy.
  - set (ex := Z.max (kx - 52) (-1074)) in *.
    set (ey := Z.max (ky - 52) (-1074)) in *.
    assert (ex < ey) as Hlt by lia.
    assert (ey = ky - 52) as Ey by lia.
    apply Qle_trans with (2 ^ (53 + ex))%Q.
    + apply rounded_upper; [lia|].
      apply Qle_trans with (2 ^ (kx + 1))%Q; [lra|]. apply pow2_le. lia.
    + apply Qle_trans with (2 ^ (52 + ey))%Q; [apply pow2_le; lia|].
      apply rounded_lower; [lia|].
      replace (52 + ey) with ky by lia. lra.
Qed.

Lemma binary64_nonneg (x : Q) : (0 <= x)%Q -> (0 <= binary64 x)%Q.
Proof.
  intros H. change 0%Q with (binary64 0) at 1. apply binary64_mono; [apply Qle_refl | exact H].
Qed.

Lemma percent_range (n d : Z) :
  0 <= n <= d -> 0 < d -> (0 <= percent n d)%Q /\ (percent n d <= 100)%Q.
Proof.
  intros Hn Hd. unfold percent, true_div.
  assert (0 < inject_Z d)%Q as Dpos by (change 0%Q with (inject_Z 0); rewrite <- Zlt_Qlt; exact Hd).
  assert (0 <= inject_Z n / inject_Z d)%Q as H0.
  { apply Qle_shift_div_l; [exact Dpos|]. rewrite Qmult_0_l.
    change 0%Q with (inject_Z 0). rewrite <- Zle_Qle. lia. }
  assert (inject_Z n / inject_Z d <= 1)%Q as H1.
  { apply Qle_shift_div_r; [exact Dpos|]. rewrite Qmult_1_l. rewrite <- Zle_Qle. lia. }
  pose proof (binary64_nonneg _ H0) as B0.
  pose proof (binary64_mono _ 1 H0 H1) as B1.
  change (binary64 1) with 1%Q in B1.
  split.
  - apply binary64_nonneg. lra.
  - change 100%Q with (binary64 100) at 2. apply binary64_mono; lra.
Qed.

Lemma percent_mono (n1 n2 d : Z) :
  0 <= n1 <= n2 -> 0 < d -> (percent n1 d <= percent n2 d)%Q.
Proof.
  intros Hn Hd. unfold percent, true_div.
  assert (0 < inject_Z d)%Q as Dpos by (change 0%Q with (inject_Z 0); rewrite <- Zlt_Qlt; exact Hd).
  assert (0 <= inject_Z n1 / inject_Z d)%Q as H0.
  { apply Qle_shift_div_l; [exact Dpos|]. rewrite Qmult_0_l.
    change 0%Q with (inject_Z 0). rewrite <- Zle_Qle. lia. }
  assert (inject_Z n1 / inject_Z d <= inject_Z n2 / inject_Z d)%Q as H1.
  { apply Qmult_le_compat_r; [rewrite <- Zle_Qle; lia|].
    apply Qlt_le_weak, Qinv_lt_0_compat, Dpos. }
  pose proof (binary64_nonneg _ H0) as B0.
  pose proof (binary64_mono _ _ H0 H1) as B1.
  apply binary64_mono; lra.
Qed.

Lemma rate_bounds (n_nodes n : Z) :
  0 <= n <= n_nodes -> 0 <= Script.rate n_nodes n <= 100.
Proof.
  intros Hn. unfold Script.rate.
  destruct (0 <? n_nodes) eqn:E; [|vm_compute; split; discriminate].
  apply Z.ltb_lt in E. destruct (percent_range n n_nodes Hn E) as [H0 H1].
  split; [apply round_half_even_ge | apply round_half_even_le]; assumption.
Qed.

Lemma rate_mono (n_nodes n1 n2 : Z) :
  0 <= n1 <= n2 -> Script.rate n_nodes n1 <= Script.rate n_nodes n2.
Proof.
  intros Hn. unfold Script.rate.
  destruct (0 <? n_nodes) eqn:E; [|lia].
  apply Z.ltb_lt in E. apply round_half_even_mono, percent_mono; assumption.
Qed.

End RoundFacts.

(* ===================================================================== *)
(** * More on the hourly loop of the script *)
(* ===================================================================== *)

Module CoverageFacts.
Import Py PyFacts BinFacts.

Lemma size_map_Some (X : gset string) :
  size (set_map Some X : gset (option string)) = size X.
Proof.
  unfold set_map. rewrite size_list_to_set.
  - rewrite length_fmap. reflexivity.
  - apply NoDup_fmap; [typeclasses eauto | apply NoDup_elements].
Qed.

Lemma seqZ_nat (T : Z) : seqZ 1 T = Z.of_nat <$> seq 1 (Z.to_nat T).
Proof.
  unfold seqZ. rewrite <- fmap_S_seq, <- list_fmap_compose.
  apply list_fmap_ext. intros i x _. simpl. lia.
Qed.

Lemma total_app (l1 l2 : list Z) :
  Link.total (l1 ++ l2) = Link.total l1 + Link.total l2.
Proof. unfold Link.total. induction l1 as [|x l1 IH]; simpl; lia. Qed.

Lemma total_cons (x : Z) (l : list Z) : Link.total (x :: l) = x + Link.total l.
Proof. reflexivity. Qed.

(** The union of the first [h] windows of width [W > 0] is [(0, h*W]]. *)
Lemma windows_union (W : Z) (h : nat) (t : pyfloat) :
  0 < W ->
  (exists k : nat, (1 <= k <= h)%nat
     /\ in_left_open ((Z.of_nat k - 1) * W) (Z.of_nat k * W) t)
  <-> in_left_open 0 (Z.of_nat h * W) t.
Proof.
  intros HW. split.
  - intros (k & Hk & q & -> & H1 & H2). exists q. split; [reflexivity|].
    unfold Qlt, Qle in *. simpl in *. split; nia.
  - intros (q & -> & H1 & H2). unfold Qlt, Qle in H1, H2. simpl in H1, H2.
    set (n := Qnum q) in *. set (D := W * Zpos (Qden q)).
    assert (0 < D) as HD by (subst D; lia).
    set (c := (n + D - 1) / D).
    pose proof (Z.div_mod (n + D - 1) D ltac:(lia)) as Hdm.
    pose proof (Z.mod_pos_bound (n + D - 1) D HD) as Hm.
    fold c in Hdm.
    assert (1 <= c <= Z.of_nat h) as Hc by (subst D; nia).
    exists (Z.to_nat c). split; [lia|].
    exists q. split; [reflexivity|].
    unfold Qlt, Qle. simpl. fold n. rewrite Z2Nat.id by lia.
    subst D. split; nia.
Qed.

Section Loop.
Variable W : Z.
Variable rd : list Script.event.
Variable mid : string.

#[local] Abbreviation seen_after := (Script.seen_after W rd mid).
#[local] Abbreviation counted_in := (Script.counted_in W rd mid).

Lemma hour_receivers_elem (h : Z) (d : option string) :
  d ∈ Script.hour_receivers W rd mid h
  <-> exists e, e ∈ rd /\ Script.id e = mid /\ Script.dst e = d
        /\ in_left_open ((h - 1) * W) (h * W) (Script.time e).
Proof.
  unfold Script.hour_receivers.
  rewrite elem_of_list_to_set, list_elem_of_fmap. split.
  - intros (e & -> & (He & Hid & Ht)%script_hour_events). eauto 6.
  - intros (e & He & Hid & Hd & Ht). exists e. split; [auto|].
    apply script_hour_events. auto.
Qed.

Lemma seen_after_hours (h : nat) (d : option string) :
  d ∈ seen_after h
  <-> exists k : nat, (1 <= k <= h)%nat
        /\ d ∈ Script.hour_receivers W rd mid (Z.of_nat k).
Proof.
  induction h as [|h IH].
  - simpl. split; [set_solver | intros (k & Hk & _); lia].
  - rewrite ScriptFacts.seen_after_S, elem_of_union, IH,
      ScriptFacts.counted_in_spec. simpl pred. split.
    + intros [(k & Hk & Hd) | [Hd _]].
      * exists k. split; [lia | assumption].
      * exists (S h). split; [lia | assumption].
    + intros (k & Hk & Hd).
      destruct (decide (d ∈ seen_after h)) as [Hin | Hnot].
      * left. apply IH. assumption.
      * destruct (decide (k = S h)) as [-> | Hne]; [right; auto|].
        left. exists k. split; [lia | assumption].
Qed.

Lemma seen_after_window (h : nat) (d : option string) :
  0 < W ->
  d ∈ seen_after h
  <-> exists e, e ∈ rd /\ Script.id e = mid /\ Script.dst e = d
        /\ in_left_open 0 (Z.of_nat h * W) (Script.time e).
Proof.
  intros HW. rewrite seen_after_hours. split.
  - intros (k & Hk & (e & He & Hid & Hd & Ht)%hour_receivers_elem).
    exists e. repeat (split; [assumption|]).
    apply (windows_union W h _ HW). eauto.
  - intros (e & He & Hid & Hd & (k & Hk & Ht)%(windows_union W h _ HW)).
    exists k. split; [assumption|]. apply hour_receivers_elem. eauto 6.
Qed.

Lemma counted_sum (h : nat) :
  Link.total ((fun k => Z.of_nat (size (counted_in k))) <$> seq 1 h)
  = Z.of_nat (size (seen_after h)).
Proof.
  induction h as [|h IH]; [reflexivity|].
  rewrite seq_S, fmap_app, total_app, IH.
  change (1 + h)%nat with (S h).
  rewrite ScriptFacts.seen_after_S, size_union.
  - unfold Link.total. simpl. lia.
  - intros d Hs Hc. apply ScriptFacts.counted_in_spec in Hc as [_ Hc].
    apply Hc. assumption.
Qed.

End Loop.

(** The receivers of the receipts of a log are nodes of the node set, so
    no more than [N] of them are ever counted. *)
Lemma seen_after_le_N (float : string -> option pyfloat) (W : Z) (b d : bool)
    (log : list string) (mid : string) (h : nat) :
  let evs := Script.events float log in
  Z.of_nat (size (Script.seen_after W (Script.rd_events_high b d evs) mid h))
  <= Script.N b d evs.
Proof.
  cbv zeta. unfold Script.N. rewrite <- size_map_Some.
  apply inj_le, subseteq_size. intros x Hx.
  apply seen_after_hours in Hx as (k & _ & Hx).
  apply hour_receivers_elem in Hx as (e & He & _ & Hd & _).
  apply ReceiptFacts.script_receipt in He as (_ & _ & _ & n & Hn & Hin).
  apply elem_of_map. exists n. split; [congruence | assumption].
Qed.

End CoverageFacts.

(** X1.  The lines of the script come in blocks, one block per id of
    [mh_ids] in that order, and each block has one line per hour, for the
    hours [1 .. TOTAL_HOURS] in increasing order. *)
Theorem X1_one_line_per_id_and_hour (W T : Z) (b d : bool) (evs : list Script.event) :
  (fun r => (Script.row_id r, Script.hour_index r))
    <$> Script.high_rows W T b d evs
  = flat_map (fun mid => (fun h => (mid, h)) <$> seqZ 1 T) (Script.mh_ids b d evs).
Proof.
  unfold Script.high_rows.
  induction (Script.mh_ids b d evs) as [|mid ids IH]; [reflexivity|].
  simpl. rewrite fmap_app, IH. f_equal.
  rewrite ScriptFacts.rows_of_id_rows, CoverageFacts.seqZ_nat,
    <- !list_fmap_compose.
  apply list_fmap_ext. intros i h _. reflexivity.
Qed.

(** X2.  Conservation: for one id, the first-time counts of all hours add
    up to the size of the reached set after the last hour. *)
Theorem X2_counts_add_up (W T : Z) (rd : list Script.event) (n_nodes : Z)
    (mid : string) :
  Link.total (Script.n_firsttime_receivers_hour
                <$> Script.rows_of_id W T rd n_nodes mid)
  = Z.of_nat (size (Script.seen_after W rd mid (Z.to_nat T))).
Proof.
  rewrite ScriptFacts.rows_of_id_rows, <- list_fmap_compose.
  rewrite <- CoverageFacts.counted_sum. reflexivity.
Qed.

(** X3.  With a positive bin width, the reached set after hour [h] is the
    set of the receivers of the events of that id whose time [t]
    satisfies [0 < t <= h * W]: an event at time 0 and an event after the
    last bin never count. *)
Theorem X3_reached_set (W : Z) (rd : list Script.event) (mid : string) (h : nat)
    (d : option string) :
  0 < W ->
  d ∈ Script.seen_after W rd mid h
  <-> exists e, e ∈ rd /\ Script.id e = mid /\ Script.dst e = d
        /\ Py.in_left_open 0 (Z.of_nat h * W) (Script.time e).
Proof. apply CoverageFacts.seen_after_window. Qed.

Lemma X3_reached_set_witness :
  let rd := Script.rd_events_high true true
              (Script.events Sample.float Sample.scenario_log) in
  0 < 3600
  /\ (Some "B" ∈ Script.seen_after 3600 rd "M_H1" 2
      <-> exists e, e ∈ rd /\ Script.id e = "M_H1" /\ Script.dst e = Some "B"
            /\ Py.in_left_open 0 (Z.of_nat 2 * 3600) (Script.time e)).
Proof.
  cbv zeta. split; [lia|].
  apply (X3_reached_set 3600 _ "M_H1" 2 (Some "B")). lia.
Defined.

(** X4.  For every log, every line of the script is in range: the count
    of the hour and the cumulative count it is computed from do not exceed
    [N], and both rates lie between 0 and 100. *)
Theorem X4_rates_in_range (float : string -> option Py.pyfloat) (W T : Z)
    (b d : bool) (log : list string) (row : Script.hrow) :
  row ∈ Script.high_rows W T b d (Script.events float log) ->
  0 <= Script.n_firsttime_receivers_hour row <= Script.row_N row
  /\ 0 <= Script.rate_percent_hour row <= 100
  /\ 0 <= Script.cumulative_rate_percent row <= 100.
Proof.
  set (evs := Script.events float log). unfold Script.high_rows.
  intros (mid & _ & Hin)%ScriptFacts.elem_of_flat_map.
  rewrite ScriptFacts.rows_of_id_rows in Hin.
  apply list_elem_of_fmap in Hin as (h & -> & Hh). apply elem_of_seq in Hh.
  pose proof (CoverageFacts.seen_after_le_N float W b d log mid h) as Hseen.
  cbv zeta in Hseen. fold evs in Hseen.
  assert (size (Script.counted_in W (Script.rd_events_high b d evs) mid h)
          <= size (Script.seen_after W (Script.rd_events_high b d evs) mid h))%nat
    as Hc by (apply subseteq_size, ScriptFacts.counted_in_seen; lia).
  unfold Script.row_at. simpl.
  split; [lia|]. split; apply RoundFacts.rate_bounds; lia.
Qed.

Lemma X4_rates_in_range_witness :
  Script.mkHrow "M_H1" 2 3 1 33 67
    ∈ Script.high_rows 3600 2 true true
        (Script.events Sample.float Sample.scenario_log)
  /\ 0 <= 1 <= 3 /\ 0 <= 33 <= 100 /\ 0 <= 67 <= 100.
Proof.
  assert (Script.mkHrow "M_H1" 2 3 1 33 67
            ∈ Script.high_rows 3600 2 true true
                (Script.events Sample.float Sample.scenario_log)) as Hin.
  { vm_compute. repeat constructor. }
  split; [exact Hin|].
  apply (X4_rates_in_range Sample.float 3600 2 true true Sample.scenario_log _ Hin).
Defined.

(** X5.  Within the lines of one id, the cumulative rate never goes
    down from one hour to a later one. *)
Theorem X5_cumulative_rate_grows (W T : Z) (rd : list Script.event) (n_nodes : Z)
    (mid : string) (i j : nat) (ri rj : Script.hrow) :
  (i <= j)%nat ->
  Script.rows_of_id W T rd n_nodes mid !! i = Some ri ->
  Script.rows_of_id W T rd n_nodes mid !! j = Some rj ->
  Script.cumulative_rate_percent ri <= Script.cumulative_rate_percent rj.
Proof.
  intros Hij. rewrite ScriptFacts.rows_of_id_rows, !list_lookup_fmap.
  intros Hi Hj.
  destruct (seq 1 (Z.to_nat T) !! i) as [hi|] eqn:Ei; [|discriminate].
  destruct (seq 1 (Z.to_nat T) !! j) as [hj|] eqn:Ej; [|discriminate].
  apply lookup_seq in Ei as [-> _]. apply lookup_seq in Ej as [-> _].
  injection Hi as <-. injection Hj as <-.
  unfold Script.row_at. cbn [Script.cumulative_rate_percent].
  apply RoundFacts.rate_mono. split; [lia|].
  apply inj_le, subseteq_size, ScriptFacts.script_seen_mono. lia.
Qed.

Lemma X5_cumulative_rate_grows_witness :
  let rd := Script.rd_events_high true true
              (Script.events Sample.float Sample.scenario_log) in
  (0 <= 1)%nat
  /\ Script.rows_of_id 3600 2 rd 3 "M_H1" !! 0%nat
     = Some (Script.mkHrow "M_H1" 1 3 1 33 33)
  /\ Script.rows_of_id 3600 2 rd 3 "M_H1" !! 1%nat
     = Some (Script.mkHrow "M_H1" 2 3 1 33 67)
  /\ 33 <= 67.
Proof.
  cbv zeta. split; [lia|].
  match goal with |- ?A /\ ?B /\ _ => assert A as H0 by (vm_compute; reflexivity);
                                      assert B as H1 by (vm_compute; reflexivity) end.
  split; [exact H0|]. split; [exact H1|].
  apply (X5_cumulative_rate_grows 3600 2 _ 3 "M_H1" 0 1 _ _ ltac:(lia) H0 H1).
Defined.

(* ===================================================================== *)
(** * More on the parsers and the classifiers *)
(* ===================================================================== *)

Module ShapeFacts.
Import Py PyFacts ParserFacts.

Lemma str_eq_false (s t : string) : s <> t -> str_eq s t = false.
Proof.
  intros H. destruct (str_eq s t) eqn:E; [|reflexivity].
  apply str_eq_true in E. contradiction.
Qed.

Lemma tag_cases (tag : string) :
  tag = "CONN" \/ tag = "C" \/ tag = "S" \/ tag = "DE"
  \/ (tag <> "CONN" /\ tag <> "C" /\ tag <> "S" /\ tag <> "DE").
Proof.
  destruct (decide (tag = "CONN")); [auto|].
  destruct (decide (tag = "C")); [auto|].
  destruct (decide (tag = "S")); [auto|].
  destruct (decide (tag = "DE")); [auto 6|]. auto 10.
Qed.

(** The script keeps of a line what [event_of_row] keeps of its row. *)
Lemma parse_line_agree (float : string -> option pyfloat) (raw : string) :
  Script.parse_line float raw
  = flat_map Link.event_of_row (Report.parse_line float raw).
Proof.
  unfold Script.parse_line, Report.parse_line.
  destruct (is_empty (strip raw)); [reflexivity|].
  destruct (split (strip raw)) as [|p0 parts]; [reflexivity|].
  destruct (float p0) as [t|]; [|reflexivity].
  destruct parts as [|tag parts]; [reflexivity|].
  cbn [lookup list_lookup tag_is].
  destruct (tag_cases tag) as [-> | [-> | [-> | [-> | (H1 & H2 & H3 & H4)]]]].
  - change (str_eq "CONN" "C") with false. change (str_eq "CONN" "DE") with false.
    change (str_eq "CONN" "CONN") with true. cbn [andb].
    destruct (5 <=? _); reflexivity.
  - change (str_eq "C" "CONN") with false. change (str_eq "C" "C") with true.
    change (str_eq "C" "DE") with false. change (str_eq "C" "S") with false.
    cbn [andb]. destruct (4 <=? _); reflexivity.
  - change (str_eq "S" "CONN") with false. change (str_eq "S" "C") with false.
    change (str_eq "S" "DE") with false. change (str_eq "S" "S") with true.
    cbn [andb]. destruct (5 <=? _); reflexivity.
  - change (str_eq "DE" "CONN") with false. change (str_eq "DE" "C") with false.
    change (str_eq "DE" "S") with false. change (str_eq "DE" "DE") with true.
    cbn [andb]. destruct (6 <=? _); [|reflexivity].
    cbn [flat_map Link.event_of_row Report.Typ Report.Dst Report.Id Report.Status
           Report.Time Report.Src].
    destruct (str_eq _ "R"); [reflexivity|].
    destruct (str_eq _ "D"); reflexivity.
  - rewrite (str_eq_false tag "CONN"), (str_eq_false tag "C"),
      (str_eq_false tag "S"), (str_eq_false tag "DE") by assumption.
    reflexivity.
Qed.

Lemma flat_map_flat_map {A B C : Type} (f : A -> list B) (g : B -> list C)
    (l : list A) :
  flat_map g (flat_map f l) = flat_map (fun x => flat_map g (f x)) l.
Proof.
  induction l as [|x l IH]; [reflexivity|].
  simpl. rewrite flat_map_app, IH. reflexivity.
Qed.

Lemma parse_line_short (float : string -> option pyfloat) (raw : string) :
  (length (Script.parse_line float raw) <= 1)%nat
  /\ (length (Report.parse_line float raw) <= 1)%nat.
Proof.
  unfold Script.parse_line, Report.parse_line.
  repeat match goal with
         | |- context [if ?b then _ else _] => destruct b
         | |- context [match ?x with _ => _ end] => destruct x
         end; simpl; split; lia.
Qed.

Lemma startswith_spec (s p : string) :
  startswith s p = true <-> substring 0 (String.length p) s = p.
Proof. unfold startswith. apply String.prefix_correct. Qed.

Lemma startswith_unique (s p1 p2 : string) :
  String.length p1 = String.length p2 ->
  startswith s p1 = true -> startswith s p2 = true -> p1 = p2.
Proof.
  intros Hlen H1%startswith_spec H2%startswith_spec. congruence.
Qed.

(** The first characters of a string are those of what [$] looks at. *)
Lemma chomp_prefix (s p : string) :
  str_eq (lower (substring 0 (String.length p) (chomp s))) p = true ->
  startswith (lower s) p = true.
Proof.
  revert p. induction s as [|c s IH]; intros p H.
  - destruct p as [|a p]; [reflexivity | discriminate H].
  - destruct p as [|a p]; [reflexivity|].
    cbn [chomp] in H. destruct (is_empty s && is_newline c).
    + discriminate H.
    + cbn [String.length substring lower] in H.
      apply str_eq_true in H. injection H as Hc Hrest.
      unfold startswith. cbn [lower String.prefix]. rewrite Hc.
      destruct (ascii_dec a a) as [_|Hne]; [|contradiction].
      apply IH. apply str_eq_true. assumption.
Qed.

Lemma box_re_is_box (s : string) :
  Report.BOX_RE s = true -> Script.is_box (Some s) = true.
Proof.
  unfold Report.BOX_RE, match_prefix_digits, Script.is_box.
  intros [[H _]%andb_true_iff _]%andb_true_iff.
  apply chomp_prefix. exact H.
Qed.

Lemma match_prefix_digits_unique (p1 p2 s : string) :
  match_prefix_digits p1 s = true -> match_prefix_digits p2 s = true ->
  String.length p1 = String.length p2 -> p1 = p2.
Proof.
  unfold match_prefix_digits.
  intros [[H1 _]%andb_true_iff _]%andb_true_iff
         [[H2 _]%andb_true_iff _]%andb_true_iff Hlen.
  apply chomp_prefix in H1, H2. eapply startswith_unique; eassumption.
Qed.

End ShapeFacts.

Lemma events_agree (float : string -> option Py.pyfloat) (log : list string) :
  Script.events float log
  = flat_map Link.event_of_row (Report.parse_eventlogreport float log).
Proof.
  unfold Script.events, Report.parse_eventlogreport.
  rewrite ShapeFacts.flat_map_flat_map.
  induction log as [|raw log IH]; [reflexivity|].
  simpl. rewrite IH, ShapeFacts.parse_line_agree. reflexivity.
Qed.

(** X6.  Both parsers read the same log consistently: the events of the
    script are, in order, the [C] rows and the [DE] rows with status R or
    D of the frame built by [parse_eventlogreport]. *)
Theorem X6_parsers_agree (float : string -> option Py.pyfloat) (log : list string) :
  Script.events float log
  = flat_map Link.event_of_row (Report.parse_eventlogreport float log).
Proof. apply events_agree. Qed.

(** X7.  Both parsers are tolerant and work line by line: a line gives
    at most one event or row, and a blank line and a line whose first
    field is not a number give none. *)
Theorem X7_tolerant_parsing (float : string -> option Py.pyfloat) (raw : string) :
  (length (Script.parse_line float raw) <= 1)%nat
  /\ (length (Report.parse_line float raw) <= 1)%nat
  /\ (Py.split (Py.strip raw) = [] ->
      Script.parse_line float raw = [] /\ Report.parse_line float raw = [])
  /\ (forall p0 rest,
        Py.split (Py.strip raw) = p0 :: rest -> float p0 = None ->
        Script.parse_line float raw = [] /\ Report.parse_line float raw = []).
Proof.
  split; [apply ShapeFacts.parse_line_short|].
  split; [apply ShapeFacts.parse_line_short|].
  split.
  - intros Hs. unfold Script.parse_line, Report.parse_line. rewrite Hs.
    destruct (Py.is_empty (Py.strip raw)); split; reflexivity.
  - intros p0 rest Hs Hf. unfold Script.parse_line, Report.parse_line.
    rewrite Hs, Hf. destruct (Py.is_empty (Py.strip raw)); split; reflexivity.
Qed.

Lemma X7_tolerant_parsing_witness :
  Py.split (Py.strip "# time C n1 M_L1") = ["#"; "time"; "C"; "n1"; "M_L1"]
  /\ Sample.float "#" = None
  /\ Script.parse_line Sample.float "# time C n1 M_L1" = []
  /\ Report.parse_line Sample.float "# time C n1 M_L1" = [].
Proof.
  split; [reflexivity|]. split; [reflexivity|].
  destruct (X7_tolerant_parsing Sample.float "# time C n1 M_L1") as (_ & _ & _ & H).
  apply (H "#" ["time"; "C"; "n1"; "M_L1"]); reflexivity.
Defined.

(** X8.  A [DE] line with six fields or more and a numeric first field
    is kept by [parse_eventlogreport] whatever its status; the script
    turns it into an R event for status [R], into a D event for status
    [D] and drops it for any other status. *)
Theorem X8_DE_lines (float : string -> option Py.pyfloat)
    (raw p0 src dst mid st : string) (rest : list string) (t : Py.pyfloat) :
  Py.split (Py.strip raw) = p0 :: "DE" :: src :: dst :: mid :: st :: rest ->
  float p0 = Some t ->
  Report.parse_line float raw
  = [Report.mkRow t Report.DE src (Some dst) (Some mid) (Some st)]
  /\ (st = "R" ->
      Script.parse_line float raw = [Script.mkEvent t Script.R src (Some dst) mid])
  /\ (st = "D" ->
      Script.parse_line float raw = [Script.mkEvent t Script.D src (Some dst) mid])
  /\ (st <> "R" -> st <> "D" -> Script.parse_line float raw = []).
Proof.
  intros Hs Hf.
  assert (Report.parse_line float raw
          = [Report.mkRow t Report.DE src (Some dst) (Some mid) (Some st)]) as HR.
  { unfold Report.parse_line.
    rewrite (ParserFacts.strip_not_empty _ _ _ Hs), Hs, Hf.
    rewrite (ParserFacts.len_ge _ 6) by (simpl; lia). reflexivity. }
  split; [exact HR|].
  rewrite ShapeFacts.parse_line_agree, HR.
  cbn [flat_map Link.event_of_row Report.Typ Report.Dst Report.Id Report.Status
         Report.Time Report.Src].
  split; [intros ->; reflexivity|]. split; [intros ->; reflexivity|].
  intros H1 H2.
  rewrite (ShapeFacts.str_eq_false st "R"), (ShapeFacts.str_eq_false st "D")
    by assumption.
  reflexivity.
Qed.

Lemma X8_DE_lines_witness :
  Py.split (Py.strip "7200.5 DE p1 q2 M_H3 A")
  = ["7200.5"; "DE"; "p1"; "q2"; "M_H3"; "A"]
  /\ Sample.float "7200.5" = Some (Py.FFin (72005 # 10))
  /\ Report.parse_line Sample.float "7200.5 DE p1 q2 M_H3 A"
     = [Report.mkRow (Py.FFin (72005 # 10)) Report.DE "p1" (Some "q2")
          (Some "M_H3") (Some "A")]
  /\ Script.parse_line Sample.float "7200.5 DE p1 q2 M_H3 A" = [].
Proof.
  split; [reflexivity|]. split; [reflexivity|].
  destruct (X8_DE_lines Sample.float "7200.5 DE p1 q2 M_H3 A" "7200.5" "p1" "q2"
              "M_H3" "A" [] (Py.FFin (72005 # 10)) eq_refl eq_refl)
    as (H1 & _ & _ & H4).
  split; [exact H1|]. apply H4; discriminate.
Defined.

(** X9.  The classes of the script exclude each other: no message id is
    both high and low priority, and no node name is both a box and a
    [do] node. *)
Theorem X9_classes_exclusive (name : option string) :
  (Script.is_high_id name = true -> Script.is_low_id name = false)
  /\ (Script.is_box name = true -> Script.is_do name = false).
Proof.
  destruct name as [s|]; [|split; discriminate].
  unfold Script.is_high_id, Script.is_low_id, Script.is_box, Script.is_do. split.
  - intros H. destruct (Py.startswith (Py.lower s) "m_l") eqn:E; [|reflexivity].
    discriminate (ShapeFacts.startswith_unique _ "m_h" "m_l" eq_refl H E).
  - intros H%ShapeFacts.startswith_spec.
    destruct (Py.startswith (Py.lower s) "do") eqn:E; [|reflexivity].
    apply ShapeFacts.startswith_spec in E.
    destruct (Py.lower s) as [|a [|b [|c r]]]; simpl in H, E; try discriminate.
    injection H as -> _. discriminate E.
Qed.

Lemma X9_classes_exclusive_witness :
  Script.is_high_id (Some "M_Hp12") = true
  /\ Script.is_low_id (Some "M_Hp12") = false.
Proof.
  split; [reflexivity|].
  destruct (X9_classes_exclusive (Some "M_Hp12")) as (H & _).
  apply H. reflexivity.
Defined.

(** X10.  The clusters of the pandas program do not overlap: the node
    sets of two different clusters are disjoint, and each is a part of
    the node set they are cut from. *)
Theorem X10_clusters_disjoint (nodes_all : gset string) (c1 c2 : string)
    (n1 n2 : gset string) :
  (c1, n1) ∈ Report.cluster_nodes nodes_all ->
  (c2, n2) ∈ Report.cluster_nodes nodes_all ->
  n1 ⊆ nodes_all /\ (c1 <> c2 -> n1 ## n2).
Proof.
  unfold Report.cluster_nodes, Report.CLUSTER_REGEX. simpl.
  rewrite !list_elem_of_In. simpl.
  intros [H1 | [H1 | [H1 | []]]] [H2 | [H2 | [H2 | []]]];
    injection H1 as <- <-; injection H2 as <- <-;
    (split; [intros x [_ Hx]%elem_of_filter; exact Hx|]);
    intros Hne; try contradiction;
    intros x [Ha _]%elem_of_filter [Hb _]%elem_of_filter;
    discriminate (ShapeFacts.match_prefix_digits_unique _ _ x Ha Hb eq_refl).
Qed.

Lemma X10_clusters_disjoint_witness :
  let nodes : gset string := {[ "p1"; "q7"; "A" ]} in
  let cp := filter (fun n => Py.match_prefix_digits "p" n = true) nodes in
  let cq := filter (fun n => Py.match_prefix_digits "q" n = true) nodes in
  ("p", cp) ∈ Report.cluster_nodes nodes /\ ("q", cq) ∈ Report.cluster_nodes nodes
  /\ cp ⊆ nodes /\ ("p" <> "q" -> cp ## cq).
Proof.
  cbv zeta.
  match goal with |- ?A /\ ?B /\ _ =>
    assert A as H1 by (apply list_elem_of_In; simpl; tauto);
    assert B as H2 by (apply list_elem_of_In; simpl; tauto) end.
  split; [exact H1|]. split; [exact H2|].
  apply (X10_clusters_disjoint _ "p" "q" _ _ H1 H2).
Defined.

(* ===================================================================== *)
(** * The two node sets, and when the pandas program fails *)
(* ===================================================================== *)

Module RunFacts.
Import Py PyFacts BinFacts.

Lemma report_parse_line_names (float : string -> option pyfloat) (raw : string)
    (r : Report.row) :
  r ∈ Report.parse_line float raw ->
  Report.Src r <> "" /\ (forall n, Report.Dst r = Some n -> n <> "").
Proof.
  unfold Report.parse_line. intros Hin.
  destruct (is_empty (strip raw)); [inversion Hin|].
  destruct (split (strip raw)) as [|p0 parts] eqn:Hs; [inversion Hin|].
  destruct (float p0) as [t|]; [|inversion Hin].
  assert (forall i, (i < length (p0 :: parts))%nat -> item (p0 :: parts) i <> "")
    as Hitem.
  { intros i Hi. apply (split_nonempty (strip raw)). rewrite Hs.
    apply item_in. assumption. }
  repeat match type of Hin with
         | _ ∈ (if ?b then _ else _) => destruct b eqn:?
         end;
    repeat match type of Hin with
           | _ ∈ [] => inversion Hin
           | _ ∈ [_] => apply list_elem_of_singleton in Hin; subst r
           end;
    match goal with H : _ && (_ <=? _) = true |- _ =>
      apply andb_true_iff in H as [_ H%Z.leb_le]; unfold len in H end;
    simpl Report.Src; simpl Report.Dst;
    (split; [apply Hitem; lia|]); intros n Hn; try discriminate Hn;
    injection Hn as <-; apply Hitem; lia.
Qed.

Lemma report_rows_names (float : string -> option pyfloat) (log : list string)
    (r : Report.row) :
  r ∈ Report.parse_eventlogreport float log ->
  Report.Src r <> "" /\ (forall n, Report.Dst r = Some n -> n <> "").
Proof.
  unfold Report.parse_eventlogreport.
  intros (raw & _ & Hin)%ScriptFacts.elem_of_flat_map.
  eapply report_parse_line_names; eassumption.
Qed.

Lemma event_of_row_ends (r : Report.row) (e : Script.event) :
  e ∈ Link.event_of_row r ->
  Script.src e = Report.Src r /\ Script.dst e = Report.Dst r.
Proof.
  unfold Link.event_of_row. intros Hin.
  repeat match type of Hin with
         | _ ∈ (if ?b then _ else _) => destruct b
         | _ ∈ (match ?x with _ => _ end) => destruct x eqn:?
         end;
    repeat match type of Hin with
           | _ ∈ [] => inversion Hin
           | _ ∈ [_] => apply list_elem_of_singleton in Hin; subst e
           end;
    simpl; auto.
Qed.

Lemma for_each_all_Ok {A B : Type} (f : A -> result (list B)) (l : list A) :
  (forall x, x ∈ l -> exists rows, f x = Ok rows) ->
  exists rows, Report.for_each f l = Ok rows.
Proof.
  induction l as [|x l IH]; intros H; simpl; [eauto|].
  destruct (H x ltac:(left)) as (r1 & ->).
  destruct IH as (r2 & ->); [intros y Hy; apply H; right; assumption|].
  simpl. eauto.
Qed.

Lemma for_each_first_raises {A B : Type} (f : A -> result (list B)) (x : A)
    (l : list A) (e : exn) :
  f x = Raise e -> Report.for_each f (x :: l) = Raise e.
Proof. intros H. simpl. rewrite H. reflexivity. Qed.

Lemma hour_records_Ok (W T : Z) (sub : list Report.row) (n_nodes : Z)
    (mid : string) :
  0 < n_nodes ->
  exists rows,
    Report.hour_records sub n_nodes mid (Report.hourly_bins T W) ∅ = Ok rows.
Proof.
  intros HN. rewrite ReportFacts.hourly_bins_nat. eexists.
  apply (ReportFacts.hour_records_rows W sub n_nodes mid (Z.to_nat T) HN 0%nat).
Qed.

Lemma mh_ids_nil (flag : bool) (df : list Report.row) :
  Report.high_R flag df = [] -> Report.mh_ids flag df = Ok [].
Proof. unfold Report.mh_ids. intros ->. reflexivity. Qed.

(** The ids that [calc_high_hourly_R_based] sorts are those of the rows
    it counts. *)
Lemma counted_ids (flag : bool) (df : list Report.row) (mid : string) :
  mid ∈ unique (Report.astype_str
                  <$> List.filter Report.notna (Report.Id <$> Report.high_R flag df))
  <-> exists r, r ∈ Report.high_R flag df /\ Report.Id r = Some mid.
Proof.
  unfold unique. rewrite PyFacts.unique_from_elem, list_elem_of_fmap. split.
  - intros [(c & -> & [(r & -> & Hr)%list_elem_of_fmap Hc]%elem_of_List_filter) _].
    destruct (Report.Id r) as [i|] eqn:E; [|discriminate Hc]. eauto.
  - intros (r & Hr & Hid). split; [|inversion 1].
    exists (Some mid). split; [reflexivity|].
    apply elem_of_List_filter. split; [|reflexivity].
    apply list_elem_of_fmap. eauto.
Qed.

(** The sort succeeds exactly when every counted id ends in a number
    that [int] accepts. *)
Lemma mh_ids_short (flag : bool) (df : list Report.row) :
  (forall r mid, r ∈ Report.high_R flag df -> Report.Id r = Some mid ->
                 Link.short_number mid)
  <-> exists ids, Report.mh_ids flag df = Ok ids.
Proof.
  unfold Report.mh_ids, Report.sorted_natural. split.
  - intros H.
    destruct (SortFacts.with_keys_total
                (unique (Report.astype_str
                           <$> List.filter Report.notna
                                 (Report.Id <$> Report.high_R flag df))))
      as (keyed & ->); [|simpl; eauto].
    intros mid (r & Hr & Hid)%counted_ids.
    apply KeyFacts.natural_key_short. eauto.
  - intros (ids & H) r mid Hr Hid.
    destruct (decide (Link.short_number mid)) as [Hs | Hl]; [exact Hs|].
    apply KeyFacts.natural_key_long in Hl.
    destruct (SortFacts.with_keys_raises _ mid _
                (proj2 (counted_ids flag df mid) (ex_intro _ r (conj Hr Hid))) Hl)
      as (e' & He').
    rewrite He' in H. discriminate H.
Qed.

(** A counted row of a log has its receiver in the node set of the log. *)
Lemma counted_row_node (float : string -> option pyfloat) (flag : bool)
    (log : list string) (r : Report.row) :
  r ∈ Report.high_R flag (Report.parse_eventlogreport float log) ->
  0 < Z.of_nat (size (Report.compute_denominator_nodes
                        (Report.parse_eventlogreport float log) flag)).
Proof.
  intros (_ & _ & _ & _ & n & _ & Hn)%ReceiptFacts.report_receipt.
  assert (size (Report.compute_denominator_nodes
                  (Report.parse_eventlogreport float log) flag) <> 0%nat); [|lia].
  intros H0%size_empty_iff. set_solver.
Qed.

Lemma calc_high_raises (W T : Z) (flag : bool) (df : list Report.row)
    (nodes_all : gset string) (e : exn) :
  df <> [] -> Report.mh_ids flag df = Raise e ->
  Report.calc_high_hourly_R_based W T flag df nodes_all = Raise e.
Proof.
  intros Hne H. unfold Report.calc_high_hourly_R_based.
  destruct df; [contradiction|]. rewrite H. reflexivity.
Qed.

Lemma calc_by_cluster_raises (W T : Z) (flag : bool) (df : list Report.row)
    (nodes_all : gset string) (e : exn) :
  df <> [] -> Report.mh_ids flag df = Raise e ->
  Report.calc_high_hourly_R_based_by_cluster W T flag df nodes_all = Raise e.
Proof.
  intros Hne H. unfold Report.calc_high_hourly_R_based_by_cluster.
  destruct df; [contradiction|]. rewrite H. reflexivity.
Qed.

Lemma calc_by_cluster_Ok (W T : Z) (flag : bool) (df : list Report.row)
    (nodes_all : gset string) (ids : list string) :
  df <> [] -> Report.mh_ids flag df = Ok ids ->
  exists rows,
    Report.calc_high_hourly_R_based_by_cluster W T flag df nodes_all = Ok rows.
Proof.
  intros Hne H. unfold Report.calc_high_hourly_R_based_by_cluster.
  destruct df; [contradiction|]. rewrite H. simpl. eauto.
Qed.

Lemma calc_high_log_Ok (float : string -> option pyfloat) (W T : Z) (flag : bool)
    (log : list string) (ids : list string) :
  Report.parse_eventlogreport float log <> [] ->
  Report.mh_ids flag (Report.parse_eventlogreport float log) = Ok ids ->
  exists rows,
    Report.calc_high_hourly_R_based W T flag
      (Report.parse_eventlogreport float log)
      (Report.compute_denominator_nodes
         (Report.parse_eventlogreport float log) flag)
    = Ok rows.
Proof.
  set (df := Report.parse_eventlogreport float log). intros Hne Hids.
  unfold Report.calc_high_hourly_R_based.
  destruct df as [|r0 df0] eqn:Edf; [contradiction|]. rewrite <- Edf in Hids |- *.
  rewrite Hids. cbn [mbind result_bind bind_result].
  destruct (Report.high_R flag df) as [|r hr] eqn:Ehr.
  - rewrite (mh_ids_nil _ _ Ehr) in Hids. injection Hids as <-. simpl. eauto.
  - apply for_each_all_Ok. intros mid _. apply hour_records_Ok.
    apply (counted_row_node float flag log r). fold df. rewrite Ehr. left.
Qed.

Lemma per_id_Ok (df : list Report.row) :
  Report.created df <> [] \/ Report.delivered_ids df <> ∅ ->
  exists by_id, Report.per_id df = Ok by_id.
Proof.
  unfold Report.per_id. intros H.
  destruct (Report.created df) as [|r rs]; [|eauto].
  destruct H as [H | H]; [contradiction|].
  rewrite bool_decide_eq_false_2 by assumption. eauto.
Qed.

Lemma per_id_raises (df : list Report.row) :
  Report.created df = [] -> Report.delivered_ids df = ∅ ->
  Report.per_id df = Raise ValueError.
Proof.
  unfold Report.per_id. intros -> ->.
  rewrite bool_decide_eq_true_2 by reflexivity. reflexivity.
Qed.

End RunFacts.

(** X11.  With the box exclusion on, every node that the script counts
    in its denominator is also in the denominator of the pandas program
    for the same log, whatever the other flags: the script's [N] is never
    the larger one. *)
Theorem X11_script_nodes_in_report_nodes (float : string -> option Py.pyfloat)
    (d flag : bool) (log : list string) :
  Script.nodes_all true d (Script.events float log)
  ⊆ Report.compute_denominator_nodes (Report.parse_eventlogreport float log) flag
  /\ Script.N true d (Script.events float log)
     <= Z.of_nat (size (Report.compute_denominator_nodes
                          (Report.parse_eventlogreport float log) flag)).
Proof.
  assert (Script.nodes_all true d (Script.events float log)
          ⊆ Report.compute_denominator_nodes
              (Report.parse_eventlogreport float log) flag) as Hsub.
  { intros n (Hx & e & He & Hends)%ReceiptFacts.script_nodes_all.
    rewrite events_agree in He.
    apply ScriptFacts.elem_of_flat_map in He as (r & Hr & He).
    apply RunFacts.event_of_row_ends in He as [Hs Hd].
    destruct (RunFacts.report_rows_names _ _ _ Hr) as [Hsrc Hdst].
    apply ReceiptFacts.report_nodes. split; [|split].
    - exists r. split; [assumption|]. destruct Hends as [<- | Hn]; [auto|].
      right. congruence.
    - destruct Hends as [<- | Hn]; [congruence|]. apply Hdst. congruence.
    - intros _. destruct (Report.BOX_RE n) eqn:E; [|reflexivity].
      apply ShapeFacts.box_re_is_box in E.
      unfold Script.excluded in Hx. rewrite E in Hx. discriminate Hx. }
  split; [exact Hsub|].
  unfold Script.N. apply inj_le, subseteq_size. exact Hsub.
Qed.

(** X12.  The outcomes of [main].  It raises [KeyError] on a log without
    any recognised line, and [ValueError] when a counted high-priority id
    ends in a number that [int] refuses.  Otherwise the two hourly
    tables are computed, [round] never meeting a NaN rate, and
    [calc_low_arrival_rate_first_delivery] decides: [main] raises
    [ValueError] when the log has neither a created nor a delivered
    low-priority message, and returns its tables when it has one. *)
Theorem X12_main_outcomes (float : string -> option Py.pyfloat)
    (W T : Z) (flag : bool) (log : list string) :
  (Report.parse_eventlogreport float log = [] ->
   Report.main float W T flag log = Py.Raise Py.KeyError)
  /\ (Report.parse_eventlogreport float log <> [] ->
      (forall e,
          Report.mh_ids flag (Report.parse_eventlogreport float log) = Py.Raise e ->
          Report.main float W T flag log = Py.Raise e)
      /\ (forall ids,
            Report.mh_ids flag (Report.parse_eventlogreport float log) = Py.Ok ids ->
            (Report.created (Report.parse_eventlogreport float log) = [] ->
             Report.delivered_ids (Report.parse_eventlogreport float log) = ∅ ->
             Report.main float W T flag log = Py.Raise Py.ValueError)
            /\ (Report.created (Report.parse_eventlogreport float log) <> []
                \/ Report.delivered_ids (Report.parse_eventlogreport float log) <> ∅ ->
                exists long by_cluster summary by_id,
                  Report.main float W T flag log
                  = Py.Ok (long, by_cluster, (summary, by_id))))).
Proof.
  split.
  - intros E. unfold Report.main. rewrite E. reflexivity.
  - intros Hne. split.
    + intros e He. unfold Report.main.
      rewrite (RunFacts.calc_high_raises _ _ _ _ _ _ Hne He). reflexivity.
    + intros ids Hids. unfold Report.main.
      destruct (RunFacts.calc_high_log_Ok float W T flag log ids Hne Hids)
        as (long & ->).
      destruct (RunFacts.calc_by_cluster_Ok W T flag _
                  (Report.compute_denominator_nodes
                     (Report.parse_eventlogreport float log) flag) ids Hne Hids)
        as (by_cluster & ->).
      unfold Report.calc_low_arrival_rate_first_delivery, Report.low_summary.
      destruct (Report.parse_eventlogreport float log) as [|r df] eqn:E;
        [contradiction|]. rewrite <- E.
      cbn [mbind result_bind Py.bind_result mret result_ret]. split.
      * intros Hc Hd. rewrite (RunFacts.per_id_raises _ Hc Hd). reflexivity.
      * intros H. destruct (RunFacts.per_id_Ok _ H) as (by_id & ->).
        cbn [mbind result_bind Py.bind_result mret result_ret]. eauto.
Qed.

Lemma X12_main_outcomes_witness :
  let log := ["1 C a M_L1"; "100 DE C A M_H1 R"; "200 DE a A M_L1 D"] in
  Report.parse_eventlogreport Sample.float log <> []
  /\ Report.mh_ids true (Report.parse_eventlogreport Sample.float log)
     = Py.Ok ["M_H1"]
  /\ Report.created (Report.parse_eventlogreport Sample.float log) <> []
  /\ exists long by_cluster summary by_id,
       Report.main Sample.float 3600 12 true log
       = Py.Ok (long, by_cluster, (summary, by_id)).
Proof.
  cbv zeta.
  match goal with |- ?A /\ ?B /\ ?C /\ _ =>
    assert A as H1 by (vm_compute; discriminate);
    assert B as H2 by (vm_compute; reflexivity);
    assert C as H3 by (vm_compute; discriminate) end.
  split; [exact H1|]. split; [exact H2|]. split; [exact H3|].
  destruct (X12_main_outcomes Sample.float 3600 12 true
              ["1 C a M_L1"; "100 DE C A M_H1 R"; "200 DE a A M_L1 D"])
    as (_ & H).
  destruct (H H1) as (_ & Hok). destruct (Hok _ H2) as (_ & Hret).
  apply Hret. left. exact H3.
Defined.

(** X13.  [calc_high_hourly_R_based] on a frame with a row.  The sort of
    the ids succeeds exactly when every counted id ends in a number that
    [int] accepts, and its error is the one of the function.  When it
    succeeds: with a node set that is not empty the function returns its
    lines; without an id to report it returns no line; with an empty node
    set, an id to report and a positive [TOTAL_HOURS] it raises
    [ValueError], from [round] on a NaN rate. *)
Theorem X13_calc_high_errors (W T : Z) (flag : bool) (df : list Report.row)
    (nodes_all : gset string) :
  df <> [] ->
  ((forall r mid, r ∈ Report.high_R flag df -> Report.Id r = Some mid ->
                  Link.short_number mid)
   <-> exists ids, Report.mh_ids flag df = Py.Ok ids)
  /\ (forall e, Report.mh_ids flag df = Py.Raise e ->
        Report.calc_high_hourly_R_based W T flag df nodes_all = Py.Raise e)
  /\ (forall ids, Report.mh_ids flag df = Py.Ok ids ->
        (0 < Z.of_nat (size nodes_all) ->
         exists rows,
           Report.calc_high_hourly_R_based W T flag df nodes_all = Py.Ok rows)
        /\ (ids = [] ->
            Report.calc_high_hourly_R_based W T flag df nodes_all = Py.Ok [])
        /\ (size nodes_all = 0%nat -> ids <> [] -> 0 < T ->
            Report.calc_high_hourly_R_based W T flag df nodes_all
            = Py.Raise Py.ValueError)).
Proof.
  intros Hne. split; [apply RunFacts.mh_ids_short|].
  split; [intros e He; apply RunFacts.calc_high_raises; assumption|].
  intros ids Hids. unfold Report.calc_high_hourly_R_based.
  destruct df as [|r0 df0] eqn:Edf; [contradiction|]. rewrite <- Edf in Hids |- *.
  rewrite Hids. cbn [mbind result_bind Py.bind_result].
  split; [|split].
  - intros HN. apply RunFacts.for_each_all_Ok. intros mid _.
    apply RunFacts.hour_records_Ok. assumption.
  - intros ->. reflexivity.
  - intros H0 Hids' HT.
    destruct ids as [|mid ids]; [contradiction|].
    apply RunFacts.for_each_first_raises, ReportFacts.hour_records_nan; [lia|].
    rewrite ReportFacts.hourly_bins_nat.
    destruct (Z.to_nat T) as [|k] eqn:Ek; [lia | discriminate].
Qed.

Lemma X13_calc_high_errors_witness :
  let df := [Report.mkRow (Py.FFin 100) Report.DE "C" (Some "A") (Some "M_H1")
               (Some "R")] in
  df <> [] /\ Report.mh_ids true df = Py.Ok ["M_H1"]
  /\ size (∅ : gset string) = 0%nat /\ ["M_H1"] <> [] /\ 0 < 12
  /\ Report.calc_high_hourly_R_based 3600 12 true df ∅ = Py.Raise Py.ValueError.
Proof.
  cbv zeta.
  match goal with |- ?A /\ ?B /\ ?C /\ ?D /\ ?E /\ _ =>
    assert A as H1 by discriminate; assert B as H2 by (vm_compute; reflexivity);
    assert C as H3 by reflexivity; assert D as H4 by discriminate;
    assert E as H5 by lia end.
  split; [exact H1|]. split; [exact H2|]. split; [exact H3|]. split; [exact H4|].
  split; [exact H5|].
  destruct (X13_calc_high_errors 3600 12 true _ ∅ H1) as (_ & _ & H).
  destruct (H _ H2) as (_ & _ & Hraise).
  apply (Hraise H3 H4 H5).
Defined.

(* ===================================================================== *)
(** * More on the low-priority counts *)
(* ===================================================================== *)

Module TableFacts.
Import Py PyFacts BinFacts.

(** The created events of message [m]. *)
Lemma dict_get_incr (m k : string) (d : list (string * Z)) :
  Script.dict_get (Script.incr m d) k 0
  = Script.dict_get d k 0 + (if str_eq m k then 1 else 0).
Proof.
  unfold Script.dict_get. induction d as [|[k' v] d IH]; simpl.
  - destruct (str_eq m k); reflexivity.
  - destruct (str_eq k' m) eqn:Em; simpl.
    + apply str_eq_true in Em as ->. destruct (str_eq m k); simpl; lia.
    + destruct (str_eq k' k) eqn:Ek; simpl; [|exact IH].
      apply str_eq_true in Ek as ->.
      rewrite SortFacts.str_eq_sym, Em. lia.
Qed.

Lemma keys_incr (m : string) (d : list (string * Z)) :
  fst <$> Script.incr m d
  = if bool_decide (m ∈ fst <$> d) then fst <$> d else ((fst <$> d) ++ [m])%list.
Proof.
  induction d as [|[k v] d IH]; [reflexivity|].
  cbn [Script.incr]. destruct (str_eq k m) eqn:E.
  - rewrite !fmap_cons. cbn [fst]. apply str_eq_true in E as ->.
    rewrite bool_decide_eq_true_2 by left. reflexivity.
  - rewrite !fmap_cons, IH. cbn [fst]. assert (m <> k) as Hne.
    { intros ->. rewrite str_eq_refl in E. discriminate. }
    destruct (bool_decide (m ∈ fst <$> d)) eqn:B.
    + apply bool_decide_eq_true in B.
      rewrite bool_decide_eq_true_2 by (right; assumption). reflexivity.
    + apply bool_decide_eq_false in B.
      rewrite bool_decide_eq_false_2; [reflexivity|].
      intros [?|?]%elem_of_cons; contradiction.
Qed.

Lemma values_incr (m : string) (d : list (string * Z)) :
  Link.total (snd <$> Script.incr m d) = Link.total (snd <$> d) + 1.
Proof.
  unfold Link.total. induction d as [|[k v] d IH]; [reflexivity|].
  cbn [Script.incr]. destruct (str_eq k m); rewrite !fmap_cons; cbn [snd foldr].
  - lia.
  - rewrite IH. lia.
Qed.

Lemma L_per_id_snoc (evs : list Script.event) (e : Script.event) :
  Script.L_per_id (evs ++ [e])%list
  = if Script.is_created_low e
    then Script.incr (Script.id e) (Script.L_per_id evs)
    else Script.L_per_id evs.
Proof. unfold Script.L_per_id. rewrite foldl_snoc. reflexivity. Qed.

Lemma L_per_id_lookup (evs : list Script.event) (m : string) :
  Script.dict_get (Script.L_per_id evs) m 0
  = len (List.filter (Link.created_of m) evs).
Proof.
  induction evs as [|e evs IH] using rev_ind; [reflexivity|].
  rewrite L_per_id_snoc, List.filter_app. unfold len in *.
  rewrite length_app, Nat2Z.inj_add, <- IH. simpl. unfold Link.created_of.
  destruct (Script.is_created_low e); simpl; [|lia].
  rewrite dict_get_incr. destruct (str_eq (Script.id e) m); simpl; lia.
Qed.

Lemma L_per_id_keys (evs : list Script.event) :
  NoDup (fst <$> Script.L_per_id evs)
  /\ forall m, m ∈ fst <$> Script.L_per_id evs
       <-> exists e, e ∈ evs /\ Script.is_created_low e = true /\ Script.id e = m.
Proof.
  induction evs as [|e evs [IHn IHm]] using rev_ind.
  - split; [constructor|]. intros m. split; [inversion 1|].
    intros (e & He & _). inversion He.
  - rewrite L_per_id_snoc. destruct (Script.is_created_low e) eqn:Ec.
    + rewrite keys_incr. case_bool_decide as Hin.
      * split; [assumption|]. intros m. rewrite IHm. split.
        -- intros (e' & He' & H). exists e'. split; [|assumption].
           apply elem_of_app. auto.
        -- intros (e' & [He' | ->%list_elem_of_singleton]%elem_of_app & Hc & Hid).
           ++ eauto.
           ++ apply IHm. rewrite <- Hid. assumption.
      * split.
        -- apply NoDup_app. split; [assumption|]. split; [|apply NoDup_singleton].
           intros x Hx ->%list_elem_of_singleton. contradiction.
        -- intros m. rewrite elem_of_app, list_elem_of_singleton, IHm. split.
           ++ intros [(e' & He' & H) | ->].
              ** exists e'. split; [apply elem_of_app; auto | assumption].
              ** exists e. split; [apply elem_of_app; right; left | auto].
           ++ intros (e' & [He' | ->%list_elem_of_singleton]%elem_of_app & Hc & Hid).
              ** left. eauto.
              ** right. congruence.
    + split; [assumption|]. intros m. rewrite IHm. split.
      * intros (e' & He' & H). exists e'. split; [|assumption].
        apply elem_of_app. auto.
      * intros (e' & [He' | ->%list_elem_of_singleton]%elem_of_app & Hc & Hid).
        -- eauto.
        -- congruence.
Qed.

Lemma L_per_id_total (evs : list Script.event) :
  Link.total (snd <$> Script.L_per_id evs) = Script.L_total evs.
Proof.
  rewrite LowFacts.script_L_count.
  induction evs as [|e evs IH] using rev_ind; [reflexivity|].
  rewrite L_per_id_snoc, List.filter_app. unfold len in *.
  rewrite length_app, Nat2Z.inj_add, <- IH. simpl.
  destruct (Script.is_created_low e); simpl; [|lia].
  rewrite values_incr. lia.
Qed.

End TableFacts.

Module AgreeFacts.
Import Py PyFacts BinFacts.

Lemma parse_line_shape (float : string -> option pyfloat) (raw : string)
    (r : Report.row) :
  r ∈ Report.parse_line float raw -> Link.well_shaped r.
Proof.
  unfold Report.parse_line. intros Hin.
  repeat match type of Hin with
         | _ ∈ (if ?b then _ else _) => destruct b
         | _ ∈ (match ?x with _ => _ end) => destruct x
         end;
    repeat match type of Hin with
           | _ ∈ [] => inversion Hin
           | _ ∈ [_] => apply list_elem_of_singleton in Hin; subst r
           end;
    unfold Link.well_shaped; simpl; eauto.
Qed.

Lemma rows_shape (float : string -> option pyfloat) (log : list string) :
  Forall Link.well_shaped (Report.parse_eventlogreport float log).
Proof.
  apply Forall_forall. unfold Report.parse_eventlogreport.
  intros r (raw & _ & Hin)%ScriptFacts.elem_of_flat_map.
  eapply parse_line_shape; eassumption.
Qed.

(** What one row contributes to the counts of either program. *)
Ltac row_cases r :=
  destruct r as [t ty s d i st];
  unfold Link.well_shaped, Link.event_of_row, Report.is_low, Report.ID_LOW_RE,
    match_prefix, Report.is_first_delivery, Report.is_type,
    Script.is_created_low, Script.is_delivered_low, Script.is_low_id;
  destruct ty, d, i, st; simpl;
  intros (H1 & H2 & H3);
  try discriminate;
  try (exfalso; first [apply is_Some_None in H1 | apply is_Some_None in H2
                      | apply is_Some_None in H3]; assumption);
  repeat case_match;
  repeat match goal with
         | H : str_eq _ _ = true |- _ => apply str_eq_true in H; subst
         end;
  try discriminate; try reflexivity;
  simpl;
  repeat match goal with
         | H : _ = true |- _ => rewrite H
         | H : _ = false |- _ => rewrite H
         end;
  try reflexivity.

Lemma row_created (r : Report.row) :
  Link.well_shaped r ->
  length (List.filter Script.is_created_low (Link.event_of_row r))
  = length (List.filter (fun r => Report.is_type r Report.C)
              (List.filter Report.is_low [r])).
Proof. row_cases r. Qed.

Lemma row_delivered (r : Report.row) :
  Link.well_shaped r ->
  Script.id <$> List.filter Script.is_delivered_low (Link.event_of_row r)
  = Report.astype_str
      <$> List.filter Report.notna
            (Report.Id <$> List.filter Report.is_first_delivery
                             (List.filter Report.is_low [r])).
Proof. row_cases r. Qed.

Lemma created_agree (df : list Report.row) :
  Forall Link.well_shaped df ->
  length (List.filter Script.is_created_low (flat_map Link.event_of_row df))
  = length (Report.created df).
Proof.
  unfold Report.created, Report.low.
  induction 1 as [|r df Hr _ IH]; [reflexivity|].
  cbn [flat_map]. rewrite List.filter_app, length_app, IH, (row_created r Hr).
  change (r :: df) with ([r] ++ df)%list.
  rewrite !List.filter_app, length_app. reflexivity.
Qed.

Lemma delivered_agree (df : list Report.row) :
  Forall Link.well_shaped df ->
  Script.id <$> List.filter Script.is_delivered_low (flat_map Link.event_of_row df)
  = Report.astype_str
      <$> List.filter Report.notna (Report.Id <$> Report.delivered_first df).
Proof.
  unfold Report.delivered_first, Report.low.
  induction 1 as [|r df Hr _ IH]; [reflexivity|].
  cbn [flat_map]. rewrite List.filter_app, fmap_app, IH, (row_delivered r Hr).
  change (r :: df) with ([r] ++ df)%list.
  rewrite !List.filter_app, fmap_app, List.filter_app, fmap_app. reflexivity.
Qed.

End AgreeFacts.

Module ReachedFacts.
Import Py.

(** The set [seen] of the loop after the turn for hour [h]. *)
Lemma report_seen_after_reached (W : Z) (sub : list Report.row) (h : nat)
    (d : string) :
  0 < W ->
  d ∈ Report.seen_after W sub h
  <-> exists r, r ∈ sub /\ Report.astype_str (Report.Dst r) = d
        /\ in_left_open 0 (Z.of_nat h * W) (Report.Time r).
Proof.
  intros HW.
  assert (forall start stop,
             d ∈ Report.slice_dsts sub start stop
             <-> exists r, r ∈ sub /\ Report.astype_str (Report.Dst r) = d
                   /\ in_left_open start stop (Report.Time r)) as Hslice.
  { intros start stop. unfold Report.slice_dsts.
    rewrite elem_of_list_to_set, list_elem_of_fmap. split.
    - intros (r & -> & [Hr Ht]%BinFacts.report_h_slice). eauto.
    - intros (r & Hr & <- & Ht). exists r. split; [reflexivity|].
      apply BinFacts.report_h_slice. auto. }
  assert (d ∈ Report.seen_after W sub h
          <-> exists k : nat, (1 <= k <= h)%nat
                /\ d ∈ Report.slice_dsts sub ((Z.of_nat k - 1) * W) (Z.of_nat k * W))
    as Hseen.
  { induction h as [|h IH].
    - simpl. split; [set_solver | intros (k & Hk & _); lia].
    - cbn [Report.seen_after]. rewrite elem_of_union, IH. split.
      + intros [(k & Hk & Hd) | Hd].
        * exists k. split; [lia | assumption].
        * exists (S h). split; [lia | assumption].
      + intros (k & Hk & Hd). destruct (decide (k = S h)) as [-> | Hne].
        * right. assumption.
        * left. exists k. split; [lia | assumption]. }
  rewrite Hseen. split.
  - intros (k & Hk & (r & Hr & Hd & Ht)%Hslice).
    exists r. repeat (split; [assumption|]).
    apply (CoverageFacts.windows_union W h _ HW). eauto.
  - intros (r & Hr & Hd & (k & Hk & Ht)%(CoverageFacts.windows_union W h _ HW)).
    exists k. split; [assumption|]. apply Hslice. eauto.
Qed.

(** A returning loop ran on a node set that is not empty, and its lines
    are those of [row_at]. *)
Lemma hour_records_row_at (W T : Z) (sub : list Report.row) (n_nodes : Z)
    (mid : string) (rows : list Report.hrow) (row : Report.hrow) :
  Report.hour_records sub n_nodes mid (Report.hourly_bins T W) ∅ = Ok rows ->
  row ∈ rows ->
  0 < n_nodes
  /\ exists h : nat, (1 <= h)%nat /\ row = Report.row_at W sub n_nodes mid h.
Proof.
  intros Hr Hin.
  assert (0 < n_nodes) as HN.
  { destruct (Z_lt_le_dec 0 n_nodes) as [|Hle]; [assumption|]. exfalso.
    destruct (Report.hourly_bins T W) as [|bin bins] eqn:Eb.
    - injection Hr as <-. inversion Hin.
    - rewrite ReportFacts.hour_records_nan in Hr;
        [discriminate | assumption | discriminate]. }
  split; [exact HN|].
  rewrite ReportFacts.hourly_bins_nat in Hr.
  change (∅ : gset string) with (Report.seen_after W sub 0) in Hr.
  rewrite (ReportFacts.hour_records_rows W sub n_nodes mid _ HN 0) in Hr.
  apply ReportFacts.Ok_inj in Hr. subst rows.
  apply list_elem_of_fmap in Hin as (h & -> & Hh).
  apply list_elem_of_In, in_seq in Hh. exists h. split; [lia | reflexivity].
Qed.

End ReachedFacts.

(** X14.  Every line that [calc_high_hourly_R_based] returns, with a
    positive bin width, carries as cumulative rate the rounded
    percentage, of the size of [nodes_all], of the number of distinct
    receivers of the High [R] rows of the line's id whose time [t]
    satisfies [0 < t <= hour * W]: every reached node counts once,
    although the hourly count may count a node in several hours. *)
Theorem X14_report_reached_set (W T : Z) (flag : bool) (df : list Report.row)
    (nodes_all : gset string) (rows : list Report.hrow) (row : Report.hrow) :
  0 < W ->
  Report.calc_high_hourly_R_based W T flag df nodes_all = Py.Ok rows ->
  row ∈ rows ->
  exists reached : gset string,
    (forall d,
        d ∈ reached
        <-> exists r, r ∈ Report.high_R flag df
              /\ Report.cell_is (Report.Id r) (Report.row_id row) = true
              /\ Report.astype_str (Report.Dst r) = d
              /\ Py.in_left_open 0 (Report.hour_index row * W) (Report.Time r))
    /\ Report.cumulative_rate_percent row
       = Py.round_half_even
           (Py.percent (Z.of_nat (size reached)) (Z.of_nat (size nodes_all))).
Proof.
  intros HW H Hin. unfold Report.calc_high_hourly_R_based in H.
  destruct df as [|r0 df0] eqn:E; [discriminate|]. rewrite <- E in *.
  apply ReportFacts.bind_Ok in H as (ids & _ & H).
  destruct (ReportFacts.for_each_Ok _ _ _ H _ Hin) as (mid & rws & _ & Hr & Hrow).
  cbv beta in Hr.
  destruct (ReachedFacts.hour_records_row_at _ _ _ _ _ _ _ Hr Hrow)
    as (_ & h & _ & ->).
  exists (Report.seen_after W (Report.sub_of (Report.high_R flag df) mid) h).
  split; [|reflexivity].
  intros d. rewrite (ReachedFacts.report_seen_after_reached W _ h d HW).
  cbn [Report.row_at Report.row_id Report.hour_index]. unfold Report.sub_of.
  split.
  - intros (r & [Hr1 Hr2]%BinFacts.elem_of_List_filter & Hd & Ht). eauto 6.
  - intros (r & Hr1 & Hr2 & Hd & Ht). exists r.
    split; [apply BinFacts.elem_of_List_filter; auto | auto].
Qed.

Lemma X14_report_reached_set_witness :
  let df := Report.parse_eventlogreport Sample.float Sample.scenario_log in
  let row := Report.mkHrow "M_H1" 2 3 2 67 67 in
  0 < 3600
  /\ Report.calc_high_hourly_R_based 3600 2 true df
       (Report.compute_denominator_nodes df true)
     = Py.Ok [Report.mkHrow "M_H1" 1 3 1 33 33; row]
  /\ exists reached : gset string,
       (forall d,
           d ∈ reached
           <-> exists r, r ∈ Report.high_R true df
                 /\ Report.cell_is (Report.Id r) (Report.row_id row) = true
                 /\ Report.astype_str (Report.Dst r) = d
                 /\ Py.in_left_open 0 (Report.hour_index row * 3600) (Report.Time r))
       /\ Report.cumulative_rate_percent row
          = Py.round_half_even
              (Py.percent (Z.of_nat (size reached))
                 (Z.of_nat (size (Report.compute_denominator_nodes df true)))).
Proof.
  cbv zeta. split; [lia|].
  match goal with |- ?A /\ _ => assert A as H by (vm_compute; reflexivity) end.
  split; [exact H|].
  apply (X14_report_reached_set 3600 2 true _ _ _ _ ltac:(lia) H).
  right. left.
Defined.

(** X15.  The dictionary [L_per_id] of the script has one entry per
    created low-priority id, its value is the number of [C] events of
    that id, and the values add up to [L_total]. *)
Theorem X15_created_per_id (evs : list Script.event) (m : string) :
  NoDup (fst <$> Script.L_per_id evs)
  /\ (m ∈ fst <$> Script.L_per_id evs
      <-> exists e, e ∈ evs /\ Script.is_created_low e = true /\ Script.id e = m)
  /\ Script.dict_get (Script.L_per_id evs) m 0
     = Py.len (List.filter (Link.created_of m) evs)
  /\ Link.total (snd <$> Script.L_per_id evs) = Script.L_total evs.
Proof.
  destruct (TableFacts.L_per_id_keys evs) as [Hn Hm].
  split; [exact Hn|]. split; [apply Hm|].
  split; [apply TableFacts.L_per_id_lookup | apply TableFacts.L_per_id_total].
Qed.

(** X16.  The per-id table of the script lists every created
    low-priority id once.  Its line for an id has the number of [C]
    events of the id, which is at least 1, the flag 1 or 0 that tells
    whether the id was delivered, and the rate computed by the division:
    the branch for [L_i = 0] is never taken. *)
Theorem X16_low_by_id_lines (evs : list Script.event) :
  NoDup ((fun row => fst (fst (fst row))) <$> Script.low_by_id evs)
  /\ (forall m,
        m ∈ (fun row => fst (fst (fst row))) <$> Script.low_by_id evs
        <-> exists e, e ∈ evs /\ Script.is_created_low e = true /\ Script.id e = m)
  /\ (forall m L P rate,
        (m, L, P, rate) ∈ Script.low_by_id evs ->
        1 <= L
        /\ L = Py.len (List.filter (Link.created_of m) evs)
        /\ P = (if bool_decide (m ∈ Script.delivered_once_ids evs) then 1 else 0)
        /\ rate = Py.round1 (Py.FFin (Py.percent P L))).
Proof.
  destruct (TableFacts.L_per_id_keys evs) as [Hn Hm].
  assert ((fun row : string * Z * Z * Py.pyfloat => fst (fst (fst row)))
            <$> Script.low_by_id evs
          = Script.natural_sorted_keys (Script.L_per_id evs)) as Hids.
  { unfold Script.low_by_id. rewrite <- list_fmap_compose.
    rewrite <- (list_fmap_id (Script.natural_sorted_keys _)) at 2.
    apply list_fmap_ext. intros i x _. reflexivity. }
  assert (Script.natural_sorted_keys (Script.L_per_id evs)
          ≡ₚ fst <$> Script.L_per_id evs) as Hperm
    by apply SortFacts.sort_by_perm.
  rewrite Hids. split; [rewrite Hperm; exact Hn|].
  split; [intros m; rewrite Hperm; apply Hm|].
  intros m L P rate Hin. unfold Script.low_by_id in Hin.
  apply list_elem_of_fmap in Hin as (mid & Heq & Hmid). injection Heq as <- -> -> ->.
  rewrite Hperm in Hmid. apply Hm in Hmid as (e & He & Hc & Hid).
  rewrite TableFacts.L_per_id_lookup.
  assert (1 <= Py.len (List.filter (Link.created_of m) evs)) as HL.
  { assert (e ∈ List.filter (Link.created_of m) evs) as Hf.
    { apply BinFacts.elem_of_List_filter. split; [assumption|].
      unfold Link.created_of. rewrite Hc, Hid, PyFacts.str_eq_refl. reflexivity. }
    unfold Py.len. destruct (List.filter _ evs); [inversion Hf | simpl; lia]. }
  split; [exact HL|]. split; [reflexivity|]. split; [reflexivity|].
  destruct (0 <? _) eqn:E; [reflexivity | apply Z.ltb_ge in E; lia].
Qed.

Lemma X16_low_by_id_lines_witness :
  let evs := Script.events Sample.float
               ["1 C a M_L1"; "2 C a M_L1"; "3 C a M_L2"; "9 DE a b M_L1 D"] in
  ("M_L1", 2, 1, Py.FFin (500 # 10)) ∈ Script.low_by_id evs
  /\ 1 <= 2
  /\ 2 = Py.len (List.filter (Link.created_of "M_L1") evs)
  /\ 1 = (if bool_decide ("M_L1" ∈ Script.delivered_once_ids evs) then 1 else 0)
  /\ Py.FFin (500 # 10) = Py.round1 (Py.FFin (Py.percent 1 2)).
Proof.
  cbv zeta.
  match goal with |- ?A /\ _ => assert A as Hin by (vm_compute; repeat constructor) end.
  split; [exact Hin|].
  destruct (X16_low_by_id_lines
              (Script.events Sample.float
                 ["1 C a M_L1"; "2 C a M_L1"; "3 C a M_L2"; "9 DE a b M_L1 D"]))
    as (_ & _ & H).
  apply (H _ _ _ _ Hin).
Defined.

(** X17.  On the same log the two programs of RESULT.py count the same
    low-priority figures: the number of created messages [L] and the set
    of delivered ids, hence [P], are equal. *)
Theorem X17_low_counts_agree (float : string -> option Py.pyfloat)
    (log : list string) :
  Script.L_total (Script.events float log)
  = Report.L_total (Report.parse_eventlogreport float log)
  /\ Script.delivered_once_ids (Script.events float log)
     = Report.delivered_ids (Report.parse_eventlogreport float log)
  /\ Script.P_total (Script.events float log)
     = Report.P_total (Report.parse_eventlogreport float log).
Proof.
  pose proof (AgreeFacts.rows_shape float log) as Hshape.
  assert (Script.delivered_once_ids (Script.events float log)
          = Report.delivered_ids (Report.parse_eventlogreport float log)) as Hd.
  { rewrite LowFacts.script_delivered_set, events_agree.
    unfold Report.delivered_ids.
    rewrite (AgreeFacts.delivered_agree _ Hshape). reflexivity. }
  split; [|split; [exact Hd|]].
  - rewrite LowFacts.script_L_count, events_agree.
    unfold Report.L_total, Py.len.
    rewrite (AgreeFacts.created_agree _ Hshape). reflexivity.
  - unfold Script.P_total, Report.P_total. rewrite Hd. reflexivity.
Qed.

(* ===================================================================== *)
(** * More on output/sainaosi.py *)
(* ===================================================================== *)

Module ChunkFacts.
Import Py PyFacts BinFacts.

Section Times.
Variable float : string -> option pyfloat.

Lemma with_times_Ok (data : list (list string)) :
  forall keyed, Sainaosi.with_times float data = Ok keyed ->
  forall t entry,
    (t, entry) ∈ keyed <-> entry ∈ data /\ float (item entry 0) = Some t.
Proof.
  induction data as [|e data IH]; intros keyed H t entry; simpl in H.
  - apply ReportFacts.Ok_inj in H. subst keyed. split; [inversion 1|].
    intros [Hin _]. inversion Hin.
  - destruct (float (item e 0)) as [te|] eqn:E; [|discriminate H].
    apply ReportFacts.bind_Ok in H as (rest & Hrest & H).
    apply ReportFacts.Ok_inj in H. subst keyed.
    rewrite !elem_of_cons, (IH _ Hrest). split.
    + intros [[= -> ->] | [? ?]]; auto.
    + intros [[-> | Hin] Hf]; [left; congruence | auto].
Qed.

Lemma with_times_total (data : list (list string)) :
  (forall entry, entry ∈ data -> is_Some (float (item entry 0))) ->
  exists keyed, Sainaosi.with_times float data = Ok keyed.
Proof.
  induction data as [|e data IH]; intros H; simpl; [eauto|].
  destruct (H e ltac:(left)) as [t ->].
  destruct IH as (rest & ->); [intros x Hx; apply H; right; assumption|].
  simpl. eauto.
Qed.

Lemma with_times_raises (data : list (list string)) (entry : list string) :
  entry ∈ data -> float (item entry 0) = None ->
  Sainaosi.with_times float data = Raise ValueError.
Proof.
  induction data as [|e data IH]; intros Hin Hf; [inversion Hin|]. simpl.
  destruct (float (item e 0)) as [t|] eqn:E; [|reflexivity].
  apply elem_of_cons in Hin as [-> | Hin]; [congruence|].
  rewrite (IH Hin Hf). reflexivity.
Qed.

End Times.

(** The union of the first [h] windows [[(k-1)W, kW)] is [[0, hW)]. *)
Lemma right_windows_union (W h : Z) (t : pyfloat) :
  0 < W ->
  (exists k, 1 <= k <= h /\ in_right_open ((k - 1) * W) (k * W) t)
  <-> in_right_open 0 (h * W) t.
Proof.
  intros HW. split.
  - intros (k & Hk & q & -> & H1 & H2). exists q. split; [reflexivity|].
    unfold Qlt, Qle in *. simpl in *. split; nia.
  - intros (q & -> & H1 & H2). unfold Qlt, Qle in H1, H2. simpl in H1, H2.
    set (n := Qnum q) in *. set (D := W * Zpos (Qden q)).
    assert (0 < D) as HD by (subst D; lia).
    pose proof (Z.div_mod n D ltac:(lia)) as Hdm.
    pose proof (Z.mod_pos_bound n D HD) as Hm.
    set (c := n / D) in *.
    assert (0 <= c < h) as Hc by (subst D; nia).
    exists (c + 1). split; [lia|].
    exists q. split; [reflexivity|].
    unfold Qlt, Qle. simpl. fold n. subst D. split; nia.
Qed.

Lemma size_split `{Countable A} (S R seen : gset A) :
  (size (S ∖ seen) + size (R ∖ (seen ∪ S)))%nat = size ((S ∪ R) ∖ seen).
Proof.
  rewrite <- size_union by set_solver. f_equal.
  apply set_eq. intros x. destruct (decide (x ∈ S)); set_solver.
Qed.

Lemma high_files_sum (target : string) (files : list (string * list Sainaosi.csvrow)) :
  forall (seen : gset (option string)) (cumulative : Q),
  Link.total (Sainaosi.mh_received_nodes
                <$> Sainaosi.high_files target files seen cumulative)
  = Z.of_nat (size (Link.received_in target files ∖ seen)).
Proof.
  unfold Link.received_in.
  induction files as [|[path data] files IH]; intros seen cumulative.
  - simpl. replace (∅ ∖ seen) with (∅ : gset (option string)) by set_solver.
    reflexivity.
  - cbn [Sainaosi.high_files]. rewrite LowFacts.count_new_spec, unique_set.
    rewrite fmap_cons, CoverageFacts.total_cons, IH.
    cbn [Sainaosi.mh_received_nodes]. rewrite fmap_cons. cbn [union_list foldr snd].
    rewrite <- size_split. unfold Link.received_by. lia.
Qed.

Lemma ml_data_Ok (data ml : list Sainaosi.csvrow) :
  Sainaosi.ml_data data = Ok ml -> ml = Sainaosi.ml_rows data /\ Link.named_ids data.
Proof.
  unfold Sainaosi.ml_data, Link.named_ids.
  destruct (forallb _ data) eqn:E; [|discriminate].
  intros [= <-]. split; [reflexivity|]. intros r Hr.
  rewrite forallb_forall in E. apply list_elem_of_In in Hr.
  apply (bool_decide_eq_true_1 _ (E r Hr)).
Qed.

Lemma ml_data_named (data : list Sainaosi.csvrow) :
  Link.named_ids data -> Sainaosi.ml_data data = Ok (Sainaosi.ml_rows data).
Proof.
  unfold Sainaosi.ml_data, Link.named_ids. intros H.
  destruct (forallb _ data) eqn:E; [reflexivity|]. exfalso.
  assert (forallb (fun r => bool_decide (is_Some (Sainaosi.read_cell (Sainaosi.Id r))))
            data = true); [|congruence].
  apply forallb_forall. intros r Hr. apply bool_decide_eq_true_2, H.
  apply list_elem_of_In. exact Hr.
Qed.

Lemma low_files_sum (files : list (string * list Sainaosi.csvrow)) :
  forall (seen : gset (option string)) (rows : list Sainaosi.lres),
  Sainaosi.low_files files seen = Ok rows ->
  Link.total (Sainaosi.ML_received <$> rows)
  = 2 * Z.of_nat (size (Link.delivered_in files ∖ seen)).
Proof.
  unfold Link.delivered_in.
  induction files as [|[path data] files IH]; intros seen rows H.
  - injection H as <-. simpl.
    replace (∅ ∖ seen) with (∅ : gset (option string)) by set_solver. reflexivity.
  - destruct rows as [|row rest].
    { cbn [Sainaosi.low_files] in H.
      destruct (Sainaosi.ml_data data); [|discriminate H].
      cbn [mbind result_bind bind_result] in H.
      destruct (Sainaosi.count_new _ _ _).
      destruct (Sainaosi.low_files files _); discriminate H. }
    apply LowFacts.low_files_head in H as (ml & Hml & Hrow & Hrest).
    apply ml_data_Ok in Hml as [-> _].
    rewrite fmap_cons, CoverageFacts.total_cons, Hrow, (IH _ _ Hrest).
    rewrite fmap_cons. cbn [union_list foldr snd].
    rewrite <- size_split. lia.
Qed.

Lemma low_files_named (files : list (string * list Sainaosi.csvrow)) :
  forall seen : gset (option string),
  (forall f, f ∈ files -> Link.named_ids (snd f))
  <-> exists rows, Sainaosi.low_files files seen = Ok rows.
Proof.
  induction files as [|[path data] files IH]; intros seen.
  - split; [simpl; eauto | intros _ f Hf; inversion Hf].
  - cbn [Sainaosi.low_files]. split.
    + intros H. rewrite (ml_data_named data) by (apply (H (path, data)); left).
      cbn [mbind result_bind bind_result].
      destruct (Sainaosi.count_new _ _ _) as [seen' n].
      destruct (proj1 (IH seen')) as (rest & ->);
        [intros f Hf; apply H; right; assumption|].
      simpl. eauto.
    + intros (rows & H) f Hf.
      destruct (Sainaosi.ml_data data) as [ml|e] eqn:Eml; [|discriminate H].
      cbn [mbind result_bind bind_result] in H.
      destruct (Sainaosi.count_new _ _ _) as [seen' n].
      destruct (Sainaosi.low_files files seen') as [rest|e] eqn:Er; [|discriminate H].
      apply elem_of_cons in Hf as [-> | Hf].
      * apply (ml_data_Ok _ _ Eml).
      * apply (proj2 (IH seen')); eauto.
Qed.

Lemma percent_twice (n d : Z) :
  0 <= n <= 2 * d -> 0 < d -> (0 <= percent n d)%Q /\ (percent n d <= 200)%Q.
Proof.
  intros Hn Hd. unfold percent, true_div.
  assert (0 < inject_Z d)%Q as Dpos
    by (change 0%Q with (inject_Z 0); rewrite <- Zlt_Qlt; exact Hd).
  assert (0 <= inject_Z n / inject_Z d)%Q as H0.
  { apply Qle_shift_div_l; [exact Dpos|]. rewrite Qmult_0_l.
    change 0%Q with (inject_Z 0). rewrite <- Zle_Qle. lia. }
  assert (inject_Z n / inject_Z d <= 2)%Q as H1.
  { apply Qle_shift_div_r; [exact Dpos|].
    change 2%Q with (inject_Z 2). rewrite <- inject_Z_mult, <- Zle_Qle. lia. }
  pose proof (RoundFacts.binary64_nonneg _ H0) as B0.
  pose proof (RoundFacts.binary64_mono _ 2 H0 H1) as B1.
  change (binary64 2) with 2%Q in B1.
  split.
  - apply RoundFacts.binary64_nonneg. lra.
  - change 200%Q with (binary64 200). apply RoundFacts.binary64_mono; lra.
Qed.

(** The receivers of a file are nodes of the file, or missing. *)
Lemma received_by_nodes (target : string) (data : list Sainaosi.csvrow) :
  Link.received_by target data
  ⊆ set_map Some (list_to_set
                    (omap Sainaosi.read_cell
                       ((Sainaosi.Host <$> data) ++ (Sainaosi.Tohost <$> data))%list)
                  : gset string)
    ∪ {[ None ]}.
Proof.
  intros x Hx. unfold Link.received_by in Hx.
  apply elem_of_list_to_set, list_elem_of_fmap in Hx
    as (r & -> & [Hr _]%elem_of_List_filter).
  destruct (Sainaosi.read_cell (Sainaosi.Tohost r)) as [n|] eqn:E; [|set_solver].
  apply elem_of_union. left. apply elem_of_map. exists n. split; [reflexivity|].
  apply elem_of_list_to_set, list_elem_of_omap. exists (Sainaosi.Tohost r).
  split; [|exact E]. apply elem_of_app. right. apply list_elem_of_fmap. eauto.
Qed.

Lemma received_by_named (target : string) (data : list Sainaosi.csvrow) :
  Link.named_receivers data ->
  Link.received_by target data
  ⊆ set_map Some (list_to_set
                    (omap Sainaosi.read_cell
                       ((Sainaosi.Host <$> data) ++ (Sainaosi.Tohost <$> data))%list)
                  : gset string).
Proof.
  intros Hnamed x Hx. pose proof (received_by_nodes target data x Hx) as H.
  apply elem_of_union in H as [H | ->%elem_of_singleton]; [exact H|].
  unfold Link.received_by in Hx.
  apply elem_of_list_to_set, list_elem_of_fmap in Hx
    as (r & E & [Hr _]%elem_of_List_filter).
  destruct (Hnamed r Hr) as [n Hn]. congruence.
Qed.

Lemma high_files_range (target : string) (files : list (string * list Sainaosi.csvrow)) :
  forall (seen : gset (option string)) (cumulative : Q) (row : Sainaosi.hres),
  row ∈ Sainaosi.high_files target files seen cumulative ->
  0 <= Sainaosi.mh_received_nodes row <= Sainaosi.total_nodes row + 1
  /\ (0 <= Sainaosi.High row)%Q /\ (Sainaosi.High row <= 200)%Q
  /\ ((forall f, f ∈ files -> Link.named_receivers (snd f)) ->
      Sainaosi.mh_received_nodes row <= Sainaosi.total_nodes row
      /\ (Sainaosi.High row <= 100)%Q).
Proof.
  induction files as [|[path data] files IH]; intros seen cumulative row Hin;
    cbn [Sainaosi.high_files] in Hin; [inversion Hin|].
  rewrite LowFacts.count_new_spec, unique_set in Hin.
  apply elem_of_cons in Hin as [-> | Hin].
  2:{ destruct (IH _ _ _ Hin) as (H1 & H2 & H3 & H4).
      split; [exact H1|]. split; [exact H2|]. split; [exact H3|].
      intros Hn. apply H4. intros f Hf. apply Hn. right. exact Hf. }
  cbn [Sainaosi.mh_received_nodes Sainaosi.total_nodes Sainaosi.High].
  fold (Link.received_by target data).
  set (S := Link.received_by target data).
  set (nodes := list_to_set
                  (omap Sainaosi.read_cell
                     ((Sainaosi.Host <$> data) ++ (Sainaosi.Tohost <$> data))%list)
                : gset string).
  assert (Sainaosi.count_nodes data = Z.of_nat (size nodes)) as Ecount by reflexivity.
  assert (Z.of_nat (size (S ∖ seen)) <= Sainaosi.count_nodes data + 1) as Hle.
  { rewrite Ecount, <- (CoverageFacts.size_map_Some nodes).
    assert (size (S ∖ seen) <= size (set_map Some nodes ∪ {[ None ]}
                                       : gset (option string)))%nat as Hs.
    { apply subseteq_size. intros x [Hx _]%elem_of_difference.
      apply (received_by_nodes target data x Hx). }
    pose proof (size_union_alt (set_map Some nodes : gset (option string)) {[ None ]})
      as Hu.
    assert (size ({[ None ]} ∖ (set_map Some nodes : gset (option string))) <= 1)%nat.
    { rewrite <- (size_singleton (None : option string) (C := gset (option string))).
      apply subseteq_size. set_solver. }
    lia. }
  assert ((forall f, f ∈ (path, data) :: files -> Link.named_receivers (snd f)) ->
          Z.of_nat (size (S ∖ seen)) <= Sainaosi.count_nodes data) as Hnamed.
  { intros Hn. rewrite Ecount, <- (CoverageFacts.size_map_Some nodes).
    apply inj_le, subseteq_size. intros x [Hx _]%elem_of_difference.
    apply (received_by_named target data (Hn (path, data) ltac:(left)) x Hx). }
  split; [lia|].
  destruct (0 <? Sainaosi.count_nodes data) eqn:E.
  - apply Z.ltb_lt in E.
    assert (0 <= 1 * Z.of_nat (size (S ∖ seen)) <= 2 * Sainaosi.count_nodes data)
      as Hb by lia.
    destruct (percent_twice _ _ Hb E) as [P0 P2].
    split; [exact P0|]. split; [exact P2|].
    intros Hn. specialize (Hnamed Hn). split; [lia|].
    apply RoundFacts.percent_range; lia.
  - split; [apply Qle_refl|]. split; [discriminate|].
    intros Hn. specialize (Hnamed Hn). split; [lia | discriminate].
Qed.

End ChunkFacts.

(** X18.  Unlike the parsers of RESULT.py, [process_and_save] does not
    skip a line whose first field is not a number: it raises
    [ValueError] when such a line has six fields or more, and it returns
    its chunks when every line with six fields or more starts with a
    number. *)
Theorem X18_process_and_save_errors (float : string -> option Py.pyfloat)
    (lines : list string) (time_ranges : list (Z * Z)) :
  ((forall entry, entry ∈ Sainaosi.read_data lines ->
                  is_Some (float (Py.item entry 0))) ->
   exists chunks,
     Sainaosi.process_and_save float lines time_ranges = Py.Ok chunks)
  /\ (forall entry,
        entry ∈ Sainaosi.read_data lines -> float (Py.item entry 0) = None ->
        Sainaosi.process_and_save float lines time_ranges = Py.Raise Py.ValueError).
Proof.
  unfold Sainaosi.process_and_save. split.
  - intros H. destruct (ChunkFacts.with_times_total float _ H) as (keyed & ->).
    simpl. eauto.
  - intros entry Hin Hf.
    rewrite (ChunkFacts.with_times_raises float _ entry Hin Hf). reflexivity.
Qed.

Lemma X18_process_and_save_errors_witness :
  ["time"; "DE"; "a"; "b"; "M_H1"; "R"]
    ∈ Sainaosi.read_data ["time DE a b M_H1 R"; "5 C a M_L1"]
  /\ Sample.float (Py.item ["time"; "DE"; "a"; "b"; "M_H1"; "R"] 0) = None
  /\ Sainaosi.process_and_save Sample.float ["time DE a b M_H1 R"; "5 C a M_L1"]
       Sainaosi.time_range
     = Py.Raise Py.ValueError.
Proof.
  match goal with |- ?A /\ ?B /\ _ =>
    assert A as H1 by (vm_compute; repeat constructor);
    assert B as H2 by reflexivity end.
  split; [exact H1|]. split; [exact H2|].
  destruct (X18_process_and_save_errors Sample.float
              ["time DE a b M_H1 R"; "5 C a M_L1"] Sainaosi.time_range) as (_ & H).
  apply (H _ H1 H2).
Defined.

(** X19.  When [process_and_save] returns, no chunk is empty, the chunk
    with index [h] holds exactly the entries with six fields or more
    whose time [t] satisfies [(h-1)*3600 <= t < h*3600], and an entry is
    in some chunk exactly when [0 <= t < 43200]: entries outside the
    twelve hours are dropped. *)
Theorem X19_chunks (float : string -> option Py.pyfloat) (lines : list string)
    (chunks : list (Z * list (list string))) :
  Sainaosi.process_and_save float lines Sainaosi.time_range = Py.Ok chunks ->
  (forall index chunk,
      (index, chunk) ∈ chunks ->
      chunk <> [] /\ 1 <= index <= 12
      /\ forall entry,
           entry ∈ chunk
           <-> entry ∈ Sainaosi.read_data lines
               /\ exists t, float (Py.item entry 0) = Some t
                    /\ Py.in_right_open ((index - 1) * 3600) (index * 3600) t)
  /\ (forall entry t,
        entry ∈ Sainaosi.read_data lines -> float (Py.item entry 0) = Some t ->
        (exists index chunk, (index, chunk) ∈ chunks /\ entry ∈ chunk)
        <-> Py.in_right_open 0 43200 t).
Proof.
  unfold Sainaosi.process_and_save. intros H.
  apply ReportFacts.bind_Ok in H as (keyed & Hkeyed & H).
  apply ReportFacts.Ok_inj in H. subst chunks.
  pose proof (ChunkFacts.with_times_Ok float _ _ Hkeyed) as Hk.
  set (data := Py.sort_by Py.float_lt fst keyed).
  assert (forall t entry, (t, entry) ∈ data
            <-> entry ∈ Sainaosi.read_data lines /\ float (Py.item entry 0) = Some t)
    as Hdata.
  { intros t entry. unfold data. rewrite (SortFacts.sort_by_perm _ _ keyed).
    apply Hk. }
  assert (forall start stop entry,
             entry ∈ snd <$> Sainaosi.grouped_data data start stop
             <-> entry ∈ Sainaosi.read_data lines
                 /\ exists t, float (Py.item entry 0) = Some t
                      /\ Py.in_right_open start stop t) as Hgroup.
  { intros start stop entry. rewrite list_elem_of_fmap. split.
    - intros ([t e] & -> & [Hin Ht]%BinFacts.sainaosi_grouped).
      apply Hdata in Hin as [Hin Hf]. simpl. eauto.
    - intros (Hin & t & Hf & Ht). exists (t, entry). split; [reflexivity|].
      apply BinFacts.sainaosi_grouped. split; [|exact Ht].
      apply Hdata. auto. }
  assert (forall index chunk,
             (index, chunk) ∈ omap
               (fun '(index, (start_time, end_time)) =>
                  match Sainaosi.grouped_data data start_time end_time with
                  | [] => None
                  | g => Some (index, snd <$> g)
                  end) (Py.enumerate1 Sainaosi.time_range)
             <-> 1 <= index <= 12 /\ chunk <> []
                 /\ chunk = snd <$> Sainaosi.grouped_data data
                                      ((index - 1) * 3600) (index * 3600)) as Hchunk.
  { intros index chunk. rewrite list_elem_of_omap. split.
    - intros ([i [start stop]] & (Hi & -> & ->)%BinFacts.sainaosi_ranges & Hf).
      destruct (Sainaosi.grouped_data data _ _) as [|g0 g] eqn:Eg; [discriminate|].
      injection Hf as -> <-. rewrite Eg.
      split; [assumption|]. split; [discriminate | reflexivity].
    - intros (Hi & Hne & ->). exists (index, ((index - 1) * 3600, index * 3600)).
      split; [apply BinFacts.sainaosi_ranges; auto|].
      destruct (Sainaosi.grouped_data data _ _) as [|g0 g] eqn:Eg;
        [contradiction | reflexivity]. }
  split.
  - intros index chunk (Hi & Hne & ->)%Hchunk. split; [assumption|].
    split; [assumption|]. intros entry. apply Hgroup.
  - intros entry t Hin Hf.
    rewrite <- (ChunkFacts.right_windows_union 3600 12 t) by lia. split.
    + intros (index & chunk & (Hi & Hne & ->)%Hchunk & He).
      apply Hgroup in He as (_ & t' & Hf' & Ht).
      exists index. split; [assumption|]. congruence.
    + intros (index & Hi & Ht).
      exists index, (snd <$> Sainaosi.grouped_data data
                               ((index - 1) * 3600) (index * 3600)).
      assert (entry ∈ snd <$> Sainaosi.grouped_data data
                                ((index - 1) * 3600) (index * 3600)) as He
        by (apply Hgroup; eauto).
      split; [|exact He]. apply Hchunk. split; [assumption|].
      split; [|reflexivity]. intros E. rewrite E in He. inversion He.
Qed.

Lemma X19_chunks_witness :
  Sainaosi.process_and_save Sample.float
    ["3600 DE a b M_H1 R"; "50000 DE a b M_H1 R"; "1 C a M_L1"] Sainaosi.time_range
  = Py.Ok [(2, [["3600"; "DE"; "a"; "b"; "M_H1"; "R"]])]
  /\ [["3600"; "DE"; "a"; "b"; "M_H1"; "R"]] <> [] /\ 1 <= 2 <= 12.
Proof.
  assert (Sainaosi.process_and_save Sample.float
            ["3600 DE a b M_H1 R"; "50000 DE a b M_H1 R"; "1 C a M_L1"]
            Sainaosi.time_range
          = Py.Ok [(2, [["3600"; "DE"; "a"; "b"; "M_H1"; "R"]])]) as H
    by (vm_compute; reflexivity).
  split; [exact H|].
  destruct (X19_chunks Sample.float _ _ H) as (Hc & _).
  destruct (Hc 2 [["3600"; "DE"; "a"; "b"; "M_H1"; "R"]] ltac:(left))
    as (H1 & H2 & _).
  split; assumption.
Defined.

(** X20.  In [calculate_high], over the chunk files of one id, every
    receiver of an R row of the id is counted once, in the first file
    where it appears: the counts of all files add up to the number of
    distinct receivers. *)
Theorem X20_calculate_high_counts_once (target : string)
    (files : list (string * list Sainaosi.csvrow)) :
  Link.total (Sainaosi.mh_received_nodes
                <$> Sainaosi.high_files target files ∅ 0%Q)
  = Z.of_nat (size (Link.received_in target files)).
Proof.
  rewrite ChunkFacts.high_files_sum. do 2 f_equal. set_solver.
Qed.

(** X21.  In every line of [calculate_high] the count of new receivers
    exceeds the number of nodes of the file by 1 at most, and the rate
    [High] lies between 0 and 200.  A receiver that is read as a missing
    value is counted as a receiver and not as a node; when no file has
    one, the count does not exceed the number of nodes and [High] does
    not exceed 100. *)
Theorem X21_calculate_high_range (files : list (string * list Sainaosi.csvrow))
    (id_prefix : string) (step max_id : Z) (rows : list Sainaosi.hres)
    (row : Sainaosi.hres) :
  Sainaosi.calculate_high files id_prefix step max_id = Py.Ok rows ->
  row ∈ rows ->
  0 <= Sainaosi.mh_received_nodes row <= Sainaosi.total_nodes row + 1
  /\ (0 <= Sainaosi.High row)%Q /\ (Sainaosi.High row <= 200)%Q
  /\ ((forall f, f ∈ files -> Link.named_receivers (snd f)) ->
      Sainaosi.mh_received_nodes row <= Sainaosi.total_nodes row
      /\ (Sainaosi.High row <= 100)%Q).
Proof.
  unfold Sainaosi.calculate_high. destruct (step =? 0); [discriminate|].
  intros H Hin. apply ReportFacts.Ok_inj in H. subst rows.
  apply ScriptFacts.elem_of_flat_map in Hin as (i & _ & Hin).
  eapply ChunkFacts.high_files_range. eassumption.
Qed.

Lemma X21_calculate_high_range_witness :
  let files := [("3cluster_1.csv", [Sainaosi.mkCsv "n1" "NA" "M_Hp1" "R";
                                    Sainaosi.mkCsv "n1" "n1" "M_Hp1" "R"])] in
  Sainaosi.calculate_high files "M_Hp" 1 1
  = Py.Ok [Sainaosi.mkHres "3cluster_1.csv" "M_Hp1" 1 2 200 200]
  /\ 0 <= 2 <= 1 + 1 /\ (0 <= 200)%Q /\ (200 <= 200)%Q.
Proof.
  cbv zeta.
  match goal with |- ?A /\ _ => assert A as H by (vm_compute; reflexivity) end.
  split; [exact H|].
  destruct (X21_calculate_high_range _ _ _ _ _
              (Sainaosi.mkHres "3cluster_1.csv" "M_Hp1" 1 2 200 200) H ltac:(left))
    as (H1 & H2 & H3 & _).
  split; [exact H1|]. split; [exact H2 | exact H3].
Defined.

(** X22.  [calculate_low] returns exactly when no id of a file is read
    as a missing value.  One set of seen receivers then serves all the
    files: the counts [ML_received] of all files add up to twice the
    number of distinct receivers of the D rows of low-priority
    messages. *)
Theorem X22_calculate_low_total (files : list (string * list Sainaosi.csvrow)) :
  ((forall f, f ∈ files -> Link.named_ids (snd f))
   <-> exists rows, Sainaosi.calculate_low files = Py.Ok rows)
  /\ (forall rows,
        Sainaosi.calculate_low files = Py.Ok rows ->
        Link.total (Sainaosi.ML_received <$> rows)
        = 2 * Z.of_nat (size (Link.delivered_in files))).
Proof.
  unfold Sainaosi.calculate_low. split; [apply ChunkFacts.low_files_named|].
  intros rows H. rewrite (ChunkFacts.low_files_sum _ _ _ H).
  do 3 f_equal. set_solver.
Qed.

Lemma X22_calculate_low_total_witness :
  let files := [("3cluster_1.csv", [Sainaosi.mkCsv "n0" "n1" "M_L1" "D";
                                    Sainaosi.mkCsv "n0" "n2" "M_L1" "D"]);
                ("3cluster_2.csv", [Sainaosi.mkCsv "n0" "n1" "M_L2" "D"])] in
  Sainaosi.calculate_low files
  = Py.Ok [Sainaosi.mkLres "3cluster_1.csv" 2 4 200; Sainaosi.mkLres "3cluster_2.csv" 1 0 0]
  /\ Link.total [4; 0] = 2 * Z.of_nat (size (Link.delivered_in files)).
Proof.
  cbv zeta.
  match goal with |- ?A /\ _ => assert A as H by (vm_compute; reflexivity) end.
  split; [exact H|].
  destruct (X22_calculate_low_total
              [("3cluster_1.csv", [Sainaosi.mkCsv "n0" "n1" "M_L1" "D";
                                   Sainaosi.mkCsv "n0" "n2" "M_L1" "D"]);
               ("3cluster_2.csv", [Sainaosi.mkCsv "n0" "n1" "M_L2" "D"])])
    as (_ & Hsum).
  apply (Hsum _ H).
Defined.

(* ===================================================================== *)
(** * More on the natural order *)
(* ===================================================================== *)

Module OrderFacts.
Import Py PyFacts.

Section Stable.
Context {A K : Type} `{EqDecision K} (lt : K -> K -> bool) (key : A -> K).
Hypothesis lt_irrefl : forall a, lt a a = false.

#[local] Abbreviation pick k := (List.filter (fun y => bool_decide (key y = k))).

Lemma insert_by_pick (k : K) (x : A) (l : list A) :
  pick k (insert_by lt key x l) = pick k (x :: l).
Proof.
  induction l as [|y l IH]; [reflexivity|].
  cbn [insert_by]. destruct (lt (key y) (key x)) eqn:E; [|reflexivity].
  cbn [List.filter] in *. rewrite IH.
  destruct (bool_decide (key x = k)) eqn:Ex; [|reflexivity].
  destruct (bool_decide (key y = k)) eqn:Ey; [|reflexivity].
  apply bool_decide_eq_true in Ex, Ey. rewrite Ex, Ey, lt_irrefl in E.
  discriminate.
Qed.

Lemma sort_by_pick (k : K) (l : list A) :
  pick k (sort_by lt key l) = pick k l.
Proof.
  induction l as [|x l IH]; [reflexivity|].
  cbn [sort_by foldr]. fold (sort_by lt key l).
  rewrite insert_by_pick. cbn [List.filter]. rewrite IH. reflexivity.
Qed.

End Stable.

Lemma key2_lt_irrefl (a : string * Z) : key2_lt a a = false.
Proof.
  destruct (key2_lt a a) eqn:E; [|reflexivity].
  pose proof (SortFacts.key2_lt_asym a a E). congruence.
Qed.




Lemma mh_ids_perm (b d : bool) (evs : list Script.event) :
  Script.mh_ids b d evs ≡ₚ elements (Script.mh_ids_set b d evs).
Proof. apply SortFacts.sort_by_perm. Qed.

End OrderFacts.

(** X23.  [natural_sort_ids] returns a rearrangement of its input in
    which no identifier is followed by one with a smaller key, and it is
    stable: the identifiers that have the same key come out in the order
    they came in. *)
Theorem X23_natural_sort_ids (ids : list string) (k : string * Z) :
  Script.natural_sort_ids ids ≡ₚ ids
  /\ Sorted (fun x y => Py.key2_lt (Script.sort_key y) (Script.sort_key x) = false)
       (Script.natural_sort_ids ids)
  /\ Link.with_key k (Script.natural_sort_ids ids) = Link.with_key k ids.
Proof.
  destruct (SortFacts.natural_sort_ids_sorted ids) as [Hp Hs].
  split; [exact Hp|]. split; [exact Hs|].
  apply (OrderFacts.sort_by_pick Py.key2_lt Script.sort_key
           OrderFacts.key2_lt_irrefl).
Qed.



(** X25.  The ids that the script reports: [mh_ids] lists every id of a
    receipt exactly once, and nothing else, so it holds only
    high-priority ids. *)
Theorem X25_mh_ids (b d : bool) (evs : list Script.event) (m : string) :
  NoDup (Script.mh_ids b d evs)
  /\ (m ∈ Script.mh_ids b d evs
      <-> exists e, e ∈ evs /\ Script.is_receipt b d e = true /\ Script.id e = m)
  /\ (m ∈ Script.mh_ids b d evs -> Script.is_high_id (Some m) = true).
Proof.
  pose proof (OrderFacts.mh_ids_perm b d evs) as Hp.
  assert (m ∈ Script.mh_ids b d evs
          <-> exists e, e ∈ evs /\ Script.is_receipt b d e = true /\ Script.id e = m)
    as Hm.
  { rewrite Hp, elem_of_elements. unfold Script.mh_ids_set, Script.rd_events_high.
    rewrite elem_of_list_to_set, list_elem_of_fmap. split.
    - intros (e & -> & [He Hr]%BinFacts.elem_of_List_filter). eauto.
    - intros (e & He & Hr & <-). exists e. split; [reflexivity|].
      apply BinFacts.elem_of_List_filter. auto. }
  split; [rewrite Hp; apply NoDup_elements|]. split; [exact Hm|].
  intros (e & _ & Hr & <-)%Hm. unfold Script.is_receipt in Hr.
  destruct (Script.type e); [discriminate| |];
    apply andb_true_iff in Hr as [Hr _]; exact Hr.
Qed.

Lemma X25_mh_ids_witness :
  "M_H1" ∈ Script.mh_ids true true (Script.events Sample.float Sample.scenario_log)
  /\ Script.is_high_id (Some "M_H1") = true.
Proof.
  assert ("M_H1" ∈ Script.mh_ids true true
                     (Script.events Sample.float Sample.scenario_log)) as Hin
    by (vm_compute; repeat constructor).
  split; [exact Hin|].
  destruct (X25_mh_ids true true
              (Script.events Sample.float Sample.scenario_log) "M_H1") as (_ & _ & H).
  apply (H Hin).
Defined.

(* ===================================================================== *)
(** * More on the hourly tables of the pandas program *)
(* ===================================================================== *)

Module TableRangeFacts.
Import Py PyFacts BinFacts.

Lemma round_rate_bounds (n_nodes n r : Z) :
  round (Report.rate_or_nan n_nodes n) = Ok r -> 0 <= n <= n_nodes ->
  0 <= r <= 100.
Proof.
  unfold Report.rate_or_nan. destruct (0 <? n_nodes) eqn:E; [|discriminate].
  apply Z.ltb_lt in E. simpl. intros H Hn. apply ReportFacts.Ok_inj in H. subst r.
  destruct (RoundFacts.percent_range n n_nodes Hn E) as [H0 H1].
  split; [apply RoundFacts.round_half_even_ge | apply RoundFacts.round_half_even_le];
    assumption.
Qed.

Lemma rate_or_nan_range (n_nodes n : Z) :
  0 <= n <= n_nodes -> Link.nan_or_percentage (Report.rate_or_nan n_nodes n).
Proof.
  intros Hn. unfold Report.rate_or_nan, Link.nan_or_percentage.
  destruct (0 <? n_nodes) eqn:E; [|left; reflexivity].
  apply Z.ltb_lt in E. right. eexists. split; [reflexivity|].
  apply RoundFacts.percent_range; lia.
Qed.

Section Loop.
Variable nodes : gset string.
Variable sub : list Report.row.
Hypothesis sub_nodes : forall r, r ∈ sub -> Report.astype_str (Report.Dst r) ∈ nodes.

Lemma slice_in_nodes (start stop : Z) : Report.slice_dsts sub start stop ⊆ nodes.
Proof.
  intros d Hd. unfold Report.slice_dsts in Hd.
  apply elem_of_list_to_set, list_elem_of_fmap in Hd
    as (r & -> & [Hr _]%report_h_slice).
  apply sub_nodes. assumption.
Qed.

Lemma hour_records_range (mid : string) (bins : list (Z * Z * Z)) :
  forall (seen : gset string) (rows : list Report.hrow),
  seen ⊆ nodes ->
  Report.hour_records sub (Z.of_nat (size nodes)) mid bins seen = Ok rows ->
  forall row, row ∈ rows ->
  0 <= Report.n_receivers_hour row <= Report.row_N row
  /\ 0 <= Report.rate_percent_hour row <= 100
  /\ 0 <= Report.cumulative_rate_percent row <= 100.
Proof.
  induction bins as [|[[h start] stop] bins IH]; intros seen rows Hseen H row Hin.
  - apply ReportFacts.Ok_inj in H. subst rows. inversion Hin.
  - cbn [Report.hour_records] in H.
    apply ReportFacts.bind_Ok in H as (r1 & H1 & H).
    apply ReportFacts.bind_Ok in H as (r2 & H2 & H).
    apply ReportFacts.bind_Ok in H as (rest & Hrest & H).
    apply ReportFacts.Ok_inj in H. subst rows.
    pose proof (slice_in_nodes start stop) as Hs.
    assert (size (Report.slice_dsts sub start stop) <= size nodes)%nat as L1
      by (apply subseteq_size; assumption).
    assert (size (seen ∪ Report.slice_dsts sub start stop) <= size nodes)%nat as L2
      by (apply subseteq_size; set_solver).
    apply elem_of_cons in Hin as [-> | Hin].
    + cbn [Report.n_receivers_hour Report.row_N Report.rate_percent_hour
             Report.cumulative_rate_percent].
      split; [lia|]. split.
      * apply (round_rate_bounds _ _ _ H1). lia.
      * apply (round_rate_bounds _ _ _ H2). lia.
    + eapply (IH (seen ∪ Report.slice_dsts sub start stop));
        [set_solver | eassumption | assumption].
Qed.

Lemma cluster_records_range (cname mid : string) (bins : list (Z * Z * Z)) :
  forall (seen : gset string) (row : Report.crow),
  seen ⊆ nodes ->
  row ∈ Report.cluster_hour_records sub cname (Z.of_nat (size nodes)) mid bins seen ->
  0 <= Report.c_n_receivers_hour row <= Report.N_cluster row
  /\ Link.nan_or_percentage (Report.c_rate_percent_hour row)
  /\ Link.nan_or_percentage (Report.c_cumulative_rate_percent row).
Proof.
  induction bins as [|[[h start] stop] bins IH]; intros seen row Hseen Hin;
    cbn [Report.cluster_hour_records] in Hin; [inversion Hin|].
  pose proof (slice_in_nodes start stop) as Hs.
  assert (size (Report.slice_dsts sub start stop) <= size nodes)%nat as L1
    by (apply subseteq_size; assumption).
  assert (size (seen ∪ Report.slice_dsts sub start stop) <= size nodes)%nat as L2
    by (apply subseteq_size; set_solver).
  apply elem_of_cons in Hin as [-> | Hin].
  - cbn [Report.c_n_receivers_hour Report.N_cluster Report.c_rate_percent_hour
           Report.c_cumulative_rate_percent].
    split; [lia|]. split; apply rate_or_nan_range; lia.
  - eapply (IH (seen ∪ Report.slice_dsts sub start stop)); [set_solver | assumption].
Qed.

End Loop.

Lemma hour_records_keys (sub : list Report.row) (n_nodes : Z) (mid : string)
    (bins : list (Z * Z * Z)) :
  forall (seen : gset string) (rows : list Report.hrow),
  Report.hour_records sub n_nodes mid bins seen = Ok rows ->
  (fun r => (Report.row_id r, Report.hour_index r)) <$> rows
  = (fun bin => (mid, fst (fst bin))) <$> bins.
Proof.
  induction bins as [|[[h start] stop] bins IH]; intros seen rows H.
  - apply ReportFacts.Ok_inj in H. subst rows. reflexivity.
  - cbn [Report.hour_records] in H.
    apply ReportFacts.bind_Ok in H as (r1 & _ & H).
    apply ReportFacts.bind_Ok in H as (r2 & _ & H).
    apply ReportFacts.bind_Ok in H as (rest & Hrest & H).
    apply ReportFacts.Ok_inj in H. subst rows.
    rewrite !fmap_cons, (IH _ _ Hrest). reflexivity.
Qed.

Lemma for_each_keys {A B K : Type} (f : A -> result (list B)) (key : B -> K)
    (g : A -> list K) (l : list A) :
  (forall x rows, f x = Ok rows -> key <$> rows = g x) ->
  forall rows, Report.for_each f l = Ok rows -> key <$> rows = flat_map g l.
Proof.
  intros Hf. induction l as [|x l IH]; intros rows H; simpl in H.
  - apply ReportFacts.Ok_inj in H. subst rows. reflexivity.
  - apply ReportFacts.bind_Ok in H as (r1 & H1 & H).
    apply ReportFacts.bind_Ok in H as (r2 & H2 & H).
    apply ReportFacts.Ok_inj in H. subst rows.
    rewrite fmap_app, (Hf _ _ H1), (IH _ H2). reflexivity.
Qed.

Lemma bins_hours (T W : Z) :
  (fun bin : Z * Z * Z => fst (fst bin)) <$> Report.hourly_bins T W = seqZ 1 T.
Proof.
  unfold Report.hourly_bins. rewrite <- list_fmap_compose.
  rewrite <- (list_fmap_id (seqZ 1 T)) at 2.
  apply list_fmap_ext. intros i x _. reflexivity.
Qed.

Lemma calc_by_cluster_range (W T : Z) (flag : bool) (df : list Report.row)
    (nodes_all : gset string) (rows : list Report.crow) (row : Report.crow) :
  Report.calc_high_hourly_R_based_by_cluster W T flag df nodes_all = Ok rows ->
  row ∈ rows ->
  0 <= Report.c_n_receivers_hour row <= Report.N_cluster row
  /\ Link.nan_or_percentage (Report.c_rate_percent_hour row)
  /\ Link.nan_or_percentage (Report.c_cumulative_rate_percent row).
Proof.
  unfold Report.calc_high_hourly_R_based_by_cluster.
  destruct df as [|r0 df0] eqn:E; [discriminate|]. rewrite <- E.
  intros H Hin. apply ReportFacts.bind_Ok in H as (ids & _ & H).
  apply ReportFacts.Ok_inj in H. subst rows.
  apply ScriptFacts.elem_of_flat_map in Hin as ([cname cnodes] & _ & Hin).
  apply ScriptFacts.elem_of_flat_map in Hin as (mid & _ & Hin).
  assert (forall r,
             r ∈ Report.sub_of
                   (List.filter
                      (fun r => bool_decide (Report.astype_str (Report.Dst r) ∈ cnodes))
                      (Report.high_R flag df)) mid ->
             Report.astype_str (Report.Dst r) ∈ cnodes) as Hsub.
  { intros r [[_ Hr]%elem_of_List_filter _]%elem_of_List_filter.
    apply bool_decide_eq_true in Hr. exact Hr. }
  exact (cluster_records_range _ _ Hsub cname mid _ ∅ row ltac:(set_solver) Hin).
Qed.

End TableRangeFacts.

(* ===================================================================== *)
(** * An empty node set *)
(* ===================================================================== *)

Module EmptyFacts.
Import Py PyFacts BinFacts.

(** A log whose node set is empty has no receipt, so the script has no
    id to report. *)
Lemma script_no_line (float : string -> option pyfloat) (W T : Z) (b d : bool)
    (log : list string) :
  Script.N b d (Script.events float log) = 0 ->
  Script.high_rows W T b d (Script.events float log) = [].
Proof.
  intros HN. unfold Script.high_rows, Script.mh_ids, Script.mh_ids_set.
  assert (Script.rd_events_high b d (Script.events float log) = []) as ->.
  { destruct (Script.rd_events_high b d (Script.events float log)) as [|e rd] eqn:E;
      [reflexivity|]. exfalso.
    assert (e ∈ Script.rd_events_high b d (Script.events float log)) as He
      by (rewrite E; left).
    apply ReceiptFacts.script_receipt in He as (_ & _ & _ & n & _ & Hn).
    unfold Script.N in HN.
    assert (size (Script.nodes_all b d (Script.events float log)) = 0%nat) as H0
      by lia.
    apply size_empty_iff in H0. set_solver. }
  rewrite fmap_nil, list_to_set_nil, elements_empty. reflexivity.
Qed.

Lemma calc_high_no_line (W T : Z) (flag : bool) (df : list Report.row)
    (rows : list Report.hrow) :
  Report.calc_high_hourly_R_based W T flag df ∅ = Ok rows -> rows = [].
Proof.
  unfold Report.calc_high_hourly_R_based. destruct df as [|r0 df0]; [discriminate|].
  intros H. apply ReportFacts.bind_Ok in H as (ids & _ & H).
  destruct rows as [|row rows]; [reflexivity|]. exfalso.
  destruct (ReportFacts.for_each_Ok _ _ _ H row ltac:(left))
    as (mid & rows' & _ & Hrec & Hin).
  cbv beta in Hrec. rewrite size_empty in Hrec.
  destruct (Report.hourly_bins T W) as [|bin bins] eqn:Eb.
  - injection Hrec as <-. inversion Hin.
  - rewrite ReportFacts.hour_records_nan in Hrec; [discriminate | reflexivity
                                                   | discriminate].
Qed.

Lemma empty_cluster_line (W T : Z) (flag : bool) (df : list Report.row)
    (nodes_all : gset string) (rows : list Report.crow) (row : Report.crow) :
  Report.calc_high_hourly_R_based_by_cluster W T flag df nodes_all = Ok rows ->
  row ∈ rows -> Report.N_cluster row = 0 ->
  Report.c_n_receivers_hour row = 0
  /\ Report.c_rate_percent_hour row = FNaN
  /\ Report.c_cumulative_rate_percent row = FNaN.
Proof.
  intros H Hin HN.
  destruct (ReportFacts.calc_by_cluster_rows _ _ _ _ _ _ H _ Hin) as (c & _ & _ & Hnan).
  destruct (TableRangeFacts.calc_by_cluster_range _ _ _ _ _ _ _ H Hin) as [Hc _].
  split; [lia|]. apply Hnan. lia.
Qed.

Lemma no_node_no_member (W T : Z) (flag : bool) (df : list Report.row)
    (rows : list Report.crow) (row : Report.crow) :
  Report.calc_high_hourly_R_based_by_cluster W T flag df ∅ = Ok rows ->
  row ∈ rows -> Report.N_cluster row = 0.
Proof.
  intros H Hin.
  destruct (ReportFacts.calc_by_cluster_rows _ _ _ _ _ _ H _ Hin)
    as (c & Hc & -> & _).
  unfold Report.cluster_nodes in Hc.
  apply list_elem_of_fmap in Hc as ([cname rgx] & Hc & _).
  injection Hc as _ ->.
  assert (filter (fun n => rgx n = true) (∅ : gset string) = ∅) as ->
    by (apply set_eq; intros x; rewrite elem_of_filter; set_solver).
  rewrite size_empty. reflexivity.
Qed.

End EmptyFacts.

(** C4 (as the code has it).  With an empty node set the script writes
    no hourly line at all, whatever the log, and
    [calc_high_hourly_R_based] returns no line either.  In the table per
    cluster, every line of a cluster without member nodes has the count 0
    and carries NaN, not 0, for both rates; with an empty node set these
    are all the lines of that table. *)
Theorem C4_empty_node_set :
  (forall (float : string -> option Py.pyfloat) (W T : Z) (b d : bool)
          (log : list string),
      Script.N b d (Script.events float log) = 0 ->
      Script.high_rows W T b d (Script.events float log) = [])
  /\ (forall (W T : Z) (flag : bool) (df : list Report.row)
             (rows : list Report.hrow),
        Report.calc_high_hourly_R_based W T flag df ∅ = Py.Ok rows -> rows = [])
  /\ (forall (W T : Z) (flag : bool) (df : list Report.row)
             (nodes_all : gset string) (rows : list Report.crow) (row : Report.crow),
        Report.calc_high_hourly_R_based_by_cluster W T flag df nodes_all = Py.Ok rows ->
        row ∈ rows -> Report.N_cluster row = 0 ->
        Report.c_n_receivers_hour row = 0
        /\ Report.c_rate_percent_hour row = Py.FNaN
        /\ Report.c_cumulative_rate_percent row = Py.FNaN)
  /\ (forall (W T : Z) (flag : bool) (df : list Report.row)
             (rows : list Report.crow) (row : Report.crow),
        Report.calc_high_hourly_R_based_by_cluster W T flag df ∅ = Py.Ok rows ->
        row ∈ rows ->
        Report.N_cluster row = 0
        /\ Report.c_n_receivers_hour row = 0
        /\ Report.c_rate_percent_hour row = Py.FNaN
        /\ Report.c_cumulative_rate_percent row = Py.FNaN).
Proof.
  split; [apply EmptyFacts.script_no_line|].
  split; [apply EmptyFacts.calc_high_no_line|].
  split; [intros W T flag df nodes_all rows row H Hin HN;
          apply (EmptyFacts.empty_cluster_line _ _ _ _ _ _ _ H Hin HN)|].
  intros W T flag df rows row H Hin.
  pose proof (EmptyFacts.no_node_no_member _ _ _ _ _ _ H Hin) as HN.
  split; [exact HN|]. apply (EmptyFacts.empty_cluster_line _ _ _ _ _ _ _ H Hin HN).
Qed.

Lemma C4_empty_node_set_witness :
  let evs := Script.events Sample.float
               ["100 DE box1 box2 M_H1 R"; "200 DE box2 do3 M_H1 D"] in
  Script.N true true evs = 0
  /\ Script.high_rows 3600 12 true true evs = [].
Proof.
  cbv zeta.
  assert (Script.N true true
            (Script.events Sample.float
               ["100 DE box1 box2 M_H1 R"; "200 DE box2 do3 M_H1 D"]) = 0) as HN
    by (vm_compute; reflexivity).
  split; [exact HN|].
  destruct C4_empty_node_set as (H & _).
  apply (H Sample.float 3600 12 true true _ HN).
Defined.

(** C4, as stated, fails on the pandas program: on a log with one relay
    to node [A], [calc_high_hourly_R_based_by_cluster] called with the
    empty node set writes three lines, one per cluster, and each carries
    NaN, not 0, for both rates.  Called with the node set of that log,
    in which none of the clusters p, q, r has a member, it writes the
    same three lines. *)
Lemma C4_counterexample :
  let df := Report.parse_eventlogreport Sample.float ["100 DE C A M_H1 R"] in
  let lines := [Report.mkCrow "M_H1" 1 "p" 0 0 Py.FNaN Py.FNaN;
                Report.mkCrow "M_H1" 1 "q" 0 0 Py.FNaN Py.FNaN;
                Report.mkCrow "M_H1" 1 "r" 0 0 Py.FNaN Py.FNaN] in
  Report.calc_high_hourly_R_based_by_cluster 3600 1 true df ∅ = Py.Ok lines
  /\ Report.calc_high_hourly_R_based_by_cluster 3600 1 true df
       (Report.compute_denominator_nodes df true) = Py.Ok lines
  /\ Py.isnan Py.FNaN = true
  /\ Py.FNaN <> Py.FFin 0.
Proof. cbv zeta. repeat split; try (vm_compute; reflexivity). discriminate. Qed.


(** X26.  When [calc_high_hourly_R_based] returns, its lines come in
    blocks, one per id of [mh_ids] in that order, with one line per hour
    [1 .. TOTAL_HOURS] in increasing order. *)
Theorem X26_report_one_line_per_id_and_hour (W T : Z) (flag : bool)
    (df : list Report.row) (nodes_all : gset string) (rows : list Report.hrow) :
  Report.calc_high_hourly_R_based W T flag df nodes_all = Py.Ok rows ->
  exists ids,
    Report.mh_ids flag df = Py.Ok ids
    /\ (fun r => (Report.row_id r, Report.hour_index r)) <$> rows
       = flat_map (fun mid => (fun h => (mid, h)) <$> seqZ 1 T) ids.
Proof.
  unfold Report.calc_high_hourly_R_based. destruct df as [|r0 df0] eqn:E;
    [discriminate|]. rewrite <- E. intros H.
  apply ReportFacts.bind_Ok in H as (ids & Hids & H).
  exists ids. split; [exact Hids|].
  eapply TableRangeFacts.for_each_keys; [|exact H].
  intros mid rws Hr. cbv beta in Hr.
  rewrite (TableRangeFacts.hour_records_keys _ _ _ _ _ _ Hr).
  rewrite <- TableRangeFacts.bins_hours with (W := W).
  rewrite <- list_fmap_compose. reflexivity.
Qed.

Lemma X26_report_one_line_per_id_and_hour_witness :
  let df := Report.parse_eventlogreport Sample.float Sample.scenario_log in
  Report.calc_high_hourly_R_based 3600 2 true df
    (Report.compute_denominator_nodes df true)
  = Py.Ok [Report.mkHrow "M_H1" 1 3 1 33 33; Report.mkHrow "M_H1" 2 3 2 67 67]
  /\ exists ids,
       Report.mh_ids true df = Py.Ok ids
       /\ [("M_H1", 1); ("M_H1", 2)]
          = flat_map (fun mid => (fun h => (mid, h)) <$> seqZ 1 2) ids.
Proof.
  cbv zeta.
  match goal with |- ?A /\ _ => assert A as H by (vm_compute; reflexivity) end.
  split; [exact H|].
  apply (X26_report_one_line_per_id_and_hour 3600 2 true _ _ _ H).
Defined.

(** X27.  For every log on which [main] returns, every line of the
    hourly table is in range: the count of the hour does not exceed [N]
    and both rounded rates lie between 0 and 100. *)
Theorem X27_report_rates_in_range (float : string -> option Py.pyfloat)
    (W T : Z) (flag : bool) (log : list string) (long : list Report.hrow)
    (by_cluster : list Report.crow)
    (low : Z * Z * Py.pyfloat * list Report.idrow) (row : Report.hrow) :
  Report.main float W T flag log = Py.Ok (long, by_cluster, low) ->
  row ∈ long ->
  0 <= Report.n_receivers_hour row <= Report.row_N row
  /\ 0 <= Report.rate_percent_hour row <= 100
  /\ 0 <= Report.cumulative_rate_percent row <= 100.
Proof.
  unfold Report.main. intros H Hin.
  apply ReportFacts.bind_Ok in H as (l & Hl & H).
  apply ReportFacts.bind_Ok in H as (c & _ & H).
  apply ReportFacts.bind_Ok in H as (s & _ & H).
  apply ReportFacts.Ok_inj in H. injection H as -> -> ->.
  unfold Report.calc_high_hourly_R_based in Hl.
  destruct (Report.parse_eventlogreport float log) as [|r0 df0] eqn:E;
    [discriminate|]. rewrite <- E in *.
  apply ReportFacts.bind_Ok in Hl as (ids & _ & Hl).
  destruct (ReportFacts.for_each_Ok _ _ _ Hl _ Hin) as (mid & rws & _ & Hr & Hrow).
  simpl in Hr.
  assert (forall r,
             r ∈ Report.sub_of
                   (Report.high_R flag (Report.parse_eventlogreport float log)) mid ->
             Report.astype_str (Report.Dst r)
               ∈ Report.compute_denominator_nodes
                   (Report.parse_eventlogreport float log) flag) as Hsub.
  { intros r [Hr' _]%BinFacts.elem_of_List_filter.
    apply ReceiptFacts.report_receipt in Hr' as (_ & _ & _ & _ & n & Hn & Hnode).
    rewrite Hn. exact Hnode. }
  exact (TableRangeFacts.hour_records_range _ _ Hsub mid _ ∅ rws
           ltac:(set_solver) Hr row Hrow).
Qed.

Lemma X27_report_rates_in_range_witness :
  Report.main Sample.float 3600 1 true
    ["1 C C M_L1"; "100 DE C A M_H1 R"; "200 DE C A M_L1 D"]
  = Py.Ok ([Report.mkHrow "M_H1" 1 2 1 50 50],
           [Report.mkCrow "M_H1" 1 "p" 0 0 Py.FNaN Py.FNaN;
            Report.mkCrow "M_H1" 1 "q" 0 0 Py.FNaN Py.FNaN;
            Report.mkCrow "M_H1" 1 "r" 0 0 Py.FNaN Py.FNaN],
           ((1, 1, Py.FFin 100), [("M_L1", 1, 1, Py.FFin 100)]))
  /\ 0 <= 1 <= 2 /\ 0 <= 50 <= 100 /\ 0 <= 50 <= 100.
Proof.
  match goal with |- ?A /\ _ => assert A as H by (vm_compute; reflexivity) end.
  split; [exact H|].
  apply (X27_report_rates_in_range _ _ _ _ _ _ _ _
           (Report.mkHrow "M_H1" 1 2 1 50 50) H).
  left.
Defined.

(** X28.  Every line of the per-cluster table counts only receivers of
    the cluster: the count of the hour does not exceed the size of the
    cluster, and each of the two rates is NaN or lies between 0 and
    100. *)
Theorem X28_cluster_rates_in_range (W T : Z) (flag : bool) (df : list Report.row)
    (nodes_all : gset string) (rows : list Report.crow) (row : Report.crow) :
  Report.calc_high_hourly_R_based_by_cluster W T flag df nodes_all = Py.Ok rows ->
  row ∈ rows ->
  0 <= Report.c_n_receivers_hour row <= Report.N_cluster row
  /\ Link.nan_or_percentage (Report.c_rate_percent_hour row)
  /\ Link.nan_or_percentage (Report.c_cumulative_rate_percent row).
Proof. apply TableRangeFacts.calc_by_cluster_range. Qed.

Lemma X28_cluster_rates_in_range_witness :
  let df := Report.parse_eventlogreport Sample.float
              ["100 DE p1 p2 M_H1 R"; "200 DE p1 q1 M_H1 R"] in
  let nodes := Report.compute_denominator_nodes df true in
  Report.calc_high_hourly_R_based_by_cluster 3600 1 true df nodes
  = Py.Ok [Report.mkCrow "M_H1" 1 "p" 2 1 (Py.FFin 50) (Py.FFin 50);
           Report.mkCrow "M_H1" 1 "q" 1 1 (Py.FFin 100) (Py.FFin 100);
           Report.mkCrow "M_H1" 1 "r" 0 0 Py.FNaN Py.FNaN]
  /\ 0 <= 1 <= 2
  /\ Link.nan_or_percentage (Py.FFin 50)
  /\ Link.nan_or_percentage (Py.FFin 50).
Proof.
  cbv zeta.
  match goal with |- ?A /\ _ => assert A as H by (vm_compute; reflexivity) end.
  split; [exact H|].
  apply (X28_cluster_rates_in_range _ _ _ _ _ _
           (Report.mkCrow "M_H1" 1 "p" 2 1 (Py.FFin 50) (Py.FFin 50)) H).
  left.
Defined.

(** X29.  An identifier that ends in a run of more than 4300 decimal
    digits: [int] refuses the run, so [natural_key] raises [ValueError],
    and with it the sort of every list that holds the identifier, while
    [sort_key] of the script catches the exception and returns the pair
    of the identifier and -1. *)
Theorem X29_digit_run_beyond_limit (head ds : string) (ids : list string) :
  Py.all_chars Py.isdecimal ds = true ->
  Py.max_str_digits < Z.of_nat (String.length ds) ->
  Py.last_is Py.isdigit head = false ->
  Report.natural_key (head ++ ds) = Py.Raise Py.ValueError
  /\ (head ++ ds ∈ ids -> Report.sorted_natural ids = Py.Raise Py.ValueError)
  /\ Script.sort_key (head ++ ds) = (head ++ ds, -1).
Proof.
  intros Hds Hlen Hhead.
  assert (Py.last_is Py.isdecimal head = false) as Hdec.
  { destruct (Py.last_is Py.isdecimal head) eqn:E; [|reflexivity].
    rewrite <- Hhead. symmetry. revert E. clear.
    induction head as [|c head IH]; [discriminate|]. cbn [Py.last_is].
    destruct head; [apply KeyFacts.decimal_isdigit | exact IH]. }
  pose proof (KeyFacts.natural_key_too_long head ds Hds Hlen Hdec) as Hkey.
  split; [exact Hkey|].
  split; [intros Hin; apply (KeyFacts.sorted_natural_raises _ _ _ Hin Hkey)|].
  apply KeyFacts.sort_key_too_long; assumption.
Qed.

Lemma X29_digit_run_beyond_limit_witness :
  let ds := Sample.digit_run 4301 in
  Py.all_chars Py.isdecimal ds = true
  /\ Py.max_str_digits < Z.of_nat (String.length ds)
  /\ Py.last_is Py.isdigit "M_H" = false
  /\ Report.natural_key ("M_H" ++ ds) = Py.Raise Py.ValueError
  /\ ("M_H" ++ ds ∈ ["M_H1"; "M_H" ++ ds] ->
      Report.sorted_natural ["M_H1"; "M_H" ++ ds] = Py.Raise Py.ValueError)
  /\ Script.sort_key ("M_H" ++ ds) = ("M_H" ++ ds, -1).
Proof.
  cbv zeta.
  assert (Py.all_chars Py.isdecimal (Sample.digit_run 4301) = true) as H1
    by (vm_compute; reflexivity).
  assert (Py.max_str_digits < Z.of_nat (String.length (Sample.digit_run 4301)))
    as H2 by (vm_compute; reflexivity).
  assert (Py.last_is Py.isdigit "M_H" = false) as H3 by reflexivity.
  split; [exact H1|]. split; [exact H2|]. split; [exact H3|].
  apply (X29_digit_run_beyond_limit "M_H" _ _ H1 H2 H3).
Defined.
